(** * daqu: data-quality scoring and model recommendation

    A shallow embedding of the scoring core of the backend:
    - [app/services/data_analyzer.py]   (class [EnterpriseDataAnalyzer]),
    - [app/services/model_recommender.py] (class [ModelRecommender]),
    - [app/services/model_trainer.py]   ([ModelTrainer._detect_task_type]).

    Conventions of the embedding.
    - A pandas [DataFrame] is a list of typed columns over a common index.
      A cell is [option value]; [None] stands for NaN / None / NaT.
    - Inside the measurers Python [float] arithmetic is idealised as exact
      rational arithmetic ([Q]); the two infinities a float column may hold
      are explicit values.  The overall score is computed as the code
      computes it, in IEEE 754 doubles (section Doubles): a finite double
      is the rational it denotes and every operation rounds its exact
      result to the nearest double.  Equalities between numbers are
      therefore stated with [==].
    - A Python exception is an explicit result ([Raise]); code that cannot
      raise is a total function.
    - Functions of pandas, numpy and [re] whose algorithm is not part of the
      repository (quantiles, date parsing, correlation, variance, regular
      expressions) are the fields of the class [Pandas]. *)

From Stdlib Require Import QArith ZArith List String Ascii Bool Arith Lia Lqa.
From Stdlib Require Import Permutation Sorted Qround Qabs Qpower.
From Stdlib Require Import DecimalString.
Import ListNotations.

Local Open Scope string_scope.
Local Open Scope Q_scope.

(** ** Python results *)

Inductive exn : Type :=
| ZeroDivisionError
| KeyError
| TypeError.

Inductive res (A : Type) : Type :=
| Ok (a : A)
| Raise (e : exn).

Arguments Ok {A} a.
Arguments Raise {A} e.

Definition bind {A B : Type} (m : res A) (k : A -> res B) : res B :=
  match m with
  | Ok a => k a
  | Raise e => Raise e
  end.

Notation "x <- m ;; k" := (bind m (fun x => k))
  (at level 61, m at next level, right associativity).

(** Python's [a / b] on numbers: a zero divisor raises. *)
Definition pydiv (a b : Q) : res Q :=
  if Qeq_bool b 0 then Raise ZeroDivisionError else Ok (a / b).

(** ** Rounding

    [round(x, ndigits)]: the nearest multiple of [10^-ndigits], a tie going
    to the even neighbour. *)

Definition round_half_even (q : Q) : Z :=
  let f := Qfloor q in
  match Qcompare (q - inject_Z f) (1 # 2) with
  | Lt => f
  | Gt => (f + 1)%Z
  | Eq => if Z.even f then f else (f + 1)%Z
  end.

Definition pow10 (n : nat) : Q := inject_Z (10 ^ Z.of_nat n).

Definition round (q : Q) (ndigits : nat) : Q :=
  inject_Z (round_half_even (q * pow10 ndigits)) / pow10 ndigits.

Definition Qnat (n : nat) : Q := inject_Z (Z.of_nat n).

(** ** Doubles

    A finite IEEE 754 double is the rational it denotes.  [double q] is
    the double nearest to [q], a tie going to the even mantissa: 53 bits
    of mantissa from the leading bit of [q] on, and steps of [2^-1074] in
    the subnormal range.  It is what a float literal denotes and what an
    arithmetic operation returns for the exact result [q].  Numbers beyond
    the largest double (about [1.8e308]) do not occur here, so overflow is
    left out.  Doubles compare as the numbers they denote. *)

Definition pow2 (e : Z) : Q := 2 ^ e.

(** For [q > 0], the [e] with [2^e <= q < 2^(e+1)]. *)
Definition floor_log2 (q : Q) : Z :=
  let e := (Z.log2 (Qnum q) - Z.log2 (Zpos (Qden q)))%Z in
  if Qle_bool (pow2 e) q then e else (e - 1)%Z.

(** The exponent of the last mantissa bit of the doubles around [q]. *)
Definition ulp_exponent (q : Q) : Z :=
  Z.max (floor_log2 (Qabs q) - 52) (-1074).

Definition double (q : Q) : Q :=
  let e := ulp_exponent q in
  inject_Z (round_half_even (q / pow2 e)) * pow2 e.

(** [a + b], [a * b] and [a / b] on floats. *)
Definition fadd (a b : Q) : Q := double (a + b).
Definition fmul (a b : Q) : Q := double (a * b).
Definition fdiv (a b : Q) : Q := double (a / b).

(** [round(x, ndigits)] on a float [x]: the exact value of [x] is rounded
    to [ndigits] decimals, a tie going to the even neighbour, and the
    result is the double nearest to that decimal. *)
Definition fround (x : Q) (ndigits : nat) : Q := double (round x ndigits).

(** [a < b] on numbers. *)
Definition Qltb (a b : Q) : bool := negb (Qle_bool b a).

(** [a >= b] on numbers. *)
Definition Qgeb (a b : Q) : bool := Qle_bool b a.

(** ** Strings *)

Definition lower_ascii (c : ascii) : ascii :=
  let n := nat_of_ascii c in
  if (65 <=? n)%nat && (n <=? 90)%nat then ascii_of_nat (n + 32) else c.

(** [str.lower()], on the ASCII letters. *)
Fixpoint lower (s : string) : string :=
  match s with
  | EmptyString => EmptyString
  | String c s' => String (lower_ascii c) (lower s')
  end.

(** [kw in s] for strings: [kw] occurs as a substring of [s]. *)
Fixpoint contains (kw s : string) : bool :=
  prefix kw s ||
  match s with
  | EmptyString => false
  | String _ s' => contains kw s'
  end.

(** The characters [str.strip()] removes (ASCII). *)
Definition is_space (c : ascii) : bool :=
  let n := nat_of_ascii c in
  ((9 <=? n)%nat && (n <=? 13)%nat) || ((28 <=? n)%nat && (n <=? 32)%nat).

Fixpoint lstrip (s : string) : string :=
  match s with
  | EmptyString => EmptyString
  | String c s' => if is_space c then lstrip s' else s
  end.

(** [rstrip]: a space is dropped when only spaces follow it. *)
Fixpoint rstrip (s : string) : string :=
  match s with
  | EmptyString => EmptyString
  | String c s' =>
      match rstrip s' with
      | EmptyString => if is_space c then EmptyString else String c EmptyString
      | r => String c r
      end
  end.

(** [s.strip()] *)
Definition strip (s : string) : string := rstrip (lstrip s).

Definition is_digit (c : ascii) : bool :=
  let n := nat_of_ascii c in (48 <=? n)%nat && (n <=? 57)%nat.

(** The length of [re.sub(r'\D', '', s)]: the number of digits of [s]. *)
Fixpoint digits (s : string) : nat :=
  match s with
  | EmptyString => 0%nat
  | String c s' => ((if is_digit c then 1 else 0) + digits s')%nat
  end.

(** [any(kw in name.lower() for kw in kws)] *)
Definition any_keyword (kws : list string) (name : string) : bool :=
  existsb (fun kw => contains kw (lower name)) kws.

(** ** Data frames *)

Module pd.

Inductive dtype : Type :=
| int64
| float64
| object
| category
| datetime64
| boolean.

(** [np.number]: what [select_dtypes(include=[np.number])] keeps. *)
Definition is_number (d : dtype) : bool :=
  match d with
  | int64 | float64 => true
  | _ => false
  end.

(** [include=['object', 'category']] *)
Definition is_categorical (d : dtype) : bool :=
  match d with
  | object | category => true
  | _ => false
  end.

Definition is_datetime (d : dtype) : bool :=
  match d with
  | datetime64 => true
  | _ => false
  end.

Definition is_bool (d : dtype) : bool :=
  match d with
  | boolean => true
  | _ => false
  end.

Definition dtype_eqb (a b : dtype) : bool :=
  match a, b with
  | int64, int64 | float64, float64 | object, object
  | category, category | datetime64, datetime64 | boolean, boolean => true
  | _, _ => false
  end.

(** A non-missing cell.  [VTime] is an instant in microseconds. *)
Inductive value : Type :=
| VNum (x : Q)
| VInf (negative : bool)
| VStr (s : string)
| VBool (b : bool)
| VTime (t : Z).

Definition cell : Type := option value.

Definition value_eqb (a b : value) : bool :=
  match a, b with
  | VNum x, VNum y => Qeq_bool x y
  | VInf s, VInf t => Bool.eqb s t
  | VStr s, VStr t => String.eqb s t
  | VBool s, VBool t => Bool.eqb s t
  | VTime s, VTime t => Z.eqb s t
  | _, _ => false
  end.

(** Equality of cells as [duplicated] sees it: two missing cells in the same
    position agree. *)
Definition cell_eqb (a b : cell) : bool :=
  match a, b with
  | None, None => true
  | Some x, Some y => value_eqb x y
  | _, _ => false
  end.

Record Series : Type := mkSeries {
  name : string;
  dtype_of : dtype;
  cells : list cell
}.

(** [index] is the number of rows ([len(df)]); a frame may have rows and no
    column. *)
Record DataFrame : Type := mkDataFrame {
  index : nat;
  columns : list Series
}.

(** Every column has one cell per row. *)
Definition well_formed (df : DataFrame) : Prop :=
  Forall (fun c => List.length (cells c) = index df) (columns df).

Definition len (df : DataFrame) : nat := index df.

(** [df.size] *)
Definition size (df : DataFrame) : nat :=
  (index df * List.length (columns df))%nat.

(** [df.empty] *)
Definition empty (df : DataFrame) : bool :=
  (index df =? 0)%nat || (List.length (columns df) =? 0)%nat.

Definition notna (c : cell) : bool :=
  match c with
  | Some _ => true
  | None => false
  end.

(** [s.dropna()] *)
Fixpoint dropna (l : list cell) : list value :=
  match l with
  | [] => []
  | Some v :: l' => v :: dropna l'
  | None :: l' => dropna l'
  end.

(** [s.notna().sum()] *)
Definition notna_sum (s : Series) : nat := List.length (dropna (cells s)).

(** [s.isna().sum()] *)
Definition isna_sum (s : Series) : nat :=
  List.length (filter (fun c => negb (notna c)) (cells s)).

Definition total (l : list nat) : nat := fold_right Nat.add 0%nat l.

(** [s.unique()] on the non-missing values: first occurrences, in order. *)
Fixpoint unique (l : list value) : list value :=
  match l with
  | [] => []
  | v :: l' => v :: filter (fun w => negb (value_eqb v w)) (unique l')
  end.

(** [s.nunique()]: the number of distinct non-missing values. *)
Definition nunique (s : Series) : nat :=
  List.length (unique (dropna (cells s))).

Definition count_value (v : value) (l : list value) : nat :=
  List.length (filter (value_eqb v) l).

(** [s.value_counts(normalize=True)]: the share of every distinct
    non-missing value among the non-missing values.  (For a column of
    dtype category pandas also lists the categories that no cell uses,
    with share 0; the frame model does not record them.) *)
Definition value_counts_normalized (s : Series) : list Q :=
  let vs := dropna (cells s) in
  map (fun v => Qnat (count_value v vs) / Qnat (List.length vs)) (unique vs).

Definition Qmax (a b : Q) : Q := if Qle_bool a b then b else a.
Definition Qmin (a b : Q) : Q := if Qle_bool a b then a else b.

(** [.max()] and [.min()] of a series of numbers; [None] is the NaN an empty
    series gives. *)
Definition series_max (l : list Q) : option Q :=
  match l with
  | [] => None
  | x :: l' => Some (fold_left Qmax l' x)
  end.

Definition series_min (l : list Q) : option Q :=
  match l with
  | [] => None
  | x :: l' => Some (fold_left Qmin l' x)
  end.

(** [col in df.columns] and [df[col]] (the first column of that name). *)
Definition get_column (df : DataFrame) (col : string) : option Series :=
  find (fun c => String.eqb (name c) col) (columns df).

(** [df.select_dtypes(include=...).columns.tolist()] *)
Definition select_dtypes (p : dtype -> bool) (df : DataFrame) : list string :=
  map name (filter (fun c => p (dtype_of c)) (columns df)).

(** [col in cols] for a list of column names. *)
Definition name_in (col : string) (cols : list string) : bool :=
  existsb (String.eqb col) cols.

(** Row [i] of the frame, across all columns. *)
Definition row (df : DataFrame) (i : nat) : list cell :=
  map (fun c => nth i (cells c) None) (columns df).

Definition rows (df : DataFrame) : list (list cell) :=
  map (row df) (seq 0 (index df)).

Fixpoint row_eqb (r1 r2 : list cell) : bool :=
  match r1, r2 with
  | [], [] => true
  | a :: r1', b :: r2' => cell_eqb a b && row_eqb r1' r2'
  | _, _ => false
  end.

(** The flags of [duplicated(keep='first')] on a list of rows: a row is
    flagged when an earlier row holds the same values in the same order. *)
Fixpoint duplicated_from (seen : list (list cell)) (rs : list (list cell))
  : list bool :=
  match rs with
  | [] => []
  | r :: rs' => existsb (row_eqb r) seen :: duplicated_from (seen ++ [r]) rs'
  end.

(** [df.duplicated()]: pandas answers with an empty series for an empty
    frame (no row or no column), before looking at any row. *)
Definition duplicated (df : DataFrame) : list bool :=
  if empty df then [] else duplicated_from [] (rows df).

(** [.sum()] of a boolean series. *)
Definition count_true (l : list bool) : nat := List.length (filter id l).

End pd.

Import pd.

(** The task of a target column, as both services name it. *)
Inductive task : Type :=
| classification
| regression
| unknown.

(** ** [model_trainer.py] *)

Module ModelTrainer.

(** [ModelTrainer._detect_task_type], for [self.df = df] and
    [self.target_column = target_column]. *)
Definition _detect_task_type (df : DataFrame) (target_column : string)
  : res task :=
  match get_column df target_column with
  | None => Raise KeyError
  | Some target =>
      if dtype_eqb (dtype_of target) object
         || dtype_eqb (dtype_of target) category
      then Ok classification
      else
        unique_ratio <- pydiv (Qnat (nunique target))
                              (Qnat (List.length (cells target))) ;;
        if (nunique target <=? 20)%nat && Qltb unique_ratio (5 # 100)
        then Ok classification
        else Ok regression
  end.

(** [ModelTrainer.SUPPORTED_MODELS]; no entry for a task that is neither
    classification nor regression. *)
Definition SUPPORTED_MODELS (t : task) : option (list string) :=
  match t with
  | classification =>
      Some ["xgboost"; "lightgbm"; "catboost"; "random_forest";
            "logistic_regression"; "gradient_boosting"]
  | regression =>
      Some ["xgboost"; "lightgbm"; "catboost"; "random_forest";
            "linear_regression"; "ridge"; "lasso"; "gradient_boosting"]
  | unknown => None
  end.

(** The rates added to the metrics of a binary classification, from
    [tn, fp, fn, tp = cm.ravel()]. *)
Record binary_rates : Type := mkRates {
  specificity : Q;
  sensitivity : Q;
  npv : Q;
  fpr : Q;
  fnr : Q
}.

Definition binary_metrics (tn fp fn tp : nat) : binary_rates :=
  mkRates
    (round (if (0 <? tn + fp)%nat then Qnat tn / Qnat (tn + fp) else 0) 4)
    (round (if (0 <? tp + fn)%nat then Qnat tp / Qnat (tp + fn) else 0) 4)
    (round (if (0 <? tn + fn)%nat then Qnat tn / Qnat (tn + fn) else 0) 4)
    (round (if (0 <? fp + tn)%nat then Qnat fp / Qnat (fp + tn) else 0) 4)
    (round (if (0 <? fn + tp)%nat then Qnat fn / Qnat (fn + tp) else 0) 4).

(** One entry of the list [train_multiple] returns: the result of a
    training run (of which the name and the metrics are kept), or the
    dictionary written when the run raised. *)
Inductive outcome : Type :=
| Trained (model_name : string) (metrics : list (string * Q))
| Errored (model_name : string) (error : string).

(** [d.get(k, 0)] on the metrics. *)
Fixpoint get_or_0 (d : list (string * Q)) (k : string) : Q :=
  match d with
  | [] => 0
  | (k', v) :: d' => if String.eqb k' k then v else get_or_0 d' k
  end.

(** The sort key: [x.get("metrics", {}).get("accuracy", 0)], or the same
    with ["r2_score"] when the task is not classification. *)
Definition primary_metric (t : task) (x : outcome) : Q :=
  match x with
  | Trained _ metrics =>
      get_or_0 metrics
        (match t with
         | classification => "accuracy"
         | _ => "r2_score"
         end)
  | Errored _ _ => 0
  end.

(** One step of [results.sort(key=..., reverse=True)]: [x] came before
    every item of [l] and stays before those with the same key. *)
Fixpoint insert_by (key : outcome -> Q) (x : outcome) (l : list outcome)
  : list outcome :=
  match l with
  | [] => [x]
  | y :: l' =>
      if Qltb (key x) (key y) then y :: insert_by key x l'
      else x :: y :: l'
  end.

Definition sort_by (key : outcome -> Q) (l : list outcome) : list outcome :=
  fold_right (insert_by key) [] l.

Section Training.

(** [self.train(name)]: the metrics of the run, or the text of the
    exception it raised.  The split and the models are seeded, so a run
    is taken to depend on the model name only; the metrics are taken to
    be finite numbers. *)
Variable train : string -> list (string * Q) + string.

(** The body of the loop: the [try] and its [except]. *)
Definition attempt (name : string) : outcome :=
  match train name with
  | inl metrics => Trained name metrics
  | inr error => Errored name error
  end.

(** [ModelTrainer.train_multiple] for [self.task_type = t]. *)
Definition train_multiple (t : task) (model_names : option (list string))
  : res (list outcome) :=
  model_names <-
    match model_names with
    | Some names => Ok names
    | None =>
        match SUPPORTED_MODELS t with
        | Some names => Ok (firstn 4 names)
        | None => Raise KeyError
        end
    end ;;
  Ok (sort_by (primary_metric t) (map attempt model_names)).

End Training.

End ModelTrainer.

(** ** [model_recommender.py] *)

Module ModelRecommender.

Inductive size : Type :=
| small
| medium
| large.

(** The entry of [MODEL_INFO] for one model id (its display texts; the
    lists of strengths and the pictogram are left out). *)
Record info : Type := mkInfo {
  info_name : string;
  description : string;
  complexity : string;
  interpretability : string
}.

Definition MODEL_INFO : list (string * info) :=
  [ ("xgboost",
     mkInfo "XGBoost"
       "Extreme Gradient Boosting - Industry standard for tabular data"
       "Medium" "Medium");
    ("lightgbm",
     mkInfo "LightGBM"
       "Light Gradient Boosting Machine - Optimized for speed and memory"
       "Medium" "Medium");
    ("catboost",
     mkInfo "CatBoost"
       "Categorical Boosting - Native categorical feature handling"
       "Low" "Medium");
    ("random_forest",
     mkInfo "Random Forest"
       "Ensemble of decision trees - Reliable and interpretable"
       "Low" "High");
    ("logistic_regression",
     mkInfo "Logistic Regression"
       "Statistical model for binary/multiclass classification"
       "Low" "Very High");
    ("linear_regression",
     mkInfo "Linear Regression"
       "Simple statistical model for numerical prediction"
       "Very Low" "Very High");
    ("gradient_boosting",
     mkInfo "Gradient Boosting"
       "Scikit-learn's gradient boosting implementation"
       "Medium" "Medium") ].

(** The dictionary [profile] that [_analyze_data] builds.  A key that a
    branch does not set is [None] (what [profile.get] answers).  The memory
    estimate and the mean, deviation and skewness of a regression target are
    left out: no score reads them. *)
Record data_profile : Type := mkProfile {
  rows : nat;
  columns : nat;
  numeric_columns : nat;
  categorical_columns : nat;
  datetime_columns : nat;
  missing_percentage : option Q;
  has_missing : bool;
  target_column : option string;
  task_type : task;
  num_classes : option nat;
  imbalance_ratio : option Q;
  is_imbalanced : option bool;
  majority_class_pct : option Q;
  size_category : size
}.

(** [df.isna().sum().sum()] *)
Definition isna_total (df : DataFrame) : nat :=
  total (map isna_sum (pd.columns df)).

(** [(df.isna().sum().sum() / df.size) * 100].  The dividend is a numpy
    integer, so a frame without cells gives NaN ([None]) and no exception. *)
Definition missing_pct (df : DataFrame) : option Q :=
  if (pd.size df =? 0)%nat then None
  else Some (Qnat (isna_total df) / Qnat (pd.size df) * 100).

(** [x > 0] for a float that may be NaN. *)
Definition positive (x : option Q) : bool :=
  match x with
  | Some q => Qltb 0 q
  | None => false
  end.

(** [value_counts.max() / value_counts.min() if value_counts.min() > 0
    else 999] *)
Definition imbalance (value_counts : list Q) : Q :=
  match series_max value_counts, series_min value_counts with
  | Some mx, Some mn => if Qltb 0 mn then mx / mn else 999
  | _, _ => 999
  end.

Definition size_of_rows (n : nat) : size :=
  if (Z.of_nat n <? 1000)%Z then small
  else if (Z.of_nat n <? 100000)%Z then medium
  else large.

(** The truth value of [self.target_column]: [None] and the empty string
    are false. *)
Definition truthy (target : option string) : option string :=
  match target with
  | Some "" => None
  | t => t
  end.

(** [ModelRecommender._analyze_data], run by the constructor. *)
Definition _analyze_data (df : DataFrame) (target : option string)
  : res data_profile :=
  let numeric_cols := select_dtypes is_number df in
  let categorical_cols := select_dtypes is_categorical df in
  let datetime_cols := select_dtypes is_datetime df in
  let finish tcol ttype nclasses ratio imbalanced majority :=
    mkProfile (len df) (List.length (pd.columns df))
      (List.length numeric_cols) (List.length categorical_cols)
      (List.length datetime_cols)
      (option_map (fun q => round q 2) (missing_pct df))
      (positive (missing_pct df))
      tcol ttype nclasses ratio imbalanced majority
      (size_of_rows (len df)) in
  match truthy target with
  | Some t =>
      match get_column df t with
      | Some target =>
          if dtype_eqb (dtype_of target) object || (nunique target <=? 20)%nat
          then
            let value_counts := value_counts_normalized target in
            let ratio := imbalance value_counts in
            Ok (finish (Some t) classification (Some (nunique target))
                  (Some (round ratio 2)) (Some (Qltb 3 ratio))
                  (option_map (fun m => round (m * 100) 1)
                     (series_max value_counts)))
          else if is_number (dtype_of target)
          then Ok (finish (Some t) regression None None None None)
          else Raise TypeError
      | None => Ok (finish None unknown None None None None)
      end
  | None => Ok (finish None unknown None None None None)
  end.

(** [model_id in [...]] *)
Definition among (model_id : string) (ids : list string) : bool :=
  existsb (String.eqb model_id) ids.

Definition boosting : list string := ["xgboost"; "lightgbm"; "catboost"].

Definition is_size (p : data_profile) (s : size) : bool :=
  match size_category p, s with
  | small, small | medium, medium | large, large => true
  | _, _ => false
  end.

(** [profile.get("is_imbalanced")] as a condition. *)
Definition imbalanced (p : data_profile) : bool :=
  match is_imbalanced p with
  | Some b => b
  | None => false
  end.

(** [ModelRecommender._score_model]: the statements in program order. *)
Definition _score_model (profile : data_profile) (model_id : string) : Z :=
  let score := 50%Z in
  let score :=
    if String.eqb model_id "lightgbm" && is_size profile large
    then (score + 20)%Z else score in
  let score :=
    if String.eqb model_id "logistic_regression" && is_size profile small
    then (score + 15)%Z else score in
  let score :=
    if among model_id boosting && is_size profile medium
    then (score + 10)%Z else score in
  let score :=
    if String.eqb model_id "catboost"
       && (3 <? categorical_columns profile)%nat
    then (score + 25)%Z else score in
  let score :=
    if String.eqb model_id "lightgbm"
       && (5 <? categorical_columns profile)%nat
    then (score + 15)%Z else score in
  let score :=
    if has_missing profile && among model_id boosting
    then (score + 10)%Z else score in
  let score :=
    if imbalanced profile && String.eqb model_id "xgboost"
    then (score + 15)%Z else score in
  let score :=
    if among model_id boosting
    then (score + 10)%Z else score in
  let score :=
    if among model_id ["logistic_regression"; "linear_regression"]
    then (score - 5)%Z else score in
  score.

(** The nine heuristics of the scorer as separate terms: each is the
    bonus or penalty of one rule, 0 when the rule does not apply. *)
Definition heuristics (profile : data_profile) (model_id : string) : list Z :=
  [ (if String.eqb model_id "lightgbm" && is_size profile large
     then 20 else 0);
    (if String.eqb model_id "logistic_regression" && is_size profile small
     then 15 else 0);
    (if among model_id boosting && is_size profile medium then 10 else 0);
    (if String.eqb model_id "catboost"
        && (3 <? categorical_columns profile)%nat then 25 else 0);
    (if String.eqb model_id "lightgbm"
        && (5 <? categorical_columns profile)%nat then 15 else 0);
    (if has_missing profile && among model_id boosting then 10 else 0);
    (if imbalanced profile && String.eqb model_id "xgboost" then 15 else 0);
    (if among model_id boosting then 10 else 0);
    (if among model_id ["logistic_regression"; "linear_regression"]
     then -5 else 0) ]%Z.

(** Accumulating a list of bonuses on a starting score, in list order. *)
Definition accumulate (base : Z) (bonuses : list Z) : Z :=
  fold_left Z.add bonuses base.

(** The models offered for a task. *)
Definition available_models (t : task) : list string :=
  match t with
  | classification =>
      ["xgboost"; "lightgbm"; "catboost"; "random_forest";
       "logistic_regression"; "gradient_boosting"]
  | regression =>
      ["xgboost"; "lightgbm"; "catboost"; "random_forest";
       "linear_regression"; "gradient_boosting"]
  | unknown => ["random_forest"; "xgboost"; "lightgbm"]
  end.

(** [scores[model] = score] on a dictionary kept in insertion order. *)
Fixpoint dict_set (k : string) (v : Z) (d : list (string * Z))
  : list (string * Z) :=
  match d with
  | [] => [(k, v)]
  | (k', v') :: d' =>
      if String.eqb k' k then (k, v) :: d' else (k', v') :: dict_set k v d'
  end.

(** One step of [sorted(..., key=lambda x: x[1], reverse=True)]: [x] came
    before every item of [l] and stays before those with the same score. *)
Fixpoint insert_desc (x : string * Z) (l : list (string * Z))
  : list (string * Z) :=
  match l with
  | [] => [x]
  | y :: l' =>
      if (snd x <? snd y)%Z then y :: insert_desc x l' else x :: y :: l'
  end.

(** [sorted(items, key=lambda x: x[1], reverse=True)]: a stable sort,
    highest score first. *)
Definition sorted_desc (items : list (string * Z)) : list (string * Z) :=
  fold_right insert_desc [] items.

(** [l[:n]] for a Python integer [n]: a negative [n] counts from the end. *)
Definition slice_to {A : Type} (l : list A) (n : Z) : list A :=
  if (n <? 0)%Z then firstn (Z.to_nat (Z.of_nat (List.length l) + n)) l
  else firstn (Z.to_nat n) l.

(** One entry of the returned list (the justification text [why] is left
    out). *)
Record recommendation : Type := mkRec {
  rec_info : info;
  id : string;
  rank : nat;
  score : Z
}.

(** The loop over [enumerate(sorted_models[:top_n])], from position [i]. *)
Fixpoint enumerate_from (i : nat) (l : list (string * Z))
  : res (list recommendation) :=
  match l with
  | [] => Ok []
  | (model_id, score) :: l' =>
      match find (fun e => String.eqb (fst e) model_id) MODEL_INFO with
      | None => Raise KeyError
      | Some (_, inf) =>
          recs <- enumerate_from (S i) l' ;;
          Ok (mkRec inf model_id (i + 1) score :: recs)
      end
  end.

(** [ModelRecommender.get_recommendations] on [self.data_profile]. *)
Definition get_recommendations (profile : data_profile) (top_n : Z)
  : res (list recommendation) :=
  let task := task_type profile in
  let scores :=
    fold_left (fun d model => dict_set model (_score_model profile model) d)
      (available_models task) [] in
  let sorted_models := sorted_desc scores in
  enumerate_from 0 (slice_to sorted_models top_n).

(** [ModelRecommender(df, target_column).get_recommendations(top_n)], as
    [generate_chat_response] and the chat route call it: the constructor
    builds the profile, then the ranking reads it. *)
Definition recommend (df : DataFrame) (target : option string)
  (top_n : Z) : res (list recommendation) :=
  profile <- _analyze_data df target ;;
  get_recommendations profile top_n.

(** [str(n)] for a natural number. *)
Definition str_nat (n : nat) : string :=
  DecimalString.NilEmpty.string_of_uint (Nat.to_uint n).

Definition upper_ascii (c : ascii) : ascii :=
  let n := nat_of_ascii c in
  if (97 <=? n)%nat && (n <=? 122)%nat then ascii_of_nat (n - 32) else c.

(** [s.capitalize()]: the first character in upper case, the rest in lower
    case. *)
Definition capitalize (s : string) : string :=
  match s with
  | EmptyString => EmptyString
  | String c s' => String (upper_ascii c) (lower s')
  end.

(** [sep.join(l)] *)
Fixpoint join (sep : string) (l : list string) : string :=
  match l with
  | [] => ""
  | [s] => s
  | s :: l' => s ++ sep ++ join sep l'
  end.

(** The list [reasons] of [_generate_recommendation_reason] when the
    branches are through. *)
Definition reasons (profile : data_profile) (model_id : string)
  : list string :=
  if String.eqb model_id "xgboost" then
    ((if imbalanced profile then ["handles class imbalance well"] else [])
     ++ (if has_missing profile then ["handles missing values natively"]
         else [])
     ++ ["industry standard with best accuracy"])%list
  else if String.eqb model_id "lightgbm" then
    ((if is_size profile large then ["optimized for large datasets"] else [])
     ++ ["fastest training time"; "memory efficient"])%list
  else if String.eqb model_id "catboost" then
    ((if (3 <? categorical_columns profile)%nat
      then [("native handling for your "
             ++ str_nat (categorical_columns profile)
             ++ " categorical columns")%string]
      else [])
     ++ ["no manual encoding needed"])%list
  else if String.eqb model_id "random_forest" then
    ["robust and rarely overfits"; "provides feature importance";
     "good for understanding data"]
  else if String.eqb model_id "logistic_regression" then
    ["fully interpretable coefficients"; "fast baseline for comparison";
     "probabilistic predictions"]
  else if String.eqb model_id "linear_regression" then
    ["simple and fully explainable"; "good baseline model";
     "easy to explain to stakeholders"]
  else [].

(** [ModelRecommender._generate_recommendation_reason], the text stored
    under [why]. *)
Definition _generate_recommendation_reason (profile : data_profile)
  (model_id : string) : string :=
  capitalize (join ", " (firstn 3 (reasons profile model_id))).

End ModelRecommender.

(** ** [data_analyzer.py] *)

(** The functions of pandas and [re] that the analyzer calls and whose
    algorithm lives outside the repository. *)
Class Pandas : Type := {
  (** [col_data.quantile(q)] on the non-missing values of a column *)
  quantile : list value -> Q -> Q;
  (** [pd.to_datetime(..., errors='coerce')] on one value; [None] is NaT *)
  to_datetime : value -> option Z;
  (** [pd.to_datetime(col_data, infer_datetime_format=True)] returns
      ([true]) or raises ([false]) *)
  to_datetime_strict : list value -> bool;
  (** [corr_matrix.iloc[i, j]]; [None] is NaN *)
  corr : Series -> Series -> option Q;
  (** [df[col].var()]; [None] is NaN *)
  var : Series -> option Q;
  (** [re.match(pattern, s)] succeeds *)
  re_match : string -> string -> bool;
  (** [str(v)] for a value that is not a string *)
  repr : value -> string
}.

Module EnterpriseDataAnalyzer.

(** What every returned dictionary has: its [dimension], [score],
    [threshold] and [status], and the keys of the one measurer in
    [detail].  A key that is absent or [None] is [None]. *)
Record result (D : Type) : Type := mkResult {
  dimension : string;
  score : option Q;
  threshold : option Z;
  status : string;
  detail : D
}.

Arguments mkResult {D}.
Arguments dimension {D}.
Arguments score {D}.
Arguments threshold {D}.
Arguments status {D}.
Arguments detail {D}.

(** [self.numeric_cols], [self.categorical_cols], [self.datetime_cols] *)
Definition numeric_cols (df : DataFrame) : list string :=
  select_dtypes is_number df.

Definition categorical_cols (df : DataFrame) : list string :=
  select_dtypes is_categorical df.

Definition datetime_cols (df : DataFrame) : list string :=
  select_dtypes is_datetime df.

Definition boolean_cols (df : DataFrame) : list string :=
  select_dtypes is_bool df.

(** [for col in self.numeric_cols: self.df[col]] and its siblings walk the
    columns of one kind. *)
Definition numeric (df : DataFrame) : list Series :=
  filter (fun c => is_number (dtype_of c)) (pd.columns df).

Definition categorical (df : DataFrame) : list Series :=
  filter (fun c => is_categorical (dtype_of c)) (pd.columns df).

Definition datetime (df : DataFrame) : list Series :=
  filter (fun c => is_datetime (dtype_of c)) (pd.columns df).

(** ["pass" if x >= hi else "warning" if x >= lo else "fail"] *)
Definition status_of (x hi lo : Q) : string :=
  if Qgeb x hi then "pass" else if Qgeb x lo then "warning" else "fail".

(** [for x in l: ...] when the body may raise. *)
Fixpoint for_each {A B : Type} (f : A -> res B) (l : list A) : res (list B) :=
  match l with
  | [] => Ok []
  | a :: l' => b <- f a ;; bs <- for_each f l' ;; Ok (b :: bs)
  end.

(** *** Completeness *)

Record column_completeness : Type := mkColumnCompleteness {
  cc_column : string;
  non_null_count : nat;
  null_count : Z;
  completeness_ratio : Q;
  cc_status : string
}.

Record completeness : Type := mkCompleteness {
  total_cells : nat;
  non_null_cells : nat;
  null_cells : Z;
  columns_below_threshold : nat;
  column_details : list column_completeness
}.

(** One step of [list.sort(key=...)], ascending and stable. *)
Fixpoint insert_asc (x : column_completeness) (l : list column_completeness)
  : list column_completeness :=
  match l with
  | [] => [x]
  | y :: l' =>
      if Qltb (completeness_ratio y) (completeness_ratio x)
      then y :: insert_asc x l' else x :: y :: l'
  end.

Definition sort_by_ratio (l : list column_completeness)
  : list column_completeness :=
  fold_right insert_asc [] l.

Definition measure_completeness (df : DataFrame)
  : res (result completeness) :=
  let total_cells := pd.size df in
  let non_null_cells := total (map notna_sum (pd.columns df)) in
  completeness_ratio <-
    (if (0 <? total_cells)%nat
     then pydiv (Qnat non_null_cells) (Qnat total_cells) else Ok 0) ;;
  column_completeness <-
    for_each (fun col =>
      let non_null := notna_sum col in
      let total := len df in
      ratio <- (if (0 <? total)%nat
                then pydiv (Qnat non_null) (Qnat total) else Ok 0) ;;
      Ok (mkColumnCompleteness (name col) non_null
            (Z.of_nat total - Z.of_nat non_null)
            (round (ratio * 100) 2)
            (status_of ratio (95 # 100) (8 # 10))))
      (pd.columns df) ;;
  let column_completeness := sort_by_ratio column_completeness in
  Ok (mkResult "Completeness"
        (Some (round (completeness_ratio * 100) 2))
        (Some 95%Z)
        (status_of completeness_ratio (95 # 100) (8 # 10))
        (mkCompleteness total_cells non_null_cells
           (Z.of_nat total_cells - Z.of_nat non_null_cells)
           (List.length
              (filter (fun c => String.eqb (cc_status c) "fail")
                 column_completeness))
           column_completeness)).

(** *** Uniqueness *)

Record column_uniqueness : Type := mkColumnUniqueness {
  cu_column : string;
  unique_values : nat;
  cardinality_ratio : Q;
  is_potential_key : bool
}.

Record uniqueness : Type := mkUniqueness {
  total_rows : nat;
  unique_rows : Z;
  duplicate_rows : nat;
  duplicate_percentage : Q;
  column_cardinality : list column_uniqueness;
  potential_key_columns : list string
}.

Definition measure_uniqueness (df : DataFrame) : res (result uniqueness) :=
  let total_rows := len df in
  let duplicate_rows := count_true (duplicated df) in
  let unique_rows := (Z.of_nat total_rows - Z.of_nat duplicate_rows)%Z in
  uniqueness_ratio <-
    (if (0 <? total_rows)%nat
     then pydiv (inject_Z unique_rows) (Qnat total_rows) else Ok 0) ;;
  column_uniqueness <-
    for_each (fun col =>
      let unique_values := nunique col in
      let total_values := notna_sum col in
      cardinality_ratio <-
        (if (0 <? total_values)%nat
         then pydiv (Qnat unique_values) (Qnat total_values) else Ok 0) ;;
      Ok (mkColumnUniqueness (name col) unique_values
            (round (cardinality_ratio * 100) 2)
            (Qltb (95 # 100) cardinality_ratio
             && (total_values =? len df)%nat)))
      (pd.columns df) ;;
  duplicate_percentage <-
    (if (0 <? total_rows)%nat
     then q <- pydiv (Qnat duplicate_rows) (Qnat total_rows) ;;
          Ok (round (q * 100) 2)
     else Ok 0) ;;
  Ok (mkResult "Uniqueness"
        (Some (round (uniqueness_ratio * 100) 2))
        (Some 95%Z)
        (status_of uniqueness_ratio (95 # 100) (9 # 10))
        (mkUniqueness total_rows unique_rows duplicate_rows
           duplicate_percentage column_uniqueness
           (map cu_column (filter is_potential_key column_uniqueness)))).

Section Measurers.

Context {P : Pandas}.

(** *** Validity *)

(** One entry of [issues]: the count and the text that follows it. *)
Record issue : Type := mkIssue {
  violations : nat;
  message : string
}.

Record column_issues : Type := mkColumnIssues {
  ci_column : string;
  ci_dtype : dtype;
  issues : list issue;
  severity : string
}.

Record validity : Type := mkValidity {
  total_checks : nat;
  passed_checks : nat;
  failed_checks : Z;
  validity_issues : list column_issues
}.

(** The three counters of the loop. *)
Record checks : Type := mkChecks {
  total_ : nat;
  passed_ : nat;
  found_ : list issue
}.

(** [total_checks += 1], then the check: an issue when violations were
    counted, [passed_checks += 1] otherwise. *)
Definition check (count : nat) (text : string) (st : checks) : checks :=
  if (0 <? count)%nat
  then mkChecks (total_ st + 1) (passed_ st)
         (found_ st ++ [mkIssue count text])%list
  else mkChecks (total_ st + 1) (passed_ st + 1) (found_ st).

(** [total_checks += 1; passed_checks += 1] *)
Definition pass_check (st : checks) : checks :=
  mkChecks (total_ st + 1) (passed_ st + 1) (found_ st).

Definition is_inf (v : value) : bool :=
  match v with
  | VInf _ => true
  | _ => false
  end.

(** [v < b] and [v > b] for a numeric value and a finite bound. *)
Definition num_lt (v : value) (b : Q) : bool :=
  match v with
  | VNum x => Qltb x b
  | VInf negative => negative
  | _ => false
  end.

Definition num_gt (v : value) (b : Q) : bool :=
  match v with
  | VNum x => Qltb b x
  | VInf negative => negb negative
  | _ => false
  end.

Definition count {A : Type} (p : A -> bool) (l : list A) : nat :=
  List.length (filter p l).

Definition positive_keywords : list string :=
  ["age"; "price"; "amount"; "quantity"; "count"; "size"].

Definition email_pattern : string :=
  "^[a-zA-Z0-9._%+-]+@[a-zA-Z0-9.-]+\.[a-zA-Z]{2,}$".

(** The [.str] accessor answers NaN on a value that is not a string.
    (On a column none of whose values is a string pandas refuses the
    accessor with AttributeError; the two measurers that use it are
    modelled on the columns it accepts.) *)
Definition on_str (f : string -> bool) (v : value) : bool :=
  match v with
  | VStr s => f s
  | _ => false
  end.

(** The checks of a numeric column, on the counters [st]. *)
Definition numeric_checks (col : Series) (col_data : list value)
  (st : checks) : checks :=
  let inf_count :=
    if dtype_eqb (dtype_of col) float64 then count is_inf col_data
    else 0%nat in
  let st := check inf_count "infinite values detected" st in
  if any_keyword positive_keywords (name col)
  then check (count (fun v => num_lt v 0) col_data)
         "unexpected negative values" st
  else pass_check st.

(** The checks of a categorical column. *)
Definition categorical_checks (col : Series) (col_data : list value)
  (st : checks) : checks :=
  let whitespace_count :=
    count (on_str (fun s => String.eqb (strip s) "")) col_data in
  let st := check whitespace_count "whitespace-only values" st in
  let st :=
    if contains "email" (lower (name col))
    then check (count (fun v => negb (on_str (re_match email_pattern) v))
                  col_data)
           "invalid email formats" st
    else st in
  if contains "phone" (lower (name col))
     || contains "mobile" (lower (name col))
  then check (count (on_str (fun s => (digits s <? 10)%nat)) col_data)
         "potentially invalid phone numbers" st
  else st.

(** The body of the loop over [self.df.columns] for one column: the new
    counters ([found_] emptied for the next column) and the entry appended
    to [validity_issues], if any. *)
Definition validity_column (df : DataFrame) (col : Series)
  (acc : checks * list column_issues) : checks * list column_issues :=
  let '(st, validity_issues) := acc in
  let col_data := dropna (cells col) in
  if (List.length col_data =? 0)%nat then acc
  else
    let st := mkChecks (total_ st) (passed_ st) [] in
    let st :=
      if name_in (name col) (numeric_cols df)
      then numeric_checks col col_data st
      else if name_in (name col) (categorical_cols df)
      then categorical_checks col col_data st
      else st in
    match found_ st with
    | [] => (st, validity_issues)
    | issues =>
        (mkChecks (total_ st) (passed_ st) [],
         (validity_issues ++
           [mkColumnIssues (name col) (dtype_of col) issues
              (if (1 <? List.length issues)%nat then "high" else "medium")])%list)
    end.

Definition validity_loop (df : DataFrame) : checks * list column_issues :=
  fold_left (fun acc col => validity_column df col acc) (pd.columns df)
    (mkChecks 0 0 [], []).

Definition measure_validity (df : DataFrame) : res (result validity) :=
  let '(st, validity_issues) := validity_loop df in
  let total_checks := total_ st in
  let passed_checks := passed_ st in
  validity_score <-
    (if (0 <? total_checks)%nat
     then q <- pydiv (Qnat passed_checks) (Qnat total_checks) ;; Ok (q * 100)
     else Ok 100) ;;
  Ok (mkResult "Validity"
        (Some (round validity_score 2))
        (Some 90%Z)
        (status_of validity_score 90 75)
        (mkValidity total_checks passed_checks
           (Z.of_nat total_checks - Z.of_nat passed_checks)
           validity_issues)).

(** *** Consistency *)

Record anomaly : Type := mkAnomaly {
  an_column : string;
  an_issue : string;
  impact : Z
}.

(** [str(v)] *)
Definition str (v : value) : string :=
  match v with
  | VStr s => s
  | _ => repr v
  end.

(** The running score and the issues recorded so far. *)
Definition penalties : Type := (Z * list anomaly)%type.

Definition penalize (col : Series) (what : string) (by_ : Z)
  (acc : penalties) : penalties :=
  ((fst acc - by_)%Z, (snd acc ++ [mkAnomaly (name col) what (- by_)])%list).

(** First loop: letter case and surrounding blanks, per categorical
    column. *)
Definition case_and_whitespace (col : Series) (acc : penalties) : penalties :=
  let col_data := dropna (cells col) in
  if (List.length col_data =? 0)%nat then acc
  else
    let unique_values := unique col_data in
    let lower_values :=
      nodup string_dec (map (fun v => lower (str v)) unique_values) in
    let acc :=
      if (List.length lower_values <? List.length unique_values)%nat
      then penalize col "Case inconsistency detected" 2 acc else acc in
    let has_whitespace :=
      existsb (fun v => negb (on_str (fun s => String.eqb s (strip s)) v))
        col_data in
    if has_whitespace
    then penalize col "Whitespace inconsistency" 1 acc else acc.

Definition date_keywords : list string :=
  ["date"; "time"; "timestamp"; "created"; "updated"].

(** Second loop: a date-named categorical column that pandas cannot read
    as dates. *)
Definition date_format (col : Series) (acc : penalties) : penalties :=
  if any_keyword date_keywords (name col)
  then
    let col_data := dropna (cells col) in
    if (0 <? List.length col_data)%nat
    then
      if to_datetime_strict col_data then acc
      else penalize col "Date format inconsistency" 5 acc
    else acc
  else acc.

(** Third loop: extreme outliers of a numeric column. *)
Definition numeric_range (col : Series) (acc : penalties) : penalties :=
  let col_data := dropna (cells col) in
  if (10 <? List.length col_data)%nat
  then
    let q1 := quantile col_data (25 # 100) in
    let q3 := quantile col_data (75 # 100) in
    let iqr := q3 - q1 in
    let extreme_low := count (fun v => num_lt v (q1 - 3 * iqr)) col_data in
    let extreme_high := count (fun v => num_gt v (q3 + 3 * iqr)) col_data in
    if Qltb (Qnat (List.length col_data) * (1 # 100))
            (Qnat (extreme_low + extreme_high))
    then penalize col "Range inconsistency" 3 acc else acc
  else acc.

Definition consistency_loop (df : DataFrame) : penalties :=
  let acc := (100%Z, []) in
  let acc :=
    fold_left (fun a c => case_and_whitespace c a) (categorical df) acc in
  let acc := fold_left (fun a c => date_format c a) (categorical df) acc in
  fold_left (fun a c => numeric_range c a) (numeric df) acc.

Definition measure_consistency (df : DataFrame) : result (list anomaly) :=
  let '(consistency_score, consistency_issues) := consistency_loop df in
  mkResult "Consistency"
    (Some (inject_Z (Z.max 0 consistency_score)))
    (Some 85%Z)
    (status_of (inject_Z consistency_score) 85 70)
    consistency_issues.

(** *** Accuracy *)

(** One entry of [outlier_analysis] (the mean, median, deviation and
    skewness it also reports are left out). *)
Record indicator : Type := mkIndicator {
  in_column : string;
  outlier_count : nat;
  outlier_percentage : Q;
  lower_bound : Q;
  upper_bound : Q;
  in_status : string
}.

Definition accuracy_column (col : Series) (acc : Z * list indicator)
  : Z * list indicator :=
  let '(accuracy_score, accuracy_indicators) := acc in
  let col_data := dropna (cells col) in
  if (List.length col_data <? 10)%nat then acc
  else
    let q1 := quantile col_data (25 # 100) in
    let q3 := quantile col_data (75 # 100) in
    let iqr := q3 - q1 in
    let lower_bound := q1 - (15 # 10) * iqr in
    let upper_bound := q3 + (15 # 10) * iqr in
    let outliers :=
      count (fun v => num_lt v lower_bound || num_gt v upper_bound) col_data in
    let outlier_pct := Qnat outliers / Qnat (List.length col_data) * 100 in
    let accuracy_score :=
      if Qltb 5 outlier_pct then (accuracy_score - 5)%Z
      else if Qltb 2 outlier_pct then (accuracy_score - 2)%Z
      else accuracy_score in
    (accuracy_score,
     (accuracy_indicators ++
       [mkIndicator (name col) outliers (round outlier_pct 2)
          (round lower_bound 4) (round upper_bound 4)
          (if Qle_bool outlier_pct 2 then "pass"
           else if Qle_bool outlier_pct 5 then "warning" else "fail")])%list).

Definition accuracy_loop (df : DataFrame) : Z * list indicator :=
  fold_left (fun a c => accuracy_column c a) (numeric df) (100%Z, []).

Definition measure_accuracy (df : DataFrame) : result (list indicator) :=
  let '(accuracy_score, accuracy_indicators) := accuracy_loop df in
  mkResult "Accuracy"
    (Some (inject_Z (Z.max 0 accuracy_score)))
    (Some 85%Z)
    (status_of (inject_Z accuracy_score) 85 70)
    accuracy_indicators.

(** *** Timeliness *)

(** One entry of [analysis]; the two dates are kept as instants. *)
Record date_analysis : Type := mkDateAnalysis {
  da_column : string;
  earliest_date : option Z;
  latest_date : option Z;
  days_since_latest : option Z;
  timespan_days : option Z;
  freshness : string
}.

Record timeliness : Type := mkTimeliness {
  datetime_columns_found : nat;
  analysis : list date_analysis;
  note : option string
}.

Definition timeliness_keywords : list string :=
  ["date"; "time"; "created"; "updated"; "timestamp"].

(** [pd.to_datetime(self.df[col], errors='coerce')] *)
Definition parse (col : Series) : list (option Z) :=
  map (fun c => match c with
                | Some v => to_datetime v
                | None => None
                end) (cells col).

Fixpoint valid (l : list (option Z)) : list Z :=
  match l with
  | [] => []
  | Some t :: l' => t :: valid l'
  | None :: l' => valid l'
  end.

(** The columns the measurer analyses: the datetime columns, then every
    date-named categorical column that parses on more than half of the
    rows.  (With [errors='coerce'] the parse answers NaT instead of
    raising, so the [except] branches of the method are not entered.) *)
Definition date_cols (df : DataFrame) : list Series :=
  (datetime df ++
   filter (fun col =>
             any_keyword timeliness_keywords (name col)
             && Qltb (Qnat (len df) * (5 # 10))
                     (Qnat (List.length (valid (parse col)))))
     (categorical df))%list.

(** [.max()] and [.min()] of the valid dates; [None] is NaT. *)
Definition max_of (l : list Z) : option Z :=
  match l with
  | [] => None
  | t :: l' => Some (fold_left Z.max l' t)
  end.

Definition min_of (l : list Z) : option Z :=
  match l with
  | [] => None
  | t :: l' => Some (fold_left Z.min l' t)
  end.

(** Microseconds in a day; [timedelta.days] is the floor of the quotient. *)
Definition day : Z := 86400000000.

(** [days_old and days_old < bound]: [None] and [0] are false. *)
Definition known_below (days_old : option Z) (bound : Z) : bool :=
  match days_old with
  | Some d => negb (d =? 0)%Z && (d <? bound)%Z
  | None => false
  end.

(** [days_old and days_old > bound] *)
Definition known_above (days_old : option Z) (bound : Z) : bool :=
  match days_old with
  | Some d => negb (d =? 0)%Z && (bound <? d)%Z
  | None => false
  end.

(** ["current" if days_old and days_old < 30 else "recent" if days_old and
    days_old < 90 else "stale"] *)
Definition freshness_of (days_old : option Z) : string :=
  if known_below days_old 30 then "current"
  else if known_below days_old 90 then "recent"
  else "stale".

(** The body of the loop over [date_cols[:3]]. *)
Definition timeliness_column (now : Z) (col : Series)
  (acc : Z * list date_analysis) : Z * list date_analysis :=
  let '(timeliness_score, analysis) := acc in
  let valid_dates := valid (parse col) in
  if (0 <? List.length valid_dates)%nat
  then
    let max_date := max_of valid_dates in
    let min_date := min_of valid_dates in
    let days_old := option_map (fun m => ((now - m) / day)%Z) max_date in
    let timespan_days :=
      match min_date, max_date with
      | Some mn, Some mx => Some ((mx - mn) / day)%Z
      | _, _ => None
      end in
    let analysis :=
      (analysis ++
        [mkDateAnalysis (name col) min_date max_date days_old timespan_days
           (freshness_of days_old)])%list in
    let timeliness_score :=
      if known_above days_old 365 then (timeliness_score - 20)%Z
      else if known_above days_old 90 then (timeliness_score - 10)%Z
      else timeliness_score in
    (timeliness_score, analysis)
  else acc.

(** [measure_timeliness]; [now] is what [datetime.now()] answers. *)
Definition measure_timeliness (now : Z) (df : DataFrame) : result timeliness :=
  let found := List.length (datetime_cols df) in
  let date_cols := date_cols df in
  if (List.length date_cols =? 0)%nat
  then
    mkResult "Timeliness" None None "unknown"
      (mkTimeliness found [] (Some "No datetime columns detected"))
  else
    let '(timeliness_score, analysis) :=
      fold_left (fun a c => timeliness_column now c a) (firstn 3 date_cols)
        (100%Z, []) in
    mkResult "Timeliness"
      (Some (inject_Z (Z.max 0 timeliness_score)))
      (Some 80%Z)
      (status_of (inject_Z timeliness_score) 80 60)
      (mkTimeliness found analysis None).

(** *** ML readiness *)

Record correlation : Type := mkCorrelation {
  column1 : string;
  column2 : string;
  correlation_value : Q;
  risk : string
}.

(** One entry of [class_balance_analysis]; an [imbalance_ratio] of [None]
    is [float('inf')]. *)
Record balance : Type := mkBalance {
  ba_column : string;
  num_classes : nat;
  imbalance_ratio : option Q;
  ba_status : string
}.

Record ml_readiness : Type := mkReadiness {
  high_correlations : list correlation;
  multicollinearity_risk : nat;
  class_balance_analysis : list balance;
  low_variance_features : list string
}.

(** The pairs [(cols[i], cols[j])] with [i < j], in loop order. *)
Fixpoint pairs {A : Type} (l : list A) : list (A * A) :=
  match l with
  | [] => []
  | a :: l' => (map (fun b => (a, b)) l' ++ pairs l')%list
  end.

Definition Qabs_geb (x bound : Q) : bool := Qgeb (Qabs x) bound.

Definition correlations_of (df : DataFrame) : list correlation :=
  if (2 <=? List.length (numeric_cols df))%nat
  then
    flat_map (fun '(a, b) =>
      match corr a b with
      | Some corr_val =>
          if Qabs_geb corr_val (7 # 10)
          then [mkCorrelation (name a) (name b) (round corr_val 4)
                  (if Qabs_geb corr_val (9 # 10)
                   then "multicollinearity" else "high_correlation")]
          else []
      | None => []
      end) (pairs (numeric df))
  else [].

Definition class_balance_of (df : DataFrame) : list balance :=
  flat_map (fun col =>
    let unique_count := nunique col in
    if (2 <=? unique_count)%nat && (unique_count <=? 20)%nat
    then
      let value_counts := value_counts_normalized col in
      let imbalance_ratio :=
        match series_max value_counts, series_min value_counts with
        | Some mx, Some mn => if Qltb 0 mn then Some (mx / mn) else None
        | _, _ => None
        end in
      [mkBalance (name col) unique_count
         (option_map (fun r => round r 2) imbalance_ratio)
         (match imbalance_ratio with
          | Some r => if Qltb r 3 then "balanced"
                      else if Qltb r 10 then "imbalanced"
                      else "severely_imbalanced"
          | None => "severely_imbalanced"
          end)]
    else []) (categorical df).

Definition low_variance_of (df : DataFrame) : list string :=
  map name
    (filter (fun col => match var col with
                        | Some variance => Qltb variance (1 # 100)
                        | None => false
                        end) (numeric df)).

Definition measure_ml_readiness (df : DataFrame) : result ml_readiness :=
  let correlations := correlations_of df in
  let class_balance := class_balance_of df in
  let low_variance_features := low_variance_of df in
  let score := 100%Z in
  let score := (score - Z.of_nat (List.length correlations) * 3)%Z in
  let score := (score - Z.of_nat (List.length low_variance_features) * 5)%Z in
  let score :=
    (score
     - Z.of_nat (List.length
                   (filter (fun c => String.eqb (ba_status c)
                                       "severely_imbalanced")
                      class_balance)) * 10)%Z in
  mkResult "ML Readiness"
    (Some (inject_Z (Z.max 0 score)))
    None
    (if (80 <=? score)%Z then "ready"
     else if (60 <=? score)%Z then "needs_improvement" else "not_ready")
    (mkReadiness correlations
       (List.length
          (filter (fun c => String.eqb (risk c) "multicollinearity")
             correlations))
       class_balance low_variance_features).

(** *** Overall score *)

(** A dictionary from dimension names to numbers, in insertion order. *)
Definition dict : Type := list (string * Q).

(** [d[k]] *)
Fixpoint get (d : dict) (k : string) : res Q :=
  match d with
  | [] => Raise KeyError
  | (k', v) :: d' => if String.eqb k' k then Ok v else get d' k
  end.

(** [d[k] = v] *)
Fixpoint set (d : dict) (k : string) (v : Q) : dict :=
  match d with
  | [] => [(k, v)]
  | (k', v') :: d' =>
      if String.eqb k' k then (k, v) :: d' else (k', v') :: set d' k v
  end.

(** The float literals [0.25], [0.15], [0.20] and [0.10]. *)
Definition weights : dict :=
  [ ("completeness", double (25 # 100));
    ("uniqueness", double (15 # 100));
    ("validity", double (15 # 100));
    ("consistency", double (15 # 100));
    ("accuracy", double (20 # 100));
    ("timeliness", double (10 # 100)) ].

(** The branch taken when Timeliness has no score: [weights["timeliness"]
    = 0], then [weights[k] += 0.10 / 5] for every other key. *)
Definition redistribute (weights : dict) : dict :=
  let weights := set weights "timeliness" 0 in
  map (fun '(k, w) =>
         if negb (String.eqb k "timeliness")
         then (k, fadd w (fdiv (double (10 # 100)) 5)) else (k, w))
    weights.

(** [sum(scores[k] * weights[k] for k in scores)]: the products are
    added one after the other, from 0, each product and each partial sum
    being rounded to a double.  (These are the additions of [sum] in
    CPython up to 3.11; from 3.12 on [sum] also carries a correction term
    for the rounding errors of the additions, which is not modelled.) *)
Definition weighted_sum (scores weights : dict) : res Q :=
  fold_left (fun acc '(k, v) =>
               a <- acc ;; w <- get weights k ;; Ok (fadd a (fmul v w)))
    scores (Ok 0).

(** The grade and its description, from the unrounded overall score. *)
Definition grade_of (overall_score : Q) : string * string :=
  if Qgeb overall_score 90 then ("A", "Excellent - Production Ready")
  else if Qgeb overall_score 80 then ("B", "Good - Minor Improvements Needed")
  else if Qgeb overall_score 70 then ("C", "Fair - Several Issues to Address")
  else if Qgeb overall_score 60 then ("D", "Poor - Significant Work Required")
  else ("F", "Failing - Major Quality Issues").

Record overall : Type := mkOverall {
  overall_score : Q;
  grade : string;
  grade_description : string;
  dimension_scores : dict;
  final_weights : dict;
  ml_readiness_score : option Q;
  ml_readiness_status : string
}.

(** [r["score"]] used as a number: the float (or int) the measurer
    returned, which is the double nearest to the modelled score; [None]
    cannot be multiplied. *)
Definition number {D : Type} (r : result D) : res Q :=
  match score r with
  | Some q => Ok (double q)
  | None => Raise TypeError
  end.

(** The two dictionaries as they stand before the weighted sum. *)
Definition scores_and_weights (completeness uniqueness validity consistency
  accuracy : Q) (timeliness : option Q) : dict * dict :=
  let scores :=
    [ ("completeness", completeness);
      ("uniqueness", uniqueness);
      ("validity", validity);
      ("consistency", consistency);
      ("accuracy", accuracy) ] in
  match timeliness with
  | Some t => ((scores ++ [("timeliness", t)])%list, weights)
  | None => (scores, redistribute weights)
  end.

Definition calculate_overall_score (now : Z) (df : DataFrame) : res overall :=
  completeness <- measure_completeness df ;;
  uniqueness <- measure_uniqueness df ;;
  validity <- measure_validity df ;;
  let consistency := measure_consistency df in
  let accuracy := measure_accuracy df in
  let timeliness := measure_timeliness now df in
  let ml_readiness := measure_ml_readiness df in
  c <- number completeness ;;
  u <- number uniqueness ;;
  v <- number validity ;;
  k <- number consistency ;;
  a <- number accuracy ;;
  let '(scores, weights) :=
    scores_and_weights c u v k a (option_map double (score timeliness)) in
  overall_score <- weighted_sum scores weights ;;
  let '(grade, grade_description) := grade_of overall_score in
  Ok (mkOverall (fround overall_score 1) grade grade_description
        (map (fun '(k, v) => (k, fround v 1)) scores)
        weights
        (score ml_readiness) (status ml_readiness)).

End Measurers.

(** *** Overview, column profiles and the full report *)

(** The pandas calls of the report whose algorithm lives outside the
    repository. *)
Class Describe : Type := {
  (** [df.memory_usage(deep=True).sum()], in bytes *)
  memory_usage : DataFrame -> Q;
  (** [col_data.mean()], [.std()], [.min()], [.max()] and [.median()];
      [None] is NaN *)
  mean : Series -> option Q;
  std : Series -> option Q;
  minimum : Series -> option Q;
  maximum : Series -> option Q;
  median : Series -> option Q;
  (** [col_data.value_counts()]: the distinct values with their counts,
      the most frequent first *)
  value_counts : Series -> list (value * nat);
  (** [df.head(n).fillna("").astype(str).to_dict(orient='records')] *)
  to_records : DataFrame -> nat -> res (list (list (string * string)));
  (** [str(e)] for an exception other than ZeroDivisionError *)
  exception_text : exn -> string
}.

Section Report.

Context {P : Pandas} {D : Describe}.

Record column_types : Type := mkColumnTypes {
  ct_numeric : nat;
  ct_categorical : nat;
  ct_datetime : nat;
  ct_boolean : nat
}.

Record overview : Type := mkOverview {
  ov_filename : string;
  ov_rows : nat;
  ov_columns : nat;
  memory_usage_mb : Q;
  ov_column_types : column_types;
  column_names : list string
}.

Definition get_dataset_overview (filename : string) (df : DataFrame)
  : overview :=
  let memory_mb := memory_usage df / 1024 / 1024 in
  mkOverview filename (len df) (List.length (pd.columns df))
    (round memory_mb 2)
    (mkColumnTypes (List.length (numeric_cols df))
       (List.length (categorical_cols df))
       (List.length (datetime_cols df))
       (List.length (boolean_cols df)))
    (map name (pd.columns df)).

Record stats : Type := mkStats {
  st_mean : option Q;
  st_std : option Q;
  st_min : option Q;
  st_max : option Q;
  st_median : option Q;
  st_q1 : option Q;
  st_q3 : option Q
}.

Record share : Type := mkShare {
  sh_value : string;
  sh_count : nat;
  sh_percentage : Q
}.

Record profile : Type := mkProfile {
  pr_name : string;
  pr_dtype : dtype;
  pr_non_null_count : nat;
  pr_null_count : nat;
  null_percentage : option Q;
  unique_count : nat;
  unique_percentage : Q;
  is_numeric : bool;
  pr_stats : option stats;
  value_distribution : option (list share)
}.

(** [x if col_data.notna().any() else None], rounded to four decimals. *)
Definition when_any (col : Series) (x : option Q) : option Q :=
  if (0 <? notna_sum col)%nat then option_map (fun q => round q 4) x
  else None.

(** [col_data.isna().mean() * 100]: the mean of no value is NaN. *)
Definition null_pct (col : Series) : option Q :=
  if (List.length (cells col) =? 0)%nat then None
  else Some (Qnat (isna_sum col) / Qnat (List.length (cells col)) * 100).

(** The body of the loop of [get_column_profiles]. *)
Definition column_profile (df : DataFrame) (col : Series) : res profile :=
  unique_ratio <- pydiv (Qnat (nunique col))
                        (Qnat (List.length (cells col))) ;;
  let unique_percentage := round (unique_ratio * 100) 2 in
  let null_percentage := option_map (fun q => round q 2) (null_pct col) in
  if name_in (name col) (numeric_cols df)
  then
    Ok (mkProfile (name col) (dtype_of col) (notna_sum col) (isna_sum col)
          null_percentage (nunique col) unique_percentage true
          (Some (mkStats (when_any col (mean col)) (when_any col (std col))
                   (when_any col (minimum col)) (when_any col (maximum col))
                   (when_any col (median col))
                   (when_any col
                      (Some (quantile (dropna (cells col)) (25 # 100))))
                   (when_any col
                      (Some (quantile (dropna (cells col)) (75 # 100))))))
          None)
  else
    Ok (mkProfile (name col) (dtype_of col) (notna_sum col) (isna_sum col)
          null_percentage (nunique col) unique_percentage false None
          (if (nunique col <=? 20)%nat
           then Some (map (fun '(k, v) =>
                             mkShare (str k) v
                               (round (Qnat v
                                       / Qnat (List.length (cells col))
                                       * 100) 2))
                        (firstn 10 (value_counts col)))
           else None)).

Definition get_column_profiles (df : DataFrame) : res (list profile) :=
  for_each (column_profile df) (pd.columns df).

(** [get_sample_data(n)] *)
Definition get_sample_data (df : DataFrame) (n : nat)
  : res (list (list (string * string))) :=
  to_records df n.

Record full_report : Type := mkReport {
  rp_filename : string;
  generated_at : string;
  rp_status : string;
  rp_overview : overview;
  quality_score : overall;
  rp_completeness : result completeness;
  rp_uniqueness : result uniqueness;
  rp_validity : result validity;
  rp_consistency : result (list anomaly);
  rp_accuracy : result (list indicator);
  rp_timeliness : result timeliness;
  rp_ml_readiness : result ml_readiness;
  column_profiles : list profile;
  sample_data : list (list (string * string))
}.

(** [generate_full_report]; the entries of the dictionary are evaluated
    in the order written.  [stamp] is [datetime.now().isoformat()];
    [now1] and [now2] are the instants at which the two Timeliness
    measurements read the clock. *)
Definition generate_full_report (stamp : string) (now1 now2 : Z)
  (filename : string) (df : DataFrame) : res full_report :=
  let overview := get_dataset_overview filename df in
  quality <- calculate_overall_score now1 df ;;
  completeness <- measure_completeness df ;;
  uniqueness <- measure_uniqueness df ;;
  validity <- measure_validity df ;;
  let consistency := measure_consistency df in
  let accuracy := measure_accuracy df in
  let timeliness := measure_timeliness now2 df in
  let ml_readiness := measure_ml_readiness df in
  profiles <- get_column_profiles df ;;
  sample <- get_sample_data df 10 ;;
  Ok (mkReport filename stamp "success" overview quality completeness
        uniqueness validity consistency accuracy timeliness ml_readiness
        profiles sample).

End Report.

End EnterpriseDataAnalyzer.

(** ** [analyze_file] and the upload route *)

(** [s.endswith(suffix)] *)
Fixpoint endswith (suffix s : string) : bool :=
  String.eqb s suffix ||
  match s with
  | EmptyString => false
  | String _ s' => endswith suffix s'
  end.

(** What follows the last ['.'] of [s]; [None] when [s] has none. *)
Fixpoint after_last_dot (s : string) : option string :=
  match s with
  | EmptyString => None
  | String c s' =>
      match after_last_dot s' with
      | Some t => Some t
      | None => if Ascii.eqb c "."%char then Some s' else None
      end
  end.

(** The readers of pandas: the frame read, or the text of the exception
    raised. *)
Class Readers : Type := {
  read_csv : string -> DataFrame + string;
  read_excel : string -> DataFrame + string;
  read_json : string -> DataFrame + string
}.

Section Files.

Context {P : Pandas} {D : EnterpriseDataAnalyzer.Describe} {R : Readers}.

(** What [analyze_file] returns: the report, or one of its two
    dictionaries with status "failed". *)
Inductive analysis : Type :=
| Report (report : EnterpriseDataAnalyzer.full_report)
| Unsupported (error : string)
| Failed (error : string) (filename : string).

(** [str(e)] *)
Definition str_exn (e : exn) : string :=
  match e with
  | ZeroDivisionError => "division by zero"
  | _ => EnterpriseDataAnalyzer.exception_text e
  end.

(** The reader [analyze_file] picks by the end of the file name. *)
Definition reader (filename : string)
  : option (string -> DataFrame + string) :=
  if endswith ".csv" filename then Some read_csv
  else if endswith ".xlsx" filename || endswith ".xls" filename
  then Some read_excel
  else if endswith ".json" filename then Some read_json
  else None.

(** [analyze_file(file_content, filename)] *)
Definition analyze_file (stamp : string) (now1 now2 : Z)
  (file_content filename : string) : analysis :=
  match reader filename with
  | None => Unsupported ("Unsupported file type: " ++ filename)
  | Some read =>
      match read file_content with
      | inr error => Failed error filename
      | inl df =>
          match EnterpriseDataAnalyzer.generate_full_report stamp now1 now2
                  filename df with
          | Ok report => Report report
          | Raise e => Failed (str_exn e) filename
          end
      end
  end.

Definition allowed_extensions : list string :=
  [".csv"; ".xlsx"; ".xls"; ".json"].

(** ['.' + filename.split('.')[-1].lower() if '.' in filename else ''] *)
Definition file_ext (filename : string) : string :=
  match after_last_dot filename with
  | Some last => "." ++ lower last
  | None => ""
  end.

(** The summary of a stored report.  The report has no key "basic_stats",
    so the two counts read from it are the default 0. *)
Record summary : Type := mkSummary {
  sm_rows : nat;
  sm_columns : nat;
  sm_quality_score : Q;
  sm_grade : string
}.

(** What the route answers: an HTTP 400 with its detail, or the success
    body (the report is stored under [source_id]). *)
Inductive response : Type :=
| BadRequest (detail : string)
| Uploaded (source_id : string) (filename : string) (s : summary).

(** [upload_file]; [source_id] is the identifier drawn for the upload. *)
Definition upload_file (source_id stamp : string) (now1 now2 : Z)
  (filename file_content : string) : response :=
  if negb (name_in (file_ext filename) allowed_extensions)
  then BadRequest ("File type " ++ file_ext filename
                   ++ " not supported. Please upload CSV, Excel, or JSON.")
  else
    match analyze_file stamp now1 now2 file_content filename with
    | Unsupported error | Failed error _ =>
        BadRequest ("Failed to analyze file: " ++ error)
    | Report report =>
        Uploaded source_id filename
          (mkSummary 0 0
             (EnterpriseDataAnalyzer.overall_score
                (EnterpriseDataAnalyzer.quality_score report))
             (EnterpriseDataAnalyzer.grade
                (EnterpriseDataAnalyzer.quality_score report)))
    end.

End Files.

(** ** Sample inputs *)

Module Samples.

(** A pandas that reads a date only from a value that already is an
    instant, finds every quantile, correlation and variance to be 0 and
    matches no pattern. *)
Definition plain : Pandas := {|
  quantile := fun _ _ => 0;
  to_datetime := fun v => match v with
                          | VTime t => Some t
                          | _ => None
                          end;
  to_datetime_strict := fun _ => true;
  corr := fun _ _ => Some 0;
  var := fun _ => Some 1;
  re_match := fun _ _ => false;
  repr := fun _ => "?"
|}.

Definition ints (l : list Z) : list cell :=
  map (fun z => Some (VNum (inject_Z z))) l.

(** Ten rows; the integer column [label] takes five values, twice each. *)
Definition ten_rows : DataFrame :=
  mkDataFrame 10
    [ mkSeries "label" int64 (ints [1; 2; 3; 4; 5; 1; 2; 3; 4; 5]%Z);
      mkSeries "city" object
        [ Some (VStr "Pune"); Some (VStr "Delhi"); None; Some (VStr "Pune");
          Some (VStr "Goa"); Some (VStr "Delhi"); Some (VStr "Goa");
          Some (VStr "Pune"); Some (VStr "Delhi"); Some (VStr "Goa") ] ].

(** Three rows, the third repeating the first. *)
Definition three_rows : DataFrame :=
  mkDataFrame 3 [ mkSeries "a" int64 (ints [1; 2; 1]%Z) ].

(** Two rows and no column. *)
Definition no_columns : DataFrame := mkDataFrame 2 [].

(** No row. *)
Definition no_rows : DataFrame :=
  mkDataFrame 0 [ mkSeries "a" int64 [] ].

(** Noon of day 20000, and a frame whose latest [seen] instant is six
    hours before it. *)
Definition noon : Z := (20000 * EnterpriseDataAnalyzer.day + 43200000000)%Z.

Definition seen_today : DataFrame :=
  mkDataFrame 2
    [ mkSeries "seen" datetime64
        [ Some (VTime (19990 * EnterpriseDataAnalyzer.day));
          Some (VTime (20000 * EnterpriseDataAnalyzer.day + 21600000000)) ] ].

(** A numeric column without positivity keyword in its name. *)
Definition scores_column : Series :=
  mkSeries "rating" int64 (ints [3; -1; 4]%Z).

Definition ratings : DataFrame := mkDataFrame 3 [ scores_column ].

End Samples.

(** ** Vocabulary of the statements *)

(** Highest score first. *)
Definition descending : string * Z -> string * Z -> Prop :=
  fun x y => (snd y <= snd x)%Z.

(** The items of score [s], in list order. *)
Definition scored (s : Z) (l : list (string * Z)) : list (string * Z) :=
  filter (fun x => (snd x =? s)%Z) l.

(** The value of [a / b if b > 0 else 0] for two counts. *)
Definition guarded (a b : nat) : Q :=
  if (0 <? b)%nat then Qnat a / Qnat b else 0.

(** A score that is present and lies between 0 and 100. *)
Definition percentage (score : option Q) : Prop :=
  exists q, score = Some q /\ 0 <= q <= 100.


(** No more checks pass than are made. *)
Definition sound (st : EnterpriseDataAnalyzer.checks) : Prop :=
  (EnterpriseDataAnalyzer.passed_ st <= EnterpriseDataAnalyzer.total_ st)%nat.

(** The variable [validity_score] of [measure_validity], before rounding. *)
Definition validity_score {P : Pandas} (df : DataFrame) : Q :=
  let st := fst (EnterpriseDataAnalyzer.validity_loop df) in
  if (0 <? EnterpriseDataAnalyzer.total_ st)%nat
  then Qnat (EnterpriseDataAnalyzer.passed_ st)
       / Qnat (EnterpriseDataAnalyzer.total_ st) * 100
  else 100.

(** ** Vocabulary of the further properties *)

(** The entry of [column_details] that [measure_completeness] builds for
    one column. *)
Definition completeness_entry (df : DataFrame) (col : Series)
  : EnterpriseDataAnalyzer.column_completeness :=
  let ratio := guarded (notna_sum col) (len df) in
  EnterpriseDataAnalyzer.mkColumnCompleteness (name col) (notna_sum col)
    (Z.of_nat (len df) - Z.of_nat (notna_sum col))
    (round (ratio * 100) 2)
    (EnterpriseDataAnalyzer.status_of ratio (95 # 100) (8 # 10)).

(** Lowest completeness first. *)
Definition worse_first (a b : EnterpriseDataAnalyzer.column_completeness)
  : Prop :=
  EnterpriseDataAnalyzer.completeness_ratio a
  <= EnterpriseDataAnalyzer.completeness_ratio b.

(** No cell of the frame is missing. *)
Definition no_missing (df : DataFrame) : Prop :=
  Forall (fun c => Forall (fun x : cell => x <> None) (cells c))
    (pd.columns df).

(** The entry of [column_cardinality] that [measure_uniqueness] builds for
    one column. *)
Definition uniqueness_entry (df : DataFrame) (col : Series)
  : EnterpriseDataAnalyzer.column_uniqueness :=
  let cardinality_ratio := guarded (nunique col) (notna_sum col) in
  EnterpriseDataAnalyzer.mkColumnUniqueness (name col) (nunique col)
    (round (cardinality_ratio * 100) 2)
    (Qltb (95 # 100) cardinality_ratio
     && (notna_sum col =? len df)%nat).




(** The sum of the impacts of a list of consistency issues. *)
Definition impact_sum (l : list EnterpriseDataAnalyzer.anomaly) : Z :=
  fold_right Z.add 0%Z (map EnterpriseDataAnalyzer.impact l).

(** The number of outlier entries with a given status. *)
Definition with_status (st : string)
  (l : list EnterpriseDataAnalyzer.indicator) : nat :=
  List.length
    (filter (fun i => String.eqb (EnterpriseDataAnalyzer.in_status i) st) l).

(** The points a date column costs, by the age of its latest date. *)
Definition staleness_penalty (days_old : option Z) : Z :=
  if EnterpriseDataAnalyzer.known_above days_old 365 then 20
  else if EnterpriseDataAnalyzer.known_above days_old 90 then 10
  else 0.

Definition penalty_sum (l : list EnterpriseDataAnalyzer.date_analysis) : Z :=
  fold_right Z.add 0%Z
    (map (fun e => staleness_penalty
                     (EnterpriseDataAnalyzer.days_since_latest e)) l).

(** What the consistency loops keep: the running score is 100 plus the
    impacts recorded, each impact is one of the four penalties, and the
    score is at least [low]. *)
Definition recorded (low : Z) (acc : EnterpriseDataAnalyzer.penalties)
  : Prop :=
  fst acc = (100 + impact_sum (snd acc))%Z
  /\ Forall (fun a => In (EnterpriseDataAnalyzer.impact a)
                        [-2; -1; -5; -3]%Z) (snd acc)
  /\ (low <= fst acc)%Z.

(** What the accuracy loop keeps: the running score is 100 less 2 per
    "warning" entry and 5 per "fail" entry, and an entry has one of the
    three statuses. *)
Definition tallied (acc : Z * list EnterpriseDataAnalyzer.indicator) : Prop :=
  fst acc = (100 - 2 * Z.of_nat (with_status "warning" (snd acc))
             - 5 * Z.of_nat (with_status "fail" (snd acc)))%Z
  /\ Forall (fun i => In (EnterpriseDataAnalyzer.in_status i)
                        ["pass"; "warning"; "fail"]) (snd acc).

(** What the timeliness loop keeps after [n] columns: the running score is
    100 less the penalties of the entries, there are at most [n] entries,
    and the freshness of an entry is the one its age gives. *)
Definition aged (n : nat) (acc : Z * list EnterpriseDataAnalyzer.date_analysis)
  : Prop :=
  fst acc = (100 - penalty_sum (snd acc))%Z
  /\ (List.length (snd acc) <= n)%nat
  /\ Forall (fun e =>
               EnterpriseDataAnalyzer.freshness e
               = EnterpriseDataAnalyzer.freshness_of
                   (EnterpriseDataAnalyzer.days_since_latest e))
       (snd acc).

(** A profile of a small classification frame with missing values. *)
Definition small_profile : ModelRecommender.data_profile :=
  ModelRecommender.mkProfile 10 2 1 1 0 (Some 5) true (Some "label")
    classification (Some 5%nat) (Some 1) (Some false) (Some 20)
    ModelRecommender.small.

(** Sample instances of the report calls and of the readers: every
    statistic is missing, no value is counted, the records are empty, and
    every file reads as the frame [no_rows]. *)
Definition plain_describe : EnterpriseDataAnalyzer.Describe := {|
  EnterpriseDataAnalyzer.memory_usage := fun _ => 0;
  EnterpriseDataAnalyzer.mean := fun _ => None;
  EnterpriseDataAnalyzer.std := fun _ => None;
  EnterpriseDataAnalyzer.minimum := fun _ => None;
  EnterpriseDataAnalyzer.maximum := fun _ => None;
  EnterpriseDataAnalyzer.median := fun _ => None;
  EnterpriseDataAnalyzer.value_counts := fun _ => [];
  EnterpriseDataAnalyzer.to_records := fun _ _ => Ok [];
  EnterpriseDataAnalyzer.exception_text := fun _ => "error"
|}.

Definition header_only : Readers := {|
  read_csv := fun _ => inl Samples.no_rows;
  read_excel := fun _ => inl Samples.no_rows;
  read_json := fun _ => inl Samples.no_rows
|}.

(** The four extensions without their dot. *)
Definition extensions : list string := ["csv"; "xlsx"; "xls"; "json"].

(** Highest primary metric first. *)
Definition best_first (key : ModelTrainer.outcome -> Q)
  (a b : ModelTrainer.outcome) : Prop :=
  key b <= key a.

(** The outcomes whose key is [q], in list order. *)
Definition keyed (key : ModelTrainer.outcome -> Q) (q : Q)
  (l : list ModelTrainer.outcome) : list ModelTrainer.outcome :=
  filter (fun x => Qeq_bool (key x) q) l.

(** A training oracle under which xgboost fails and every other model
    reaches an accuracy of 0.9. *)
Definition flaky (name : string) : list (string * Q) + string :=
  if String.eqb name "xgboost" then inr "XGBoost not installed"
  else inl [("accuracy", 9 # 10)].

(** A rate: a number between 0 and 1. *)
Definition rate (q : Q) : Prop := 0 <= q <= 1.

(** What two complementary rates over [n] cases add up to before
    rounding: 1, or 0 when there is no case and both rates are given as
    0. *)
Definition whole (n : nat) : Q := if (0 <? n)%nat then 1 else 0.

(** ** The comparison endpoint ([api/v1/models.py]) *)

Module Models.

(** What made the body of the [try] raise. *)
Inductive failure : Type :=
| InTrainer (e : exn)      (* [compare_models]: the trainer could not be built *)
| InCharts                 (* [generate_comparison_charts] *)
| MaxOfNothing.            (* [max] of an empty list: ValueError *)

Record comparison : Type := mkComparison {
  task_type : task;
  models_trained : nat;
  best_model : ModelTrainer.outcome;
  results : list ModelTrainer.outcome;
  comparison_chart : option string
}.

(** The answers of [compare_multiple_models]: HTTP 404, 400 and 500, or
    the success dictionary. *)
Inductive response : Type :=
| NotFound
| BadRequest
| ServerError (cause : failure)
| Success (c : comparison).

(** ['metrics' in r and 'error' not in r] *)
Definition successful (r : ModelTrainer.outcome) : bool :=
  match r with
  | ModelTrainer.Trained _ _ => true
  | ModelTrainer.Errored _ _ => false
  end.

(** [max(l, key=key)]: the first item with the greatest key; no value on
    an empty list, where Python raises ValueError. *)
Fixpoint max_from (key : ModelTrainer.outcome -> Q)
  (best : ModelTrainer.outcome) (l : list ModelTrainer.outcome)
  : ModelTrainer.outcome :=
  match l with
  | [] => best
  | x :: l' => max_from key (if Qltb (key best) (key x) then x else best) l'
  end.

Definition max_by (key : ModelTrainer.outcome -> Q)
  (l : list ModelTrainer.outcome) : option ModelTrainer.outcome :=
  match l with
  | [] => None
  | x :: l' => Some (max_from key x l')
  end.

Section Endpoint.

(** [ModelTrainer(df, target_column).train(name)], and
    [generate_comparison_charts(results)]: the [base64] entry of the
    chart when there is one, no value when drawing raised. *)
Variable train :
  DataFrame -> string -> string -> list (string * Q) + string.
Variable generate_comparison_charts :
  list ModelTrainer.outcome -> option (option string).

(** [compare_models], with the [task_type] every trained result
    carries. *)
Definition compare_models (df : DataFrame) (target_column : string)
  (model_names : option (list string))
  : res (task * list ModelTrainer.outcome) :=
  t <- ModelTrainer._detect_task_type df target_column ;;
  results <- ModelTrainer.train_multiple (train df target_column) t
               model_names ;;
  Ok (t, results).

(** [compare_multiple_models], for [_get_dataframe(request.source_id) =
    df]. *)
Definition compare_multiple_models (df : option DataFrame)
  (target_column : string) (model_names : option (list string))
  : response :=
  match df with
  | None => NotFound
  | Some df =>
      if negb (name_in target_column (map name (columns df)))
      then BadRequest
      else
        match compare_models df target_column model_names with
        | Raise e => ServerError (InTrainer e)
        | Ok (t, results) =>
            match generate_comparison_charts results with
            | None => ServerError InCharts
            | Some chart =>
                let successful_results := filter successful results in
                let task_type :=
                  match successful_results with
                  | _ :: _ => t
                  | [] => classification
                  end in
                match max_by (ModelTrainer.primary_metric task_type)
                        successful_results with
                | None => ServerError MaxOfNothing
                | Some best =>
                    Success
                      (mkComparison task_type
                         (List.length successful_results) best results
                         chart)
                end
            end
        end
  end.

End Endpoint.

End Models.

(** A chart generator that draws nothing and does not fail. *)
Definition no_chart (results : list ModelTrainer.outcome)
  : option (option string) := Some None.

(** The sum of the products of the pairs, each product and each partial
    sum rounded to a double, added from the left starting at 0. *)
Definition dot (terms : list (Q * Q)) : Q :=
  fold_left (fun acc '(v, w) => fadd acc (fmul v w)) terms 0.


(** The models a comparison trains: those it is given, or the first four
    supported ones. *)
Definition requested (model_names : option (list string)) : list string :=
  match model_names with
  | Some names => names
  | None => ["xgboost"; "lightgbm"; "catboost"; "random_forest"]
  end.

(** A trainer for which the four default models fail and every other
    model reaches an accuracy of 0.8. *)
Definition defaults_fail (name : string) : list (string * Q) + string :=
  if name_in name ["xgboost"; "lightgbm"; "catboost"; "random_forest"]
  then inr "not installed"
  else inl [("accuracy", 8 # 10)].

(** Three rows; the column [id] has three different values, the column
    [a] repeats one. *)
Definition with_id : DataFrame :=
  mkDataFrame 3
    [ mkSeries "id" int64 (Samples.ints [7; 8; 9]%Z);
      mkSeries "a" int64 (Samples.ints [1; 2; 1]%Z) ].

(** * Properties *)

(** Case analysis on every condition of the goal, outermost first. *)
Ltac split_ifs :=
  repeat match goal with
         | |- context [if ?c then _ else _] => destruct c
         end.

(** ** Task type (C1) *)


(** The rule of the trainer, read off its three branches: an [object] or
    [category] target is a classification target; a target of another type
    is one when it has at most 20 distinct values and fewer than one
    distinct value per 20 rows; anything else is a regression target. *)
Lemma detect_task_type_rule (df : DataFrame) (col : string) (target : Series) :
  get_column df col = Some target ->
  cells target <> [] ->
  ModelTrainer._detect_task_type df col =
  Ok (if is_categorical (dtype_of target)
         || ((nunique target <=? 20)%nat
             && Qltb (Qnat (nunique target) / Qnat (List.length (cells target)))
                     (5 # 100))
      then classification else regression).
Proof.
  intros Hget Hne. unfold ModelTrainer._detect_task_type. rewrite Hget.
  destruct (dtype_of target); cbn; try reflexivity.
  all: unfold pydiv;
    replace (Qeq_bool (Qnat (List.length (cells target))) 0) with false;
    [ cbn; now destruct (_ && _) | ].
  all: symmetry; apply not_true_is_false; intros H;
    apply Qeq_bool_eq in H; unfold Qnat, Qeq in H; cbn in H;
    destruct (cells target); [ now apply Hne | cbn in H; lia ].
Qed.

(** C1 (the code does not do this).  On the frame [ten_rows] with target
    [label] (an integer column, 5 distinct values in 10 rows) the
    recommender's profile says classification, from [nunique <= 20] alone,
    while the trainer's detector says regression, because 5 / 10 is not
    below 0.05. *)
Theorem C1_recommender_and_trainer_disagree :
  (exists profile,
     ModelRecommender._analyze_data Samples.ten_rows (Some "label") = Ok profile
     /\ ModelRecommender.task_type profile = classification)
  /\ ModelTrainer._detect_task_type Samples.ten_rows "label" = Ok regression.
Proof.
  split.
  - eexists. split; [ vm_compute; reflexivity | reflexivity ].
  - vm_compute. reflexivity.
Qed.

(** ** Ranking (C2, C8) *)

Section Ranking.

Import ModelRecommender.

Implicit Types (l items : list (string * Z)) (x y : string * Z).

Lemma dict_set_fresh k v d :
  ~ In k (map fst d) -> dict_set k v d = (d ++ [(k, v)])%list.
Proof.
  induction d as [| [k' v'] d IH]; cbn; intros Hk; [ reflexivity | ].
  destruct (String.eqb_spec k' k) as [-> | _].
  - exfalso. apply Hk. now left.
  - rewrite IH; [ reflexivity | ]. intros Hin. apply Hk. now right.
Qed.

Lemma scores_in_catalogue_order (f : string -> Z) (ids : list string) d :
  NoDup ids ->
  (forall k, In k ids -> ~ In k (map fst d)) ->
  fold_left (fun d model => dict_set model (f model) d) ids d
  = (d ++ map (fun m => (m, f m)) ids)%list.
Proof.
  revert d. induction ids as [| m ids IH]; cbn; intros d Hnd Hfresh.
  - now rewrite app_nil_r.
  - inversion Hnd as [| ? ? Hm Hnd']; subst.
    rewrite dict_set_fresh by (apply Hfresh; now left).
    rewrite IH; [ now rewrite <- app_assoc | assumption | ].
    intros k Hk. rewrite map_app, in_app_iff. cbn.
    intros [Hin | [<- | []]].
    + apply (Hfresh k); [ now right | assumption ].
    + now apply Hm.
Qed.

Lemma available_models_NoDup t : NoDup (available_models t).
Proof.
  destruct t; cbn;
    repeat (constructor; [ cbn; intuition discriminate | ]); constructor.
Qed.

Lemma insert_desc_perm x l : Permutation (insert_desc x l) (x :: l).
Proof.
  induction l as [| y l IH]; cbn; [ reflexivity | ].
  destruct (snd x <? snd y)%Z; [ | reflexivity ].
  rewrite IH. apply perm_swap.
Qed.

Lemma sorted_desc_perm l : Permutation (sorted_desc l) l.
Proof.
  induction l as [| x l IH]; cbn; [ reflexivity | ].
  rewrite insert_desc_perm. now constructor.
Qed.

Lemma insert_desc_sorted x l :
  StronglySorted descending l -> StronglySorted descending (insert_desc x l).
Proof.
  induction 1 as [| y l Hl IH Hy]; cbn.
  - repeat constructor.
  - destruct (Z.ltb_spec (snd x) (snd y)) as [Hlt | Hge].
    + constructor; [ assumption | ].
      apply (Permutation_Forall (Permutation_sym (insert_desc_perm x l))).
      constructor; [ unfold descending; lia | assumption ].
    + constructor; [ now constructor | ].
      constructor; [ exact Hge | ].
      eapply Forall_impl; [ | exact Hy ].
      unfold descending. intros z Hz. lia.
Qed.

Lemma sorted_desc_sorted l : StronglySorted descending (sorted_desc l).
Proof.
  induction l as [| x l IH]; cbn; [ constructor | ].
  now apply insert_desc_sorted.
Qed.

(** Inserting keeps the order among the items of one score: the new item
    goes in front of those it ties with. *)
Lemma insert_desc_scored s x l :
  StronglySorted descending l ->
  scored s (insert_desc x l) = scored s (x :: l).
Proof.
  induction 1 as [| y l Hl IH Hy]; [ reflexivity | ].
  cbn [insert_desc]. destruct (Z.ltb_spec (snd x) (snd y)) as [Hlt | Hge];
    [ | reflexivity ].
  unfold scored in *. cbn [filter] in *. rewrite IH.
  destruct (Z.eqb_spec (snd y) s), (Z.eqb_spec (snd x) s);
    try reflexivity.
  lia.
Qed.

Lemma sorted_desc_stable s l : scored s (sorted_desc l) = scored s l.
Proof.
  induction l as [| x l IH]; [ reflexivity | ].
  cbn [sorted_desc fold_right]. fold (sorted_desc l).
  rewrite insert_desc_scored by apply sorted_desc_sorted.
  unfold scored in *. cbn [filter]. now rewrite IH.
Qed.

Lemma firstn_incl {A : Type} n (elts : list A) (e : A) :
  In e (firstn n elts) -> In e elts.
Proof.
  revert n. induction elts as [| a elts IH]; intros [| n]; cbn; try tauto.
  intros [-> | H]; [ now left | right; now apply (IH n) ].
Qed.

Lemma firstn_sorted (R : string * Z -> string * Z -> Prop) n l :
  StronglySorted R l -> StronglySorted R (firstn n l).
Proof.
  intros H. revert n. induction H as [| y l Hl IH Hy]; intros [| n]; cbn;
    try constructor.
  - apply IH.
  - apply Forall_forall. intros z Hz. apply firstn_incl in Hz.
    revert z Hz. now apply Forall_forall.
Qed.

Lemma slice_to_sorted (R : string * Z -> string * Z -> Prop) n l :
  StronglySorted R l -> StronglySorted R (slice_to l n).
Proof. unfold slice_to. destruct (n <? 0)%Z; apply firstn_sorted. Qed.

Lemma slice_to_incl n l x : In x (slice_to l n) -> In x l.
Proof. unfold slice_to. destruct (n <? 0)%Z; apply firstn_incl. Qed.

Lemma info_found k :
  In k (map fst MODEL_INFO) ->
  exists inf, find (fun e => String.eqb (fst e) k) MODEL_INFO = Some (k, inf).
Proof.
  cbn. intros H.
  repeat (destruct H as [<- | H]; [ eexists; reflexivity | ]).
  destruct H.
Qed.

(** The loop that builds the answer cannot raise on catalogue ids; it keeps
    ids and scores and numbers the entries from [i + 1]. *)
Lemma enumerate_from_ok i l :
  Forall (fun x => In (fst x) (map fst MODEL_INFO)) l ->
  exists recs,
    enumerate_from i l = Ok recs
    /\ map (fun r => (id r, score r)) recs = l
    /\ map rank recs = seq (i + 1) (List.length l).
Proof.
  intros H. revert i. induction H as [| [k v] l Hk Hl IH]; intros i.
  - exists []. now cbn.
  - destruct (info_found k Hk) as [inf Hfind].
    destruct (IH (S i)) as (recs & Hrecs & Hmap & Hrank).
    exists (mkRec inf k (i + 1) v :: recs).
    cbn [enumerate_from]. rewrite Hfind, Hrecs. cbn.
    rewrite Hmap, Hrank.
    replace (S i + 1)%nat with (S (i + 1)) by lia. now repeat split.
Qed.

Lemma available_in_catalogue t k :
  In k (available_models t) -> In k (map fst MODEL_INFO).
Proof. destruct t; cbn; intuition. Qed.

Lemma sum_accumulate (bonuses : list Z) (base : Z) :
  accumulate base bonuses = (base + fold_right Z.add 0 bonuses)%Z.
Proof.
  unfold accumulate. revert base.
  induction bonuses as [| b bs IH]; intros base; cbn; [ lia | ].
  rewrite IH. lia.
Qed.

Lemma sum_permutation (l1 l2 : list Z) :
  Permutation l1 l2 -> fold_right Z.add 0%Z l1 = fold_right Z.add 0%Z l2.
Proof. induction 1; cbn; lia. Qed.

(** The statements of [_score_model] add up to the base score plus the sum
    of the nine separate terms. *)
Lemma score_model_sum profile model_id :
  _score_model profile model_id
  = (50 + fold_right Z.add 0 (heuristics profile model_id))%Z.
Proof.
  unfold _score_model, heuristics. cbn [fold_right].
  split_ifs; lia.
Qed.

Lemma sorted_recs (recs : list recommendation) l :
  map (fun r => (id r, score r)) recs = l ->
  StronglySorted descending l ->
  StronglySorted (fun a b => (score b <= score a)%Z) recs.
Proof.
  intros <-. induction recs as [| r recs IH]; cbn; intros H;
    [ constructor | ].
  inversion H as [| ? ? Hs Hall]; subst. constructor; [ now apply IH | ].
  rewrite Forall_map in Hall. exact Hall.
Qed.

(** The dictionary [scores] of [get_recommendations], and what the method
    returns in terms of it. *)
Lemma get_recommendations_unfold profile top_n :
  get_recommendations profile top_n
  = enumerate_from 0
      (slice_to
         (sorted_desc
            (map (fun m => (m, _score_model profile m))
               (available_models (task_type profile))))
         top_n).
Proof.
  unfold get_recommendations.
  rewrite scores_in_catalogue_order;
    [ reflexivity | apply available_models_NoDup | intros k _ [] ].
Qed.

Lemma ranked_in_catalogue profile top_n :
  Forall (fun x => In (fst x) (map fst MODEL_INFO))
    (slice_to
       (sorted_desc
          (map (fun m => (m, _score_model profile m))
             (available_models (task_type profile))))
       top_n).
Proof.
  apply Forall_forall. intros x Hx. apply slice_to_incl in Hx.
  apply (Permutation_in _ (sorted_desc_perm _)) in Hx.
  apply in_map_iff in Hx. destruct Hx as (m & <- & Hm).
  now apply available_in_catalogue in Hm.
Qed.

Lemma entry_offered profile top_n (recs : list recommendation) r :
  map (fun r => (id r, score r)) recs
  = slice_to
      (sorted_desc
         (map (fun m => (m, _score_model profile m))
            (available_models (task_type profile))))
      top_n ->
  In r recs ->
  In (id r) (available_models (task_type profile))
  /\ score r = _score_model profile (id r).
Proof.
  intros Hmap Hr.
  apply (in_map (fun r => (id r, score r))) in Hr. rewrite Hmap in Hr.
  apply slice_to_incl in Hr.
  apply (Permutation_in _ (sorted_desc_perm _)) in Hr.
  apply in_map_iff in Hr. destruct Hr as (m & Heq & Hm).
  inversion Heq; subst. now split.
Qed.

End Ranking.

(** C8.  For every profile and every [top_n]:
    - the score of a model is the base 50 plus the sum of the nine heuristic
      terms, and adding those terms to 50 in any order gives that score;
    - [get_recommendations] returns a list (it does not raise) whose
      entries are models offered for the task, each with its score;
    - the list is in descending order of score and its ranks are
      1, 2, 3, ... in list order;
    - it is the [[:top_n]] prefix of a rearrangement of all offered models
      in which the models of one score stand in catalogue order. *)
Theorem C8_scores_are_additive_and_ranking_is_stable
  (profile : ModelRecommender.data_profile) (top_n : Z) :
  let score_of := ModelRecommender._score_model profile in
  let offered :=
    ModelRecommender.available_models (ModelRecommender.task_type profile) in
  (forall model_id,
      score_of model_id
      = (50 + fold_right Z.add 0
                (ModelRecommender.heuristics profile model_id))%Z
      /\ forall bonuses,
          Permutation bonuses (ModelRecommender.heuristics profile model_id) ->
          ModelRecommender.accumulate 50 bonuses = score_of model_id)
  /\ exists recs,
      ModelRecommender.get_recommendations profile top_n = Ok recs
      /\ (forall r, In r recs ->
            In (ModelRecommender.id r) offered
            /\ ModelRecommender.score r = score_of (ModelRecommender.id r))
      /\ StronglySorted
           (fun a b => (ModelRecommender.score b <= ModelRecommender.score a)%Z)
           recs
      /\ map ModelRecommender.rank recs = seq 1 (List.length recs)
      /\ exists ranked,
          Permutation ranked (map (fun m => (m, score_of m)) offered)
          /\ (forall s, scored s ranked
                        = scored s (map (fun m => (m, score_of m)) offered))
          /\ map (fun r => (ModelRecommender.id r, ModelRecommender.score r))
               recs
             = ModelRecommender.slice_to ranked top_n.
Proof.
  intros score_of offered. split.
  - intros model_id. split; [ apply score_model_sum | ].
    intros bonuses Hperm. rewrite sum_accumulate.
    rewrite (sum_permutation _ _ Hperm). symmetry. apply score_model_sum.
  - rewrite get_recommendations_unfold.
    destruct (enumerate_from_ok 0 _ (ranked_in_catalogue profile top_n))
      as (recs & Hrecs & Hmap & Hrank).
    exists recs. split; [ exact Hrecs | ]. repeat split.
    + now apply (entry_offered profile top_n recs r Hmap).
    + now apply (entry_offered profile top_n recs r Hmap).
    + eapply sorted_recs; [ exact Hmap | ].
      apply slice_to_sorted, sorted_desc_sorted.
    + rewrite Hrank. f_equal. rewrite <- Hmap. now rewrite length_map.
    + eexists. split; [ apply sorted_desc_perm | ].
      split; [ intros s; apply sorted_desc_stable | exact Hmap ].
Qed.

(** ** A target that is not a column (C2) *)

Lemma truthy_some (target t : string) :
  ModelRecommender.truthy (Some target) = Some t -> t = target.
Proof.
  destruct target as [| c target]; cbn; [ discriminate | ].
  now intros [= <-].
Qed.

(** The profile of a frame for a target it does not have. *)
Lemma analyze_data_absent (df : DataFrame) (target : string) :
  get_column df target = None ->
  exists profile,
    ModelRecommender._analyze_data df (Some target) = Ok profile
    /\ ModelRecommender.task_type profile = unknown
    /\ ModelRecommender.target_column profile = None.
Proof.
  intros Hget. unfold ModelRecommender._analyze_data.
  destruct (ModelRecommender.truthy (Some target)) as [t |] eqn:Ht.
  - apply truthy_some in Ht. subst t. rewrite Hget.
    eexists. repeat split.
  - eexists. repeat split.
Qed.

(** C2 as stated fails: [ten_rows] has no column [churn], yet asking for
    three recommendations with that target raises nothing and answers with
    an ordinary ranked list. *)
Lemma C2_absent_target_is_not_an_error :
  get_column Samples.ten_rows "churn" = None
  /\ (forall e,
        ModelRecommender.recommend Samples.ten_rows (Some "churn") 3
        <> Raise e)
  /\ exists recs,
       ModelRecommender.recommend Samples.ten_rows (Some "churn") 3 = Ok recs
       /\ map (fun r => (ModelRecommender.rank r, ModelRecommender.id r,
                         ModelRecommender.score r)) recs
          = [ (1%nat, "xgboost", 70%Z); (2%nat, "lightgbm", 70%Z);
              (3%nat, "random_forest", 50%Z) ].
Proof.
  split; [ reflexivity | ]. split.
  - intros e. vm_compute. discriminate.
  - eexists. split; vm_compute; reflexivity.
Qed.

(** C2, amended.  When the target names no column of the frame, the
    constructor builds a profile whose task type is [unknown] and which
    records no target column, and the request returns a ranked list, not an
    error; every entry is one of the three models offered for an unknown
    task. *)
Theorem C2_absent_target_gives_unknown_task_ranking
  (df : DataFrame) (target : string) (top_n : Z) :
  get_column df target = None ->
  exists profile recs,
    ModelRecommender._analyze_data df (Some target) = Ok profile
    /\ ModelRecommender.task_type profile = unknown
    /\ ModelRecommender.target_column profile = None
    /\ ModelRecommender.recommend df (Some target) top_n = Ok recs
    /\ forall r, In r recs ->
         In (ModelRecommender.id r) ["random_forest"; "xgboost"; "lightgbm"].
Proof.
  intros Hget.
  destruct (analyze_data_absent df target Hget) as (profile & Hp & Ht & Hc).
  destruct (enumerate_from_ok 0 _ (ranked_in_catalogue profile top_n))
    as (recs & Hrecs & Hmap & _).
  exists profile, recs. repeat split; try assumption.
  - unfold ModelRecommender.recommend. rewrite Hp. cbn [bind].
    now rewrite get_recommendations_unfold.
  - intros r Hr.
    destruct (entry_offered profile top_n recs r Hmap Hr) as [Hin _].
    now rewrite Ht in Hin.
Qed.

(** The amended statement at [ten_rows] and the absent target [churn]. *)
Lemma C2_absent_target_witness :
  exists profile recs,
    ModelRecommender._analyze_data Samples.ten_rows (Some "churn") = Ok profile
    /\ ModelRecommender.task_type profile = unknown
    /\ ModelRecommender.target_column profile = None
    /\ ModelRecommender.recommend Samples.ten_rows (Some "churn") 3 = Ok recs
    /\ forall r, In r recs ->
         In (ModelRecommender.id r) ["random_forest"; "xgboost"; "lightgbm"].
Proof.
  apply (C2_absent_target_gives_unknown_task_ranking Samples.ten_rows
           "churn" 3).
  reflexivity.
Defined.

(** ** Rounding and ratios *)

Lemma round_half_even_bounds (q : Q) (a b : Z) :
  inject_Z a <= q -> q <= inject_Z b ->
  (a <= round_half_even q <= b)%Z.
Proof.
  intros Ha Hb. unfold round_half_even.
  assert (Hfa : (a <= Qfloor q)%Z).
  { rewrite <- (Qfloor_Z a). now apply Qfloor_resp_le. }
  assert (Hfb : (Qfloor q <= b)%Z).
  { rewrite <- (Qfloor_Z b). now apply Qfloor_resp_le. }
  assert (Hup : 0 < q - inject_Z (Qfloor q) -> (Qfloor q + 1 <= b)%Z).
  { intros Hpos. destruct (Z.eq_dec (Qfloor q) b) as [Heq | Hne]; [ | lia ].
    rewrite Heq in Hpos. lra. }
  destruct (Qcompare_spec (q - inject_Z (Qfloor q)) (1 # 2)) as [He | Hl | Hg].
  - destruct (Z.even (Qfloor q)); [ lia | ].
    split; [ lia | apply Hup; rewrite He; reflexivity ].
  - lia.
  - split; [ lia | apply Hup; lra ].
Qed.

Lemma pow10_pos (n : nat) : 0 < pow10 n.
Proof.
  unfold pow10. change 0 with (inject_Z 0). rewrite <- Zlt_Qlt.
  apply Z.pow_pos_nonneg; lia.
Qed.

(** Rounding keeps a percentage a percentage. *)
Lemma round_percentage (q : Q) (n : nat) :
  0 <= q <= 100 -> 0 <= round q n <= 100.
Proof.
  intros [H0 H100]. unfold round.
  pose proof (pow10_pos n) as Hp.
  destruct (round_half_even_bounds (q * pow10 n) 0 (100 * 10 ^ Z.of_nat n))
    as [Hlo Hhi].
  - change (inject_Z 0) with 0. nra.
  - rewrite inject_Z_mult. fold (pow10 n). change (inject_Z 100) with 100. nra.
  - rewrite Zle_Qle in Hlo, Hhi. rewrite inject_Z_mult in Hhi.
    fold (pow10 n) in Hhi. change (inject_Z 100) with 100 in Hhi.
    change (inject_Z 0) with 0 in Hlo.
    split.
    + apply Qle_shift_div_l; [ assumption | ]. lra.
    + apply Qle_shift_div_r; [ assumption | ]. lra.
Qed.

(** A count out of a larger count, as a percentage. *)
Lemma ratio_percentage (a b : nat) :
  (a <= b)%nat -> (0 < b)%nat -> 0 <= Qnat a / Qnat b * 100 <= 100.
Proof.
  intros Hab Hb. unfold Qnat.
  assert (Hb' : 0 < inject_Z (Z.of_nat b)).
  { change 0 with (inject_Z 0). rewrite <- Zlt_Qlt. lia. }
  assert (Ha0 : 0 <= inject_Z (Z.of_nat a)).
  { change 0 with (inject_Z 0). rewrite <- Zle_Qle. lia. }
  assert (Hle : inject_Z (Z.of_nat a) <= inject_Z (Z.of_nat b)).
  { rewrite <- Zle_Qle. lia. }
  assert (H1 : 0 <= inject_Z (Z.of_nat a) / inject_Z (Z.of_nat b)).
  { apply Qle_shift_div_l; [ assumption | lra ]. }
  assert (H2 : inject_Z (Z.of_nat a) / inject_Z (Z.of_nat b) <= 1).
  { apply Qle_shift_div_r; [ assumption | lra ]. }
  lra.
Qed.

Lemma pydiv_nat (a b : nat) :
  (0 < b)%nat -> pydiv (Qnat a) (Qnat b) = Ok (Qnat a / Qnat b).
Proof.
  intros Hb. unfold pydiv.
  destruct (Qeq_bool (Qnat b) 0) eqn:E; [ | reflexivity ].
  apply Qeq_bool_eq in E. unfold Qnat, Qeq in E. cbn in E. lia.
Qed.

(** ** Completeness and Uniqueness (C7, C9) *)

Section Ratios.

Import EnterpriseDataAnalyzer.

Lemma guarded_ok (a b : nat) :
  (if (0 <? b)%nat then pydiv (Qnat a) (Qnat b) else Ok 0) = Ok (guarded a b).
Proof.
  unfold guarded. destruct (Nat.ltb_spec 0 b); [ | reflexivity ].
  now apply pydiv_nat.
Qed.

Lemma for_each_ok {A B : Type} (f : A -> res B) (g : A -> B) (l : list A) :
  (forall a, f a = Ok (g a)) -> for_each f l = Ok (map g l).
Proof.
  intros H. induction l as [| a l IH]; cbn; [ reflexivity | ].
  now rewrite H, IH.
Qed.

Lemma guarded_percentage (a b : nat) :
  (a <= b)%nat -> 0 <= guarded a b * 100 <= 100.
Proof.
  intros Hab. unfold guarded.
  destruct (Nat.ltb_spec 0 b); [ now apply ratio_percentage | lra ].
Qed.

(** [measure_completeness] returns, with the rounded percentage of the
    guarded quotient as its score. *)
Lemma measure_completeness_ok (df : DataFrame) :
  exists r,
    measure_completeness df = Ok r
    /\ score r
       = Some (round (guarded (total (map notna_sum (pd.columns df)))
                        (pd.size df) * 100) 2).
Proof.
  unfold measure_completeness. rewrite guarded_ok. cbn [bind].
  erewrite for_each_ok.
  - cbn [bind]. eexists. split; reflexivity.
  - intros col. rewrite guarded_ok. cbn [bind]. reflexivity.
Qed.

Lemma dropna_length (l : list cell) :
  (List.length (dropna l) <= List.length l)%nat.
Proof. induction l as [| [v |] l IH]; cbn; lia. Qed.

Lemma non_null_le_size (df : DataFrame) :
  well_formed df ->
  (total (map notna_sum (pd.columns df)) <= pd.size df)%nat.
Proof.
  unfold well_formed, pd.size. generalize (index df) as n.
  induction (pd.columns df) as [| c cs IH]; intros n H; cbn; [ lia | ].
  inversion H as [| ? ? Hc Hcs]; subst.
  specialize (IH _ Hcs). pose proof (dropna_length (cells c)).
  unfold notna_sum at 1. unfold total in *. rewrite Nat.mul_succ_r. lia.
Qed.

Lemma duplicated_from_length seen rs :
  List.length (duplicated_from seen rs) = List.length rs.
Proof.
  revert seen. induction rs as [| r rs IH]; intros seen; cbn;
    [ reflexivity | now rewrite IH ].
Qed.

Lemma count_true_le (l : list bool) : (count_true l <= List.length l)%nat.
Proof. unfold count_true. apply filter_length_le. Qed.

Lemma duplicates_le_rows (df : DataFrame) :
  (count_true (duplicated df) <= len df)%nat.
Proof.
  unfold duplicated, len. destruct (empty df); [ cbn; lia | ].
  etransitivity; [ apply count_true_le | ].
  rewrite duplicated_from_length. unfold rows.
  now rewrite length_map, length_seq.
Qed.

(** [measure_uniqueness] returns; its score is the rounded percentage of
    the rows that are not flagged by [duplicated]. *)
Lemma measure_uniqueness_ok (df : DataFrame) :
  exists r,
    measure_uniqueness df = Ok r
    /\ score r
       = Some (round (guarded (len df - count_true (duplicated df)) (len df)
                      * 100) 2)
    /\ total_rows (detail r) = len df
    /\ duplicate_rows (detail r) = count_true (duplicated df).
Proof.
  unfold measure_uniqueness.
  pose proof (duplicates_le_rows df) as Hle.
  replace (inject_Z (Z.of_nat (len df)
                     - Z.of_nat (count_true (duplicated df))))
    with (Qnat (len df - count_true (duplicated df)))
    by (unfold Qnat; f_equal; lia).
  rewrite !guarded_ok. cbn [bind].
  erewrite for_each_ok.
  - cbn [bind].
    destruct (Nat.ltb_spec 0 (len df)) as [Hpos | Hz].
    + rewrite pydiv_nat by exact Hpos.
      cbn [bind]. eexists. repeat split.
    + eexists. repeat split.
  - intros col. rewrite guarded_ok. cbn [bind]. reflexivity.
Qed.

Lemma round_half_even_comp (q q' : Q) :
  q == q' -> round_half_even q = round_half_even q'.
Proof.
  intros H. unfold round_half_even.
  rewrite (Qfloor_comp _ _ H).
  assert (Hc : Qcompare (q - inject_Z (Qfloor q')) (1 # 2)
               = Qcompare (q' - inject_Z (Qfloor q')) (1 # 2)).
  { apply Qcompare_comp; [ now rewrite H | reflexivity ]. }
  now rewrite Hc.
Qed.

Lemma round_comp (q q' : Q) (n : nat) : q == q' -> round q n == round q' n.
Proof.
  intros H. unfold round.
  rewrite (round_half_even_comp (q * pow10 n) (q' * pow10 n));
    [ reflexivity | now rewrite H ].
Qed.





Lemma Qnat_pos (n : nat) : (0 < n)%nat -> 0 < Qnat n.
Proof.
  intros H. unfold Qnat. change 0 with (inject_Z 0). rewrite <- Zlt_Qlt. lia.
Qed.

Lemma empty_size (df : DataFrame) : empty df = true -> pd.size df = 0%nat.
Proof.
  unfold empty, pd.size. intros H. apply orb_true_iff in H.
  destruct H as [H | H]; apply Nat.eqb_eq in H; rewrite H; lia.
Qed.

End Ratios.




(** C9 as stated fails: [no_columns] has two rows and no column; its
    Uniqueness score is 100, not 0. *)
Lemma C9_uniqueness_without_columns_is_100 :
  pd.columns Samples.no_columns = []
  /\ empty Samples.no_columns = true
  /\ exists r q,
       EnterpriseDataAnalyzer.measure_uniqueness Samples.no_columns = Ok r
       /\ EnterpriseDataAnalyzer.score r = Some q
       /\ q == 100
       /\ ~ q == 0.
Proof.
  split; [ reflexivity | ]. split; [ reflexivity | ].
  eexists. eexists. split; [ vm_compute; reflexivity | ].
  split; [ reflexivity | ]. split; [ reflexivity | ].
  intros H. vm_compute in H. discriminate.
Qed.

(** C9, amended.  On a frame without rows or without columns neither
    measurer raises: every quotient is guarded and a guarded quotient with
    a zero divisor is 0.  The Completeness score is 0.  The Uniqueness
    score is 0 when the frame has no row, and 100 when it has rows but no
    column. *)
Theorem C9_empty_frame_scores (df : DataFrame) :
  empty df = true ->
  (exists r q,
      EnterpriseDataAnalyzer.measure_completeness df = Ok r
      /\ EnterpriseDataAnalyzer.score r = Some q
      /\ q == 0)
  /\ (exists r q,
        EnterpriseDataAnalyzer.measure_uniqueness df = Ok r
        /\ EnterpriseDataAnalyzer.score r = Some q
        /\ (len df = 0%nat -> q == 0)
        /\ ((0 < len df)%nat -> q == 100)).
Proof.
  intros He. split.
  - destruct (measure_completeness_ok df) as (r & Hr & Hs).
    exists r. eexists. split; [ exact Hr | ]. split; [ exact Hs | ].
    rewrite (empty_size df He). reflexivity.
  - destruct (measure_uniqueness_ok df) as (r & Hr & Hs & _).
    exists r. eexists. split; [ exact Hr | ]. split; [ exact Hs | ].
    unfold duplicated. rewrite He. change (count_true []) with 0%nat.
    rewrite Nat.sub_0_r. split.
    + intros ->. reflexivity.
    + intros Hpos. unfold guarded.
      destruct (Nat.ltb_spec 0 (len df)) as [_ | Hz]; [ | lia ].
      rewrite (round_comp _ 100); [ reflexivity | ].
      pose proof (Qnat_pos _ Hpos). field. lra.
Qed.

(** The amended statement at [no_rows]. *)
Lemma C9_empty_frame_scores_witness :
  (exists r q,
      EnterpriseDataAnalyzer.measure_completeness Samples.no_rows = Ok r
      /\ EnterpriseDataAnalyzer.score r = Some q
      /\ q == 0)
  /\ (exists r q,
        EnterpriseDataAnalyzer.measure_uniqueness Samples.no_rows = Ok r
        /\ EnterpriseDataAnalyzer.score r = Some q
        /\ (len Samples.no_rows = 0%nat -> q == 0)
        /\ ((0 < len Samples.no_rows)%nat -> q == 100)).
Proof.
  apply (C9_empty_frame_scores Samples.no_rows). reflexivity.
Defined.

(** ** Validity (C10) *)

Section Validity.

Import EnterpriseDataAnalyzer.

Context {P : Pandas}.

Lemma numeric_column_listed (df : DataFrame) (col : Series) :
  In col (pd.columns df) ->
  is_number (dtype_of col) = true ->
  name_in (name col) (numeric_cols df) = true.
Proof.
  intros Hin Hnum. unfold name_in, numeric_cols, select_dtypes.
  apply existsb_exists. exists (name col). split.
  - apply in_map. apply filter_In. now split.
  - apply String.eqb_refl.
Qed.

Lemma check_counts (n : nat) (text : string) (st : checks) :
  total_ (check n text st) = (total_ st + 1)%nat
  /\ (passed_ st <= passed_ (check n text st) <= passed_ st + 1)%nat
  /\ (n = 0%nat -> passed_ (check n text st) = (passed_ st + 1)%nat).
Proof.
  unfold check. destruct (Nat.ltb_spec 0 n); cbn; repeat split; lia.
Qed.

(** What the numeric branch adds to the two counters. *)
Lemma numeric_checks_counts (col : Series) (col_data : list value)
  (st : checks) :
  let st' := numeric_checks col col_data st in
  total_ st' = (total_ st + 2)%nat
  /\ (passed_ st <= passed_ st' <= passed_ st + 2)%nat
  /\ (any_keyword positive_keywords (name col) = false ->
      (passed_ st + 1 <= passed_ st')%nat
      /\ (dtype_of col = int64 -> passed_ st' = (passed_ st + 2)%nat)).
Proof.
  unfold numeric_checks.
  set (inf_count := if dtype_eqb (dtype_of col) float64
                    then count is_inf col_data else 0%nat).
  destruct (check_counts inf_count "infinite values detected" st)
    as (Ht & Hp & Hz).
  destruct (any_keyword positive_keywords (name col)).
  - destruct (check_counts (count (fun v => num_lt v 0) col_data)
                "unexpected negative values"
                (check inf_count "infinite values detected" st))
      as (Ht' & Hp' & _).
    cbn zeta. repeat split; try lia; discriminate.
  - cbn. repeat split; try lia.
    intros Hint. rewrite Hz; [ lia | ].
    unfold inf_count. now rewrite Hint.
Qed.

End Validity.

(** C10.  In the loop of [measure_validity], a numeric column with at
    least one non-missing value adds exactly 2 to [total_checks], whatever
    its numeric type and its name, and between 0 and 2 to [passed_checks].
    When its name holds no positivity keyword the negative-value check is
    counted as passed without looking at the data, so at least 1 is added
    to [passed_checks] (and exactly 2 for an integer column). *)
Theorem C10_numeric_column_adds_two_checks {P : Pandas} (df : DataFrame)
  (col : Series) (st : EnterpriseDataAnalyzer.checks)
  (reported : list EnterpriseDataAnalyzer.column_issues) :
  In col (pd.columns df) ->
  is_number (dtype_of col) = true ->
  dropna (cells col) <> [] ->
  let st' :=
    fst (EnterpriseDataAnalyzer.validity_column df col (st, reported)) in
  EnterpriseDataAnalyzer.total_ st'
  = (EnterpriseDataAnalyzer.total_ st + 2)%nat
  /\ (EnterpriseDataAnalyzer.passed_ st
      <= EnterpriseDataAnalyzer.passed_ st'
      <= EnterpriseDataAnalyzer.passed_ st + 2)%nat
  /\ (any_keyword EnterpriseDataAnalyzer.positive_keywords (name col) = false ->
      (EnterpriseDataAnalyzer.passed_ st + 1
       <= EnterpriseDataAnalyzer.passed_ st')%nat
      /\ (dtype_of col = int64 ->
          EnterpriseDataAnalyzer.passed_ st'
          = (EnterpriseDataAnalyzer.passed_ st + 2)%nat)).
Proof.
  intros Hin Hnum Hdata. unfold EnterpriseDataAnalyzer.validity_column.
  destruct (dropna (cells col)) as [| v vs] eqn:Hcol; [ now elim Hdata | ].
  cbn [List.length Nat.eqb].
  rewrite (numeric_column_listed df col Hin Hnum).
  pose proof (numeric_checks_counts col (v :: vs)
                (EnterpriseDataAnalyzer.mkChecks
                   (EnterpriseDataAnalyzer.total_ st)
                   (EnterpriseDataAnalyzer.passed_ st) [])) as H.
  cbn zeta in H. cbn [EnterpriseDataAnalyzer.total_
                       EnterpriseDataAnalyzer.passed_] in H.
  destruct (EnterpriseDataAnalyzer.found_ _); cbn [fst
    EnterpriseDataAnalyzer.total_ EnterpriseDataAnalyzer.passed_]; exact H.
Qed.

(** The integer column [rating] of [ratings], from fresh counters. *)
Lemma C10_numeric_column_witness :
  let st' :=
    fst (@EnterpriseDataAnalyzer.validity_column Samples.plain Samples.ratings
           Samples.scores_column
           (EnterpriseDataAnalyzer.mkChecks 0 0 [], [])) in
  EnterpriseDataAnalyzer.total_ st' = 2%nat
  /\ (0 <= EnterpriseDataAnalyzer.passed_ st' <= 2)%nat
  /\ (any_keyword EnterpriseDataAnalyzer.positive_keywords "rating" = false ->
      (1 <= EnterpriseDataAnalyzer.passed_ st')%nat
      /\ (int64 = int64 -> EnterpriseDataAnalyzer.passed_ st' = 2%nat)).
Proof.
  apply (@C10_numeric_column_adds_two_checks Samples.plain Samples.ratings
           Samples.scores_column (EnterpriseDataAnalyzer.mkChecks 0 0 []) []).
  - left. reflexivity.
  - reflexivity.
  - discriminate.
Defined.

(** ** Score ranges (C4) *)

Section Ranges.

Import EnterpriseDataAnalyzer.

Context {P : Pandas}.

Lemma fold_left_invariant {A B : Type} (Inv : A -> Prop) (f : A -> B -> A)
  (l : list B) (a : A) :
  (forall a b, Inv a -> Inv (f a b)) -> Inv a -> Inv (fold_left f l a).
Proof.
  intros Hstep. revert a. induction l as [| b l IH]; cbn; intros a Ha;
    [ exact Ha | ].
  apply IH. now apply Hstep.
Qed.

Lemma check_sound n text st : sound st -> sound (check n text st).
Proof.
  unfold sound. destruct (check_counts n text st) as (Ht & Hp & _). lia.
Qed.

Lemma numeric_checks_sound col col_data st :
  sound st -> sound (numeric_checks col col_data st).
Proof.
  unfold sound. pose proof (numeric_checks_counts col col_data st) as H.
  cbn zeta in H. lia.
Qed.

Lemma categorical_checks_sound col col_data st :
  sound st -> sound (categorical_checks col col_data st).
Proof.
  intros H. unfold categorical_checks.
  destruct (contains "email" _), (_ || _); repeat apply check_sound; exact H.
Qed.

Lemma validity_column_sound df col acc :
  sound (fst acc) -> sound (fst (validity_column df col acc)).
Proof.
  destruct acc as [st reported]. cbn [fst]. intros H.
  unfold validity_column.
  destruct (List.length (dropna (cells col)) =? 0)%nat; [ exact H | ].
  set (st0 := mkChecks (total_ st) (passed_ st) []).
  assert (H0 : sound st0) by exact H.
  set (st1 := if name_in (name col) (numeric_cols df) then _ else _).
  assert (H1 : sound st1).
  { unfold st1. destruct (name_in _ (numeric_cols df));
      [ now apply numeric_checks_sound | ].
    destruct (name_in _ (categorical_cols df));
      [ now apply categorical_checks_sound | exact H0 ]. }
  destruct (found_ st1); exact H1.
Qed.

Lemma validity_loop_sound df : sound (fst (validity_loop df)).
Proof.
  unfold validity_loop.
  apply (fold_left_invariant (fun acc => sound (fst acc))).
  - intros acc col. apply validity_column_sound.
  - cbn. unfold sound. cbn. lia.
Qed.

Lemma measure_validity_ok df :
  exists r,
    measure_validity df = Ok r
    /\ score r = Some (round (validity_score df) 2).
Proof.
  unfold measure_validity, validity_score.
  destruct (validity_loop df) as [st reported]. cbn [fst].
  destruct (Nat.ltb_spec 0 (total_ st)) as [Hpos | Hz].
  - rewrite pydiv_nat by exact Hpos. cbn [bind]. eexists. split; reflexivity.
  - cbn [bind]. eexists. split; reflexivity.
Qed.

Lemma validity_score_percentage df : 0 <= validity_score df <= 100.
Proof.
  unfold validity_score. pose proof (validity_loop_sound df) as H.
  destruct (Nat.ltb_spec 0 (total_ (fst (validity_loop df)))).
  - now apply ratio_percentage.
  - lra.
Qed.

(** A running score that starts at 100 and only loses points. *)
Lemma floored_percentage (s : Z) :
  (s <= 100)%Z -> 0 <= inject_Z (Z.max 0 s) <= 100.
Proof.
  intros H. change 0 with (inject_Z 0). change 100 with (inject_Z 100).
  rewrite <- !Zle_Qle. lia.
Qed.

Lemma consistency_loop_le df : (fst (consistency_loop df) <= 100)%Z.
Proof.
  unfold consistency_loop.
  repeat apply
    (fold_left_invariant (fun acc : penalties => (fst acc <= 100)%Z)).
  - intros acc col H. unfold numeric_range.
    split_ifs; try exact H; unfold penalize; cbn; lia.
  - intros acc col H. unfold date_format.
    split_ifs; try exact H; unfold penalize; cbn; lia.
  - intros acc col H. unfold case_and_whitespace.
    split_ifs; try exact H; unfold penalize; cbn; lia.
  - cbn. lia.
Qed.

Lemma accuracy_loop_le df : (fst (accuracy_loop df) <= 100)%Z.
Proof.
  unfold accuracy_loop.
  apply (fold_left_invariant
           (fun acc : Z * list indicator => (fst acc <= 100)%Z)).
  - intros [s inds] col H. cbn [fst] in H. unfold accuracy_column.
    destruct (_ <? 10)%nat; [ exact H | ].
    destruct (Qltb 5 _); [ cbn; lia | ].
    destruct (Qltb 2 _); cbn; lia.
  - cbn. lia.
Qed.

Lemma timeliness_column_le now col (acc : Z * list date_analysis) :
  (fst acc <= 100)%Z -> (fst (timeliness_column now col acc) <= 100)%Z.
Proof.
  destruct acc as [s entries]. cbn [fst]. intros H. unfold timeliness_column.
  destruct (0 <? _)%nat; [ | exact H ].
  destruct (known_above _ 365); [ cbn; lia | ].
  destruct (known_above _ 90); cbn; lia.
Qed.

Lemma measure_timeliness_score now df :
  let t := measure_timeliness now df in
  (score t = None <-> date_cols df = [])
  /\ (score t = None -> status t = "unknown")
  /\ (score t <> None -> percentage (score t)).
Proof.
  unfold measure_timeliness.
  destruct (date_cols df) as [| c cs] eqn:Hcols.
  - cbn. repeat split; try reflexivity. intros H. now elim H.
  - cbn [List.length Nat.eqb].
    pose proof (fold_left_invariant
                  (fun acc : Z * list date_analysis => (fst acc <= 100)%Z)
                  (fun a c => timeliness_column now c a)
                  (firstn 3 (c :: cs)) (100%Z, [])
                  (fun a b => timeliness_column_le now b a)) as Hle.
    destruct (fold_left _ _ _) as [s entries]. cbn [fst] in Hle.
    cbn [score status]. repeat split; try discriminate.
    intros _. eexists. split; [ reflexivity | ].
    apply floored_percentage, Hle. cbn. lia.
Qed.

Lemma measure_ml_readiness_score df :
  percentage (score (measure_ml_readiness df)).
Proof.
  unfold measure_ml_readiness. cbn [score].
  eexists. split; [ reflexivity | ]. apply floored_percentage. lia.
Qed.

End Ranges.


(** ** Doubles *)

Lemma pow2_pos (e : Z) : 0 < pow2 e.
Proof. apply Qpower_0_lt. reflexivity. Qed.

Lemma pow2_le (e e' : Z) : (e <= e')%Z -> pow2 e <= pow2 e'.
Proof. intros H. apply Qpower_le_compat_l; [ exact H | discriminate ]. Qed.

Lemma pow2_plus (a b : Z) : pow2 (a + b) == pow2 a * pow2 b.
Proof. apply Qpower_plus. discriminate. Qed.

Lemma pow2_succ (e : Z) : pow2 (e + 1) == pow2 e * 2.
Proof. rewrite pow2_plus. reflexivity. Qed.

Lemma pow2_Z (n : Z) : (0 <= n)%Z -> pow2 n == inject_Z (2 ^ n).
Proof. intros H. unfold pow2. now rewrite Zpower_Qpower. Qed.

(** [floor_log2] finds the binade of a positive number. *)
Lemma floor_log2_spec (q : Q) :
  0 < q -> pow2 (floor_log2 q) <= q /\ q < pow2 (floor_log2 q + 1).
Proof.
  intros Hq. unfold floor_log2.
  destruct q as [n d]. cbn [Qnum Qden].
  assert (Hn : (0 < n)%Z) by (unfold Qlt in Hq; cbn in Hq; lia).
  set (a := Z.log2 n). set (b := Z.log2 (Zpos d)).
  destruct (Z.log2_spec n Hn) as [Ha1 Ha2]. fold a in Ha1, Ha2.
  destruct (Z.log2_spec (Zpos d) (Pos2Z.is_pos d)) as [Hb1 Hb2].
  fold b in Hb1, Hb2.
  assert (Ha0 : (0 <= a)%Z) by apply Z.log2_nonneg.
  assert (Hb0 : (0 <= b)%Z) by apply Z.log2_nonneg.
  pose proof (pow2_pos a) as Hpa. pose proof (pow2_pos b) as Hpb.
  pose proof (pow2_pos (a - b - 1)) as Hp1.
  pose proof (pow2_pos (a - b)) as Hp2.
  assert (Ea : pow2 a == pow2 (a - b) * pow2 b).
  { rewrite <- pow2_plus. now replace (a - b + b)%Z with a by lia. }
  assert (Eb : pow2 (a - b) == pow2 (a - b - 1) * 2).
  { rewrite <- pow2_succ.
    now replace (a - b - 1 + 1)%Z with (a - b)%Z by lia. }
  assert (Ec : pow2 (a - b + 1) == pow2 (a - b) * 2) by apply pow2_succ.
  assert (Hq' : (n # d) * inject_Z (Zpos d) == inject_Z n).
  { unfold Qeq, Qmult, inject_Z. cbn. lia. }
  assert (Hd : 0 < inject_Z (Zpos d)) by reflexivity.
  assert (Hna : pow2 a <= inject_Z n).
  { rewrite pow2_Z by exact Ha0. now rewrite <- Zle_Qle. }
  assert (Hna' : inject_Z n < pow2 a * 2).
  { rewrite <- pow2_succ, pow2_Z by lia. rewrite <- Zlt_Qlt.
    now rewrite <- Z.add_1_r in Ha2. }
  assert (Hdb : pow2 b <= inject_Z (Zpos d)).
  { rewrite pow2_Z by exact Hb0. now rewrite <- Zle_Qle. }
  assert (Hdb' : inject_Z (Zpos d) < pow2 b * 2).
  { rewrite <- pow2_succ, pow2_Z by lia. rewrite <- Zlt_Qlt.
    now rewrite <- Z.add_1_r in Hb2. }
  assert (Hlow : pow2 (a - b - 1) < n # d).
  { apply Qnot_le_lt. intros Hle.
    assert (inject_Z n <= pow2 (a - b - 1) * inject_Z (Zpos d)) by
      (rewrite <- Hq'; apply Qmult_le_compat_r; [ exact Hle | lra ]).
    assert (pow2 (a - b - 1) * inject_Z (Zpos d)
            < pow2 (a - b - 1) * (pow2 b * 2))
      by (apply Qmult_lt_l; assumption).
    assert (pow2 (a - b - 1) * (pow2 b * 2) == pow2 a)
      by (rewrite Ea, Eb; ring).
    lra. }
  assert (Hhigh : n # d < pow2 (a - b + 1)).
  { apply Qnot_le_lt. intros Hle.
    assert (pow2 (a - b + 1) * inject_Z (Zpos d) <= inject_Z n) by
      (rewrite <- Hq'; apply Qmult_le_compat_r; [ exact Hle | lra ]).
    assert (pow2 (a - b + 1) * pow2 b <= pow2 (a - b + 1) * inject_Z (Zpos d))
      by (apply Qmult_le_l; [ apply pow2_pos | assumption ]).
    assert (pow2 (a - b + 1) * pow2 b == pow2 a * 2)
      by (rewrite Ec, Ea; ring).
    lra. }
  destruct (Qle_bool (pow2 (a - b)) (n # d)) eqn:E.
  - apply Qle_bool_iff in E. split; [ exact E | exact Hhigh ].
  - assert (n # d < pow2 (a - b)).
    { apply Qnot_le_lt. intros Hle. apply Qle_bool_iff in Hle. congruence. }
    split; [ lra | ].
    now replace (a - b - 1 + 1)%Z with (a - b)%Z by lia.
Qed.

Lemma floor_log2_le (x y : Q) :
  0 < x -> x <= y -> (floor_log2 x <= floor_log2 y)%Z.
Proof.
  intros Hx Hxy.
  destruct (floor_log2_spec x Hx) as [Hx1 _].
  destruct (floor_log2_spec y) as [_ Hy2]; [ lra | ].
  destruct (Z_le_gt_dec (floor_log2 x) (floor_log2 y)) as [H | H];
    [ exact H | ].
  exfalso.
  assert (pow2 (floor_log2 y + 1) <= pow2 (floor_log2 x))
    by (apply pow2_le; lia).
  lra.
Qed.

Lemma round_half_even_cases (q : Q) :
  round_half_even q = Qfloor q \/ round_half_even q = (Qfloor q + 1)%Z.
Proof.
  unfold round_half_even.
  destruct (Qcompare _ _); [ destruct (Z.even _) | | ]; auto.
Qed.

Lemma round_half_even_le (a b : Q) :
  a <= b -> (round_half_even a <= round_half_even b)%Z.
Proof.
  intros Hab. pose proof (Qfloor_resp_le _ _ Hab) as Hf.
  destruct (Z.eq_dec (Qfloor a) (Qfloor b)) as [E | N].
  - unfold round_half_even. rewrite E.
    destruct (Qcompare_spec (a - inject_Z (Qfloor b)) (1 # 2))
      as [Ha | Ha | Ha];
      destruct (Qcompare_spec (b - inject_Z (Qfloor b)) (1 # 2))
        as [Hb | Hb | Hb];
      try destruct (Z.even (Qfloor b)); try lia; exfalso; lra.
  - destruct (round_half_even_cases a) as [-> | ->];
      destruct (round_half_even_cases b) as [-> | ->]; lia.
Qed.

Lemma ulp_exponent_le (x y : Q) :
  0 < x -> x <= y -> (ulp_exponent x <= ulp_exponent y)%Z.
Proof.
  intros Hx Hxy. unfold ulp_exponent.
  assert (floor_log2 (Qabs x) <= floor_log2 (Qabs y))%Z; [ | lia ].
  apply floor_log2_le.
  - rewrite Qabs_pos; lra.
  - rewrite !Qabs_pos; lra.
Qed.

Lemma double_nonneg (x : Q) : 0 <= x -> 0 <= double x.
Proof.
  intros Hx. unfold double. pose proof (pow2_pos (ulp_exponent x)) as Hp.
  destruct (round_half_even_bounds (x / pow2 (ulp_exponent x)) 0
              (Qfloor (x / pow2 (ulp_exponent x)) + 1)) as [Hlo _].
  - apply Qle_shift_div_l; [ exact Hp | ]. change (inject_Z 0) with 0. lra.
  - apply Qlt_le_weak, Qlt_floor.
  - rewrite Zle_Qle in Hlo. change (inject_Z 0) with 0 in Hlo. nra.
Qed.

Lemma double_nonpos (x : Q) : x <= 0 -> double x <= 0.
Proof.
  intros Hx. unfold double. pose proof (pow2_pos (ulp_exponent x)) as Hp.
  destruct (round_half_even_bounds (x / pow2 (ulp_exponent x))
              (Qfloor (x / pow2 (ulp_exponent x))) 0) as [_ Hhi].
  - apply Qfloor_le.
  - apply Qle_shift_div_r; [ exact Hp | ]. change (inject_Z 0) with 0. lra.
  - rewrite Zle_Qle in Hhi. change (inject_Z 0) with 0 in Hhi. nra.
Qed.

(** Rounding to the nearest double keeps the order of two numbers of which
    the greater is not negative. *)
Lemma double_le (x y : Q) : 0 <= y -> x <= y -> double x <= double y.
Proof.
  intros Hy Hxy.
  destruct (Qlt_le_dec 0 x) as [Hx' | Hx'].
  2: { pose proof (double_nonpos x Hx'). pose proof (double_nonneg y Hy).
       lra. }
  pose proof (ulp_exponent_le x y Hx' Hxy) as He.
  unfold double.
  set (ex := ulp_exponent x) in *. set (ey := ulp_exponent y) in *.
  pose proof (pow2_pos ex) as Hpx. pose proof (pow2_pos ey) as Hpy.
  destruct (Z.eq_dec ex ey) as [E | N].
  - rewrite <- E.
    assert (Hdiv : x / pow2 ex <= y / pow2 ex).
    { apply Qle_shift_div_l; [ exact Hpx | ].
      unfold Qdiv. rewrite <- Qmult_assoc, (Qmult_comm (/ _)).
      rewrite Qmult_inv_r, Qmult_1_r; lra. }
    apply round_half_even_le in Hdiv. rewrite Zle_Qle in Hdiv. nra.
  - assert (Hlt : (ex < ey)%Z) by lia.
    assert (Hfx : (floor_log2 (Qabs x) - 52 <= ex)%Z)
      by (unfold ex, ulp_exponent; lia).
    assert (Hfy : ey = (floor_log2 (Qabs y) - 52)%Z)
      by (unfold ex, ey, ulp_exponent in *; lia).
    destruct (floor_log2_spec (Qabs x)) as [_ Hx2];
      [ rewrite Qabs_pos; lra | ].
    destruct (floor_log2_spec (Qabs y)) as [Hy1 _];
      [ rewrite Qabs_pos; lra | ].
    assert (Hax : Qabs x == x) by (apply Qabs_pos; lra).
    assert (Hay : Qabs y == y) by (apply Qabs_pos; lra).
    assert (Hxb : x <= pow2 (ex + 53)).
    { assert (pow2 (floor_log2 (Qabs x) + 1) <= pow2 (ex + 53))
        by (apply pow2_le; lia).
      lra. }
    assert (Hyb : pow2 (ey + 52) <= y).
    { replace (ey + 52)%Z with (floor_log2 (Qabs y)) by lia. lra. }
    assert (H53 : pow2 (ex + 53) == inject_Z (2 ^ 53) * pow2 ex).
    { rewrite Z.add_comm, pow2_plus. now rewrite (pow2_Z 53). }
    assert (H52 : pow2 (ey + 52) == inject_Z (2 ^ 52) * pow2 ey).
    { rewrite Z.add_comm, pow2_plus. now rewrite (pow2_Z 52). }
    destruct (round_half_even_bounds (x / pow2 ex) 0 (2 ^ 53)) as [_ Hmx].
    { apply Qle_shift_div_l; [ exact Hpx | ].
      change (inject_Z 0) with 0. lra. }
    { apply Qle_shift_div_r; [ exact Hpx | ]. lra. }
    destruct (round_half_even_bounds (y / pow2 ey) (2 ^ 52)
                (Qfloor (y / pow2 ey) + 1)) as [Hmy _].
    { apply Qle_shift_div_l; [ exact Hpy | ]. lra. }
    { apply Qlt_le_weak, Qlt_floor. }
    rewrite Zle_Qle in Hmx, Hmy.
    assert (pow2 (ex + 53) <= pow2 (ey + 52)) by (apply pow2_le; lia).
    assert (inject_Z (round_half_even (x / pow2 ex)) * pow2 ex
            <= pow2 (ex + 53)) by (rewrite H53; nra).
    assert (pow2 (ey + 52)
            <= inject_Z (round_half_even (y / pow2 ey)) * pow2 ey)
      by (rewrite H52; nra).
    lra.
Qed.

(** A number on one side of a double stays on that side when rounded. *)
Lemma double_below (x b : Q) :
  0 <= b -> double b == b -> x <= b -> double x <= b.
Proof. intros Hb Hd Hx. rewrite <- Hd. now apply double_le. Qed.

Lemma double_above (x b : Q) :
  0 <= b -> double b == b -> b <= x -> b <= double x.
Proof. intros Hb Hd Hx. rewrite <- Hd. apply double_le; lra. Qed.

(** [round(x, 1)] does not cross a whole number that is a double. *)
Lemma fround_whole (x : Q) (z : Z) :
  (0 <= z)%Z -> double (inject_Z z) == inject_Z z ->
  (inject_Z z <= x -> inject_Z z <= fround x 1)
  /\ (x <= inject_Z z -> fround x 1 <= inject_Z z).
Proof.
  intros Hz Hd.
  assert (H0 : 0 <= inject_Z z)
    by (change 0 with (inject_Z 0); now rewrite <- Zle_Qle).
  unfold fround, round. change (pow10 1) with 10.
  split; intros Hx.
  - apply double_above; [ exact H0 | exact Hd | ].
    destruct (round_half_even_bounds (x * 10) (z * 10)
                (Qfloor (x * 10) + 1)) as [Hlo _].
    + rewrite inject_Z_mult. change (inject_Z 10) with 10. lra.
    + apply Qlt_le_weak, Qlt_floor.
    + rewrite Zle_Qle, inject_Z_mult in Hlo. change (inject_Z 10) with 10 in Hlo.
      apply Qle_shift_div_l; [ reflexivity | exact Hlo ].
  - apply double_below; [ exact H0 | exact Hd | ].
    destruct (round_half_even_bounds (x * 10) (Qfloor (x * 10)) (z * 10))
      as [_ Hhi].
    + apply Qfloor_le.
    + rewrite inject_Z_mult. change (inject_Z 10) with 10. lra.
    + rewrite Zle_Qle, inject_Z_mult in Hhi. change (inject_Z 10) with 10 in Hhi.
      apply Qle_shift_div_r; [ reflexivity | exact Hhi ].
Qed.

(** ** Overall score and grade (C3, C6) *)

Section Overall.

Import EnterpriseDataAnalyzer.

Context {P : Pandas}.

(** [0.10 / 5] is the double [0.02]. *)
Lemma a_fifth_of_the_timeliness_weight :
  fdiv (double (10 # 100)) 5 = double (2 # 100).
Proof. vm_compute. reflexivity. Qed.

(** With a Timeliness score [t], the sum of line 554 runs over the six
    scores under the base weights. *)
Lemma weighted_sum_six (c u v k a t : Q) :
  weighted_sum (fst (scores_and_weights c u v k a (Some t)))
               (snd (scores_and_weights c u v k a (Some t)))
  = Ok (dot [ (c, double (25 # 100)); (u, double (15 # 100));
              (v, double (15 # 100)); (k, double (15 # 100));
              (a, double (20 # 100)); (t, double (10 # 100)) ]).
Proof.
  unfold scores_and_weights, weighted_sum, dot.
  cbn [fst snd app fold_left].
  change (get weights "completeness") with (Ok (double (25 # 100))).
  change (get weights "uniqueness") with (Ok (double (15 # 100))).
  change (get weights "validity") with (Ok (double (15 # 100))).
  change (get weights "consistency") with (Ok (double (15 # 100))).
  change (get weights "accuracy") with (Ok (double (20 # 100))).
  change (get weights "timeliness") with (Ok (double (10 # 100))).
  cbn [bind]. reflexivity.
Qed.

(** What [redistribute] leaves in the dictionary of the weights. *)
Lemma redistribute_weights :
  redistribute weights
  = [ ("completeness", fadd (double (25 # 100)) (double (2 # 100)));
      ("uniqueness", fadd (double (15 # 100)) (double (2 # 100)));
      ("validity", fadd (double (15 # 100)) (double (2 # 100)));
      ("consistency", fadd (double (15 # 100)) (double (2 # 100)));
      ("accuracy", fadd (double (20 # 100)) (double (2 # 100)));
      ("timeliness", 0) ].
Proof.
  rewrite <- a_fifth_of_the_timeliness_weight. reflexivity.
Qed.

(** Without a Timeliness score the sum runs over five scores, each weight
    raised by [0.10 / 5]. *)
Lemma weighted_sum_five (c u v k a : Q) :
  weighted_sum (fst (scores_and_weights c u v k a None))
               (snd (scores_and_weights c u v k a None))
  = Ok (dot [ (c, fadd (double (25 # 100)) (double (2 # 100)));
              (u, fadd (double (15 # 100)) (double (2 # 100)));
              (v, fadd (double (15 # 100)) (double (2 # 100)));
              (k, fadd (double (15 # 100)) (double (2 # 100)));
              (a, fadd (double (20 # 100)) (double (2 # 100))) ]).
Proof.
  unfold scores_and_weights. cbn [fst snd]. rewrite redistribute_weights.
  unfold weighted_sum, dot. cbn [fold_left].
  cbn [get String.eqb Ascii.eqb Bool.eqb bind]. reflexivity.
Qed.

Lemma weighted_sum_ok (c u v k a : Q) (t : option Q) :
  exists s,
    weighted_sum (fst (scores_and_weights c u v k a t))
                 (snd (scores_and_weights c u v k a t)) = Ok s.
Proof.
  destruct t as [t |].
  - eexists. apply weighted_sum_six.
  - eexists. apply weighted_sum_five.
Qed.



(** [calculate_overall_score] and its parts: the scores of the six
    measurers, read as doubles, the sum [s] of line 554 over the two
    dictionaries, the grade taken from [s], and [s] rounded to one decimal
    as the reported [overall_score]. *)
Lemma calculate_overall_score_ok (now : Z) (df : DataFrame) :
  exists rc ru rv c u v k a s o,
    measure_completeness df = Ok rc /\ score rc = Some c
    /\ measure_uniqueness df = Ok ru /\ score ru = Some u
    /\ measure_validity df = Ok rv /\ score rv = Some v
    /\ score (measure_consistency df) = Some k
    /\ score (measure_accuracy df) = Some a
    /\ weighted_sum
         (fst (scores_and_weights (double c) (double u) (double v)
                 (double k) (double a)
                 (option_map double (score (measure_timeliness now df)))))
         (snd (scores_and_weights (double c) (double u) (double v)
                 (double k) (double a)
                 (option_map double (score (measure_timeliness now df)))))
       = Ok s
    /\ calculate_overall_score now df = Ok o
    /\ overall_score o = fround s 1
    /\ grade o = fst (grade_of s)
    /\ grade_description o = snd (grade_of s)
    /\ final_weights o
       = snd (scores_and_weights (double c) (double u) (double v)
                (double k) (double a)
                (option_map double (score (measure_timeliness now df)))).
Proof.
  destruct (measure_completeness_ok df) as (rc & Hrc & Hc).
  destruct (measure_uniqueness_ok df) as (ru & Hru & Hu & _).
  destruct (measure_validity_ok df) as (rv & Hrv & Hv).
  assert (Hk : exists k, score (measure_consistency df) = Some k).
  { unfold measure_consistency. destruct (consistency_loop df).
    eexists. reflexivity. }
  assert (Ha : exists a, score (measure_accuracy df) = Some a).
  { unfold measure_accuracy. destruct (accuracy_loop df).
    eexists. reflexivity. }
  destruct Hk as [k Hk]. destruct Ha as [a Ha].
  match type of Hc with _ = Some ?x => set (c := x) in * end.
  match type of Hu with _ = Some ?x => set (u := x) in * end.
  match type of Hv with _ = Some ?x => set (v := x) in * end.
  destruct (weighted_sum_ok (double c) (double u) (double v) (double k)
              (double a)
              (option_map double (score (measure_timeliness now df))))
    as [s Hs].
  destruct (scores_and_weights (double c) (double u) (double v) (double k)
              (double a)
              (option_map double (score (measure_timeliness now df))))
    as [scores ws] eqn:Hsw.
  destruct (grade_of s) as [g gd] eqn:Hg.
  exists rc, ru, rv, c, u, v, k, a, s. eexists. rewrite !Hsw.
  split; [ exact Hrc | ]. split; [ exact Hc | ].
  split; [ exact Hru | ]. split; [ exact Hu | ].
  split; [ exact Hrv | ]. split; [ exact Hv | ].
  split; [ exact Hk | ]. split; [ exact Ha | ].
  split; [ exact Hs | ].
  unfold calculate_overall_score. rewrite Hrc, Hru, Hrv. cbn [bind].
  unfold number. rewrite Hc, Hu, Hv, Hk, Ha. cbn [bind].
  rewrite Hsw. cbn [fst snd] in Hs. rewrite Hs. cbn [bind]. rewrite Hg.
  split; [ reflexivity | ].
  cbn [overall_score grade grade_description final_weights fst snd].
  repeat split.
Qed.

(** The doubles at work: for the five scores 90, 80, 90, 100 and 90,
    whose weighted sum is 90 in exact arithmetic, the sum of line 554 is
    the double just below 90 (89.99999999999999); it is reported as 90.0
    and graded B. *)
Lemma weighted_sum_just_below_90 :
  let s := dot [ (90, fadd (double (25 # 100)) (double (2 # 100)));
                 (80, fadd (double (15 # 100)) (double (2 # 100)));
                 (90, fadd (double (15 # 100)) (double (2 # 100)));
                 (100, fadd (double (15 # 100)) (double (2 # 100)));
                 (90, fadd (double (20 # 100)) (double (2 # 100))) ] in
  s == 6333186975989759 # 70368744177664
  /\ s < 90
  /\ fround s 1 == 90
  /\ fst (grade_of s) = "B".
Proof. cbn zeta. repeat split; vm_compute; reflexivity. Qed.

End Overall.




Lemma Qgeb_true (x y : Q) : Qgeb x y = true <-> y <= x.
Proof. unfold Qgeb. apply Qle_bool_iff. Qed.

Lemma Qgeb_false (x y : Q) : Qgeb x y = false <-> x < y.
Proof.
  unfold Qgeb. split.
  - intros H. apply Qnot_le_lt. intros Hle.
    apply Qle_bool_iff in Hle. congruence.
  - intros H. apply not_true_is_false. intros Hle.
    apply Qle_bool_iff in Hle. lra.
Qed.






(** ** Freshness (C5) *)

(** For a latest date that is not 0 days old the three classes are the
    stated ones. *)
Lemma freshness_of_nonzero (d : Z) :
  d <> 0%Z ->
  EnterpriseDataAnalyzer.freshness_of (Some d)
  = if (d <? 30)%Z then "current"
    else if (d <? 90)%Z then "recent" else "stale".
Proof.
  intros Hd. unfold EnterpriseDataAnalyzer.freshness_of,
    EnterpriseDataAnalyzer.known_below.
  destruct (Z.eqb_spec d 0) as [-> | _]; [ now elim Hd | reflexivity ].
Qed.

(** C5 (the code does not do this).  In [seen_today] the latest date of
    the column [seen] is six hours old at [noon]: 0 whole days, which is
    less than 30.  The entry the measurer writes for the column reports
    0 days since the latest date and the freshness "stale", because the
    test [days_old and days_old < 30] is false for 0. *)
Theorem C5_zero_days_old_is_reported_stale :
  map (fun e => (EnterpriseDataAnalyzer.da_column e,
                 EnterpriseDataAnalyzer.days_since_latest e,
                 EnterpriseDataAnalyzer.freshness e))
    (EnterpriseDataAnalyzer.analysis
       (EnterpriseDataAnalyzer.detail
          (@EnterpriseDataAnalyzer.measure_timeliness Samples.plain
             Samples.noon Samples.seen_today)))
  = [ ("seen", Some 0%Z, "stale") ]
  /\ EnterpriseDataAnalyzer.freshness_of (Some 0%Z) = "stale".
Proof. split; vm_compute; reflexivity. Qed.


(** * Further properties *)

(** ** Completeness: details and full frames *)

Section CompletenessDetails.

Import EnterpriseDataAnalyzer.

Lemma measure_completeness_eq (df : DataFrame) :
  measure_completeness df
  = Ok (mkResult "Completeness"
          (Some (round (guarded (total (map notna_sum (pd.columns df)))
                          (pd.size df) * 100) 2))
          (Some 95%Z)
          (status_of (guarded (total (map notna_sum (pd.columns df)))
                        (pd.size df)) (95 # 100) (8 # 10))
          (mkCompleteness (pd.size df)
             (total (map notna_sum (pd.columns df)))
             (Z.of_nat (pd.size df)
              - Z.of_nat (total (map notna_sum (pd.columns df))))
             (List.length
                (filter (fun c => String.eqb (cc_status c) "fail")
                   (sort_by_ratio
                      (map (completeness_entry df) (pd.columns df)))))
             (sort_by_ratio (map (completeness_entry df) (pd.columns df))))).
Proof.
  unfold measure_completeness. rewrite guarded_ok. cbn [bind].
  erewrite for_each_ok.
  - cbn [bind]. reflexivity.
  - intros col. rewrite guarded_ok. cbn [bind]. reflexivity.
Qed.

Lemma Qltb_false (a b : Q) : Qltb a b = false <-> b <= a.
Proof.
  unfold Qltb. rewrite negb_false_iff. apply Qle_bool_iff.
Qed.

Lemma Qltb_true (a b : Q) : Qltb a b = true <-> a < b.
Proof.
  unfold Qltb. rewrite negb_true_iff. split.
  - intros H. apply Qnot_le_lt. intros Hle. apply Qle_bool_iff in Hle.
    congruence.
  - intros H. apply not_true_is_false. intros Hle.
    apply Qle_bool_iff in Hle. lra.
Qed.

Lemma insert_asc_perm x l : Permutation (insert_asc x l) (x :: l).
Proof.
  induction l as [| y l IH]; cbn; [ reflexivity | ].
  destruct (Qltb _ _); [ | reflexivity ].
  rewrite IH. apply perm_swap.
Qed.

Lemma sort_by_ratio_perm l : Permutation (sort_by_ratio l) l.
Proof.
  induction l as [| x l IH]; cbn; [ reflexivity | ].
  rewrite insert_asc_perm. now constructor.
Qed.

Lemma insert_asc_sorted x l :
  StronglySorted worse_first l -> StronglySorted worse_first (insert_asc x l).
Proof.
  induction 1 as [| y l Hl IH Hy]; cbn.
  - repeat constructor.
  - destruct (Qltb (completeness_ratio y) (completeness_ratio x)) eqn:E.
    + apply Qltb_true in E. constructor; [ assumption | ].
      apply (Permutation_Forall (Permutation_sym (insert_asc_perm x l))).
      constructor; [ unfold worse_first; lra | assumption ].
    + apply Qltb_false in E. constructor; [ now constructor | ].
      constructor; [ exact E | ].
      eapply Forall_impl; [ | exact Hy ].
      unfold worse_first. intros z Hz. lra.
Qed.

Lemma sort_by_ratio_sorted l : StronglySorted worse_first (sort_by_ratio l).
Proof.
  induction l as [| x l IH]; cbn; [ constructor | ].
  now apply insert_asc_sorted.
Qed.

Lemma filter_length_perm {A : Type} (p : A -> bool) (l1 l2 : list A) :
  Permutation l1 l2 ->
  List.length (filter p l1) = List.length (filter p l2).
Proof.
  induction 1 as [| a l1 l2 _ IH | a b l | l1 l2 l3 _ IH1 _ IH2]; cbn.
  - reflexivity.
  - destruct (p a); cbn; now rewrite IH.
  - destruct (p a), (p b); reflexivity.
  - now rewrite IH1.
Qed.

(** An entry fails exactly when less than 80% of the column is present. *)
Lemma entry_fails (df : DataFrame) (col : Series) :
  String.eqb (cc_status (completeness_entry df col)) "fail"
  = Qltb (guarded (notna_sum col) (len df)) (8 # 10).
Proof.
  unfold completeness_entry. cbn [cc_status]. unfold status_of.
  set (r := guarded (notna_sum col) (len df)).
  destruct (Qgeb r (95 # 100)) eqn:E95; destruct (Qgeb r (8 # 10)) eqn:E80;
    unfold Qltb; fold (Qgeb r (8 # 10)); rewrite E80; try reflexivity.
  apply Qgeb_true in E95. apply Qgeb_false in E80. lra.
Qed.

Lemma below_threshold_count (df : DataFrame) :
  List.length
    (filter (fun c => String.eqb (cc_status c) "fail")
       (sort_by_ratio (map (completeness_entry df) (pd.columns df))))
  = List.length
      (filter (fun col => Qltb (guarded (notna_sum col) (len df)) (8 # 10))
         (pd.columns df)).
Proof.
  rewrite (filter_length_perm _ _ _ (sort_by_ratio_perm _)).
  induction (pd.columns df) as [| c cs IH]; cbn [map filter];
    [ reflexivity | ].
  rewrite entry_fails. destruct (Qltb _ _); cbn [List.length]; now rewrite IH.
Qed.

End CompletenessDetails.

(** X1.  [column_details] lists every column once, the least complete
    first, and [columns_below_threshold] is the number of columns of which
    less than 80% is present. *)
Theorem X1_column_details_worst_first (df : DataFrame) :
  exists r,
    EnterpriseDataAnalyzer.measure_completeness df = Ok r
    /\ Permutation
         (EnterpriseDataAnalyzer.column_details
            (EnterpriseDataAnalyzer.detail r))
         (map (completeness_entry df) (pd.columns df))
    /\ StronglySorted worse_first
         (EnterpriseDataAnalyzer.column_details
            (EnterpriseDataAnalyzer.detail r))
    /\ EnterpriseDataAnalyzer.columns_below_threshold
         (EnterpriseDataAnalyzer.detail r)
       = List.length
           (filter (fun col => Qltb (guarded (notna_sum col) (len df))
                                    (8 # 10))
              (pd.columns df)).
Proof.
  eexists. split; [ apply measure_completeness_eq | ].
  cbn [EnterpriseDataAnalyzer.detail EnterpriseDataAnalyzer.column_details
       EnterpriseDataAnalyzer.columns_below_threshold].
  split; [ apply sort_by_ratio_perm | ].
  split; [ apply sort_by_ratio_sorted | apply below_threshold_count ].
Qed.

Section FullFrames.

Import EnterpriseDataAnalyzer.

Lemma dropna_full (l : list cell) :
  Forall (fun x : cell => x <> None) l ->
  List.length (dropna l) = List.length l.
Proof.
  induction 1 as [| [v |] l Hx _ IH]; cbn; [ reflexivity | now rewrite IH | ].
  now elim Hx.
Qed.

Lemma non_null_full (df : DataFrame) :
  well_formed df -> no_missing df ->
  Forall (fun c => notna_sum c = index df) (pd.columns df)
  /\ total (map notna_sum (pd.columns df)) = pd.size df.
Proof.
  unfold well_formed, no_missing, pd.size. generalize (index df) as n.
  induction (pd.columns df) as [| c cs IH]; intros n Hwf Hfull.
  - split; [ constructor | cbn; lia ].
  - inversion Hwf as [| ? ? Hc Hcs]; inversion Hfull as [| ? ? Hf Hfs]; subst.
    destruct (IH _ Hcs Hfs) as [IH1 IH2].
    assert (Hn : notna_sum c = List.length (cells c))
      by (unfold notna_sum; now apply dropna_full).
    split; [ now constructor | ].
    cbn [map total fold_right List.length]. fold (total (map notna_sum cs)).
    rewrite IH2, Hn, Nat.mul_succ_r. lia.
Qed.

Lemma guarded_same (n : nat) : (0 < n)%nat -> guarded n n == 1.
Proof.
  intros Hn. unfold guarded.
  destruct (Nat.ltb_spec 0 n) as [_ | Hz]; [ | lia ].
  pose proof (Qnat_pos n Hn). field. lra.
Qed.

Lemma status_of_comp (x y hi lo : Q) :
  x == y -> status_of x hi lo = status_of y hi lo.
Proof.
  intros H. unfold status_of, Qgeb.
  assert (Hb : forall b, Qle_bool b x = Qle_bool b y).
  { intros b. destruct (Qle_bool b x) eqn:E1, (Qle_bool b y) eqn:E2;
      try reflexivity.
    - apply Qle_bool_iff in E1. rewrite H in E1.
      apply Qle_bool_iff in E1. congruence.
    - apply Qle_bool_iff in E2. rewrite <- H in E2.
      apply Qle_bool_iff in E2. congruence. }
  now rewrite !Hb.
Qed.

End FullFrames.

(** X2.  A well-formed frame that has at least one cell and no missing cell
    scores 100 on Completeness with status "pass", counts no null cell and
    has no column below the threshold. *)
Theorem X2_completeness_without_missing_values (df : DataFrame) :
  well_formed df -> (0 < pd.size df)%nat -> no_missing df ->
  exists r q,
    EnterpriseDataAnalyzer.measure_completeness df = Ok r
    /\ EnterpriseDataAnalyzer.score r = Some q
    /\ q == 100
    /\ EnterpriseDataAnalyzer.status r = "pass"
    /\ EnterpriseDataAnalyzer.null_cells
         (EnterpriseDataAnalyzer.detail r) = 0%Z
    /\ EnterpriseDataAnalyzer.columns_below_threshold
         (EnterpriseDataAnalyzer.detail r) = 0%nat.
Proof.
  intros Hwf Hsize Hfull.
  destruct (non_null_full df Hwf Hfull) as [Hcols Htotal].
  assert (Hrows : (0 < index df)%nat) by (unfold pd.size in Hsize; nia).
  eexists. eexists. split; [ apply measure_completeness_eq | ].
  cbn [EnterpriseDataAnalyzer.score EnterpriseDataAnalyzer.status
       EnterpriseDataAnalyzer.detail EnterpriseDataAnalyzer.null_cells
       EnterpriseDataAnalyzer.columns_below_threshold].
  rewrite Htotal. split; [ reflexivity | ].
  split.
  { rewrite (round_comp _ 100); [ reflexivity | ].
    rewrite (guarded_same _ Hsize). reflexivity. }
  split.
  { rewrite (status_of_comp _ 1) by now apply guarded_same. reflexivity. }
  split; [ lia | ].
  rewrite below_threshold_count. clear Htotal.
  induction Hcols as [| c cs Hc _ IH]; [ reflexivity | ].
  cbn [filter]. rewrite Hc. unfold len.
  replace (Qltb (guarded (index df) (index df)) (8 # 10)) with false;
    [ exact IH | ].
  symmetry. apply Qltb_false. rewrite (guarded_same _ Hrows). lra.
Qed.

(** The statement at [three_rows], which has no missing cell. *)
Lemma X2_completeness_without_missing_values_witness :
  exists r q,
    EnterpriseDataAnalyzer.measure_completeness Samples.three_rows = Ok r
    /\ EnterpriseDataAnalyzer.score r = Some q
    /\ q == 100
    /\ EnterpriseDataAnalyzer.status r = "pass"
    /\ EnterpriseDataAnalyzer.null_cells
         (EnterpriseDataAnalyzer.detail r) = 0%Z
    /\ EnterpriseDataAnalyzer.columns_below_threshold
         (EnterpriseDataAnalyzer.detail r) = 0%nat.
Proof.
  apply (X2_completeness_without_missing_values Samples.three_rows).
  - repeat constructor.
  - cbn. lia.
  - repeat constructor; discriminate.
Defined.

(** ** Uniqueness: potential keys *)

Section PotentialKeys.

Import EnterpriseDataAnalyzer.

Lemma measure_uniqueness_details (df : DataFrame) :
  exists r,
    measure_uniqueness df = Ok r
    /\ column_cardinality (detail r) = map (uniqueness_entry df) (pd.columns df)
    /\ potential_key_columns (detail r)
       = map cu_column
           (filter is_potential_key
              (map (uniqueness_entry df) (pd.columns df))).
Proof.
  unfold measure_uniqueness.
  pose proof (duplicates_le_rows df) as Hle.
  replace (inject_Z (Z.of_nat (len df)
                     - Z.of_nat (count_true (duplicated df))))
    with (Qnat (len df - count_true (duplicated df)))
    by (unfold Qnat; f_equal; lia).
  rewrite !guarded_ok. cbn [bind].
  erewrite for_each_ok
    with (g := uniqueness_entry df).
  - cbn [bind].
    destruct (Nat.ltb_spec 0 (len df)) as [Hpos | Hz].
    + rewrite pydiv_nat by exact Hpos. cbn [bind]. eexists. repeat split.
    + eexists. repeat split.
  - intros col. rewrite guarded_ok. cbn [bind]. reflexivity.
Qed.

Lemma dropna_all_present (l : list cell) :
  List.length (dropna l) = List.length l ->
  Forall (fun x : cell => x <> None) l.
Proof.
  induction l as [| [v |] l IH]; cbn; intros H.
  - constructor.
  - constructor; [ discriminate | apply IH; lia ].
  - pose proof (dropna_length l). lia.
Qed.

Lemma potential_key_listed (df : DataFrame) (nm : string) :
  In nm (map cu_column
           (filter is_potential_key
              (map (uniqueness_entry df) (pd.columns df))))
  <-> exists col,
        In col (pd.columns df) /\ name col = nm
        /\ is_potential_key (uniqueness_entry df col) = true.
Proof.
  rewrite in_map_iff. split.
  - intros (e & <- & He). apply filter_In in He. destruct He as [He Hk].
    apply in_map_iff in He. destruct He as (col & <- & Hcol).
    exists col. now repeat split.
  - intros (col & Hcol & <- & Hk). exists (uniqueness_entry df col).
    split; [ reflexivity | ]. apply filter_In. split; [ | exact Hk ].
    now apply in_map.
Qed.

End PotentialKeys.

(** X3.  On a well-formed frame a column is listed in
    [potential_key_columns] only if none of its cells is missing and it has
    at least one cell; and a column without missing cell whose values are
    all different is listed, provided the frame has a row. *)
Theorem X3_potential_key_columns (df : DataFrame) :
  well_formed df ->
  exists r,
    EnterpriseDataAnalyzer.measure_uniqueness df = Ok r
    /\ (forall nm,
          In nm (EnterpriseDataAnalyzer.potential_key_columns
                   (EnterpriseDataAnalyzer.detail r)) ->
          exists col,
            In col (pd.columns df) /\ name col = nm
            /\ cells col <> []
            /\ Forall (fun x : cell => x <> None) (cells col))
    /\ (forall col,
          In col (pd.columns df) ->
          Forall (fun x : cell => x <> None) (cells col) ->
          nunique col = len df -> (0 < len df)%nat ->
          In (name col)
            (EnterpriseDataAnalyzer.potential_key_columns
               (EnterpriseDataAnalyzer.detail r))).
Proof.
  intros Hwf.
  destruct (measure_uniqueness_details df) as (r & Hr & _ & Hkeys).
  exists r. split; [ exact Hr | ]. rewrite Hkeys. split.
  - intros nm Hnm. apply potential_key_listed in Hnm.
    destruct Hnm as (col & Hcol & Hname & Hk). exists col.
    split; [ exact Hcol | ]. split; [ exact Hname | ].
    unfold uniqueness_entry in Hk.
    cbn [EnterpriseDataAnalyzer.is_potential_key] in Hk.
    apply andb_true_iff in Hk. destruct Hk as [Hratio Hall].
    apply Nat.eqb_eq in Hall.
    assert (Hlen : List.length (cells col) = index df).
    { unfold well_formed in Hwf. rewrite Forall_forall in Hwf.
      now apply Hwf. }
    split.
    + intros Hnil. apply Qltb_true in Hratio. unfold guarded in Hratio.
      unfold notna_sum in Hratio. rewrite Hnil in Hratio. cbn in Hratio.
      lra.
    + apply dropna_all_present. unfold notna_sum, len in Hall. lia.
  - intros col Hcol Hfull Hdistinct Hrows. apply potential_key_listed.
    exists col. split; [ exact Hcol | ]. split; [ reflexivity | ].
    assert (Hlen : List.length (cells col) = index df).
    { unfold well_formed in Hwf. rewrite Forall_forall in Hwf.
      now apply Hwf. }
    assert (Hn : notna_sum col = len df).
    { unfold notna_sum, len. now rewrite dropna_full. }
    unfold uniqueness_entry.
    cbn [EnterpriseDataAnalyzer.is_potential_key].
    rewrite Hn, Hdistinct, Nat.eqb_refl, andb_true_r.
    apply Qltb_true. rewrite (guarded_same _ Hrows). lra.
Qed.

(** The statement at [with_id]: the column [id], complete and without a
    repeated value, is listed, and it is the only one. *)
Lemma X3_potential_key_columns_witness :
  exists r,
    EnterpriseDataAnalyzer.measure_uniqueness with_id = Ok r
    /\ EnterpriseDataAnalyzer.potential_key_columns
         (EnterpriseDataAnalyzer.detail r) = ["id"]
    /\ In "id" (EnterpriseDataAnalyzer.potential_key_columns
                  (EnterpriseDataAnalyzer.detail r))
    /\ (forall nm,
          In nm (EnterpriseDataAnalyzer.potential_key_columns
                   (EnterpriseDataAnalyzer.detail r)) ->
          exists col,
            In col (pd.columns with_id) /\ name col = nm
            /\ cells col <> []
            /\ Forall (fun x : cell => x <> None) (cells col)).
Proof.
  destruct (X3_potential_key_columns with_id) as (r & Hr & Honly & Hlisted).
  - repeat constructor.
  - exists r. split; [ exact Hr | ].
    split; [ vm_compute in Hr; now injection Hr as <- | ].
    split; [ | exact Honly ].
    apply (Hlisted (mkSeries "id" int64 (Samples.ints [7; 8; 9]%Z))).
    + left. reflexivity.
    + repeat constructor; discriminate.
    + reflexivity.
    + cbn. lia.
Defined.

(** ** Validity: failed checks and issues *)

Section ValidityIssues.

Import EnterpriseDataAnalyzer.

Context {P : Pandas}.







Lemma measure_validity_eq df :
  exists r,
    measure_validity df = Ok r
    /\ score r = Some (round (validity_score df) 2)
    /\ status r = status_of (validity_score df) 90 75
    /\ total_checks (detail r) = total_ (fst (validity_loop df))
    /\ passed_checks (detail r) = passed_ (fst (validity_loop df))
    /\ failed_checks (detail r)
       = (Z.of_nat (total_ (fst (validity_loop df)))
          - Z.of_nat (passed_ (fst (validity_loop df))))%Z
    /\ validity_issues (detail r) = snd (validity_loop df).
Proof.
  unfold measure_validity, validity_score.
  destruct (validity_loop df) as [st reported]. cbn [fst snd].
  destruct (Nat.ltb_spec 0 (total_ st)) as [Hpos | Hz].
  - rewrite pydiv_nat by exact Hpos. cbn [bind]. eexists. repeat split.
  - cbn [bind]. eexists. repeat split.
Qed.

(** A column whose cells are all missing is skipped. *)
Lemma validity_loop_skips df (cols : list Series) acc :
  Forall (fun c => dropna (cells c) = []) cols ->
  fold_left (fun acc col => validity_column df col acc) cols acc = acc.
Proof.
  intros H. revert acc. induction H as [| c cs Hc _ IH]; intros acc;
    [ reflexivity | ].
  cbn [fold_left]. rewrite <- (IH acc) at 2. f_equal.
  unfold validity_column. destruct acc as [st reported]. now rewrite Hc.
Qed.

End ValidityIssues.


(** X5.  When every column consists of missing cells only, as in a frame
    without rows, no check is made and Validity scores 100 with status
    "pass". *)
Theorem X5_validity_without_values {P : Pandas} (df : DataFrame) :
  Forall (fun c => dropna (cells c) = []) (pd.columns df) ->
  exists r q,
    EnterpriseDataAnalyzer.measure_validity df = Ok r
    /\ EnterpriseDataAnalyzer.total_checks (EnterpriseDataAnalyzer.detail r)
       = 0%nat
    /\ EnterpriseDataAnalyzer.score r = Some q
    /\ q == 100
    /\ EnterpriseDataAnalyzer.status r = "pass".
Proof.
  intros Hall.
  destruct (measure_validity_eq df) as (r & Hr & Hs & Hst & Ht & _).
  assert (Hloop : EnterpriseDataAnalyzer.validity_loop df
                  = (EnterpriseDataAnalyzer.mkChecks 0 0 [], [])).
  { unfold EnterpriseDataAnalyzer.validity_loop.
    now apply validity_loop_skips. }
  assert (Hv : validity_score df = 100).
  { unfold validity_score. now rewrite Hloop. }
  exists r. eexists. split; [ exact Hr | ].
  split; [ now rewrite Ht, Hloop | ].
  split; [ exact Hs | ]. rewrite Hst, Hv. split; reflexivity.
Qed.

(** The statement at [no_rows]. *)
Lemma X5_validity_without_values_witness :
  exists r q,
    @EnterpriseDataAnalyzer.measure_validity Samples.plain Samples.no_rows
    = Ok r
    /\ EnterpriseDataAnalyzer.total_checks (EnterpriseDataAnalyzer.detail r)
       = 0%nat
    /\ EnterpriseDataAnalyzer.score r = Some q
    /\ q == 100
    /\ EnterpriseDataAnalyzer.status r = "pass".
Proof.
  apply (@X5_validity_without_values Samples.plain Samples.no_rows).
  repeat constructor.
Defined.

(** ** Consistency, Accuracy, Timeliness: scores and their details *)

Section ScoreDetails.

Import EnterpriseDataAnalyzer.

Context {P : Pandas}.

Lemma impact_sum_app (l1 l2 : list anomaly) :
  impact_sum (l1 ++ l2) = (impact_sum l1 + impact_sum l2)%Z.
Proof.
  unfold impact_sum. rewrite map_app.
  induction (map impact l1) as [| z zs IH]; cbn; lia.
Qed.

Lemma penalize_recorded low col what by_ acc :
  In (- by_)%Z [-2; -1; -5; -3]%Z ->
  recorded low acc -> recorded (low - by_) (penalize col what by_ acc).
Proof.
  intros Hin (Hs & Hall & Hlow). destruct acc as [s found].
  unfold recorded, penalize. cbn [fst snd] in *.
  rewrite impact_sum_app.
  assert (Hone : impact_sum [mkAnomaly (name col) what (- by_)] = (- by_)%Z).
  { unfold impact_sum. cbn [map fold_right impact]. lia. }
  rewrite Hone. repeat split; [ lia | | lia ].
  apply Forall_app. split; [ exact Hall | ].
  constructor; [ exact Hin | constructor ].
Qed.

Lemma recorded_weaken low low' acc :
  (low' <= low)%Z -> recorded low acc -> recorded low' acc.
Proof. intros H (Hs & Hall & Hlow). repeat split; try assumption. lia. Qed.

Lemma fold_left_recorded (step : Series -> penalties -> penalties) (k : Z)
  (cols : list Series) :
  (forall low col acc,
      recorded low acc -> recorded (low - k) (step col acc)) ->
  forall low acc,
    recorded low acc ->
    recorded (low - k * Z.of_nat (List.length cols))
      (fold_left (fun a c => step c a) cols acc).
Proof.
  intros Hstep. induction cols as [| c cs IH]; intros low acc H.
  - cbn. eapply recorded_weaken; [ | exact H ]. lia.
  - cbn [fold_left]. eapply recorded_weaken;
      [ | apply (IH (low - k)%Z), Hstep, H ].
    cbn [List.length]. lia.
Qed.

Lemma case_and_whitespace_recorded low col acc :
  recorded low acc -> recorded (low - 3) (case_and_whitespace col acc).
Proof.
  intros H. unfold case_and_whitespace.
  destruct (_ =? 0)%nat; [ eapply recorded_weaken; [ | exact H ]; lia | ].
  destruct (_ <? _)%nat; destruct (existsb _ _).
  - eapply recorded_weaken;
      [ | apply penalize_recorded, penalize_recorded, H; cbn; tauto ]. lia.
  - eapply recorded_weaken;
      [ | apply penalize_recorded, H; cbn; tauto ]. lia.
  - eapply recorded_weaken;
      [ | apply penalize_recorded, H; cbn; tauto ]. lia.
  - eapply recorded_weaken; [ | exact H ]. lia.
Qed.

Lemma date_format_recorded low col acc :
  recorded low acc -> recorded (low - 5) (date_format col acc).
Proof.
  intros H. unfold date_format.
  destruct (any_keyword _ _);
    [ | eapply recorded_weaken; [ | exact H ]; lia ].
  destruct (0 <? _)%nat;
    [ | eapply recorded_weaken; [ | exact H ]; lia ].
  destruct (to_datetime_strict _);
    [ eapply recorded_weaken; [ | exact H ]; lia | ].
  apply penalize_recorded; [ cbn; tauto | exact H ].
Qed.

Lemma numeric_range_recorded low col acc :
  recorded low acc -> recorded (low - 3) (numeric_range col acc).
Proof.
  intros H. unfold numeric_range.
  destruct (10 <? _)%nat;
    [ | eapply recorded_weaken; [ | exact H ]; lia ].
  destruct (Qltb _ _);
    [ | eapply recorded_weaken; [ | exact H ]; lia ].
  apply penalize_recorded; [ cbn; tauto | exact H ].
Qed.

Lemma consistency_loop_recorded df :
  recorded (100 - 8 * Z.of_nat (List.length (categorical df))
            - 3 * Z.of_nat (List.length (numeric df)))
    (consistency_loop df).
Proof.
  unfold consistency_loop.
  eapply recorded_weaken;
    [ | apply (fold_left_recorded numeric_range 3);
        [ intros; now apply numeric_range_recorded | ];
        apply (fold_left_recorded date_format 5);
        [ intros; now apply date_format_recorded | ];
        apply (fold_left_recorded case_and_whitespace 3 _
                 (fun l c a => case_and_whitespace_recorded l c a) 100);
        split; [ reflexivity | split; [ constructor | cbn; lia ] ] ].
  lia.
Qed.

End ScoreDetails.

(** X6.  The Consistency score is 100 plus the impacts of the issues
    listed, floored at 0; every impact is -2, -1, -5 or -3; and before
    flooring the score is at least 100 minus 8 per categorical column and
    3 per numeric column.  The status is taken from the score before
    flooring. *)
Theorem X6_consistency_score_is_100_plus_impacts {P : Pandas}
  (df : DataFrame) :
  let r := EnterpriseDataAnalyzer.measure_consistency df in
  let s := (100 + impact_sum (EnterpriseDataAnalyzer.detail r))%Z in
  EnterpriseDataAnalyzer.score r = Some (inject_Z (Z.max 0 s))
  /\ EnterpriseDataAnalyzer.status r
     = EnterpriseDataAnalyzer.status_of (inject_Z s) 85 70
  /\ Forall (fun a => In (EnterpriseDataAnalyzer.impact a)
                        [-2; -1; -5; -3]%Z)
       (EnterpriseDataAnalyzer.detail r)
  /\ (100
      - 8 * Z.of_nat (List.length (EnterpriseDataAnalyzer.categorical df))
      - 3 * Z.of_nat (List.length (EnterpriseDataAnalyzer.numeric df))
      <= s)%Z.
Proof.
  cbn zeta. unfold EnterpriseDataAnalyzer.measure_consistency.
  destruct (consistency_loop_recorded df) as (Hs & Hall & Hlow).
  destruct (EnterpriseDataAnalyzer.consistency_loop df) as [s found].
  cbn [fst snd] in *.
  cbn [EnterpriseDataAnalyzer.score EnterpriseDataAnalyzer.status
       EnterpriseDataAnalyzer.detail].
  rewrite <- Hs. repeat split; assumption.
Qed.

Section AccuracyDetails.

Import EnterpriseDataAnalyzer.

Context {P : Pandas}.

Lemma with_status_app st (l1 l2 : list indicator) :
  with_status st (l1 ++ l2) = (with_status st l1 + with_status st l2)%nat.
Proof. unfold with_status. now rewrite filter_app, length_app. Qed.

Lemma accuracy_column_tallied col acc :
  tallied acc -> tallied (accuracy_column col acc).
Proof.
  destruct acc as [s inds]. intros [Hs Hall]. cbn [fst snd] in *.
  unfold accuracy_column.
  destruct (_ <? 10)%nat; [ now split | ].
  set (pct := _ / _ * 100).
  unfold Qltb.
  destruct (Qle_bool pct 2) eqn:E2; destruct (Qle_bool pct 5) eqn:E5;
    cbn [negb]; unfold tallied; cbn [fst snd];
    rewrite !with_status_app; unfold with_status at 2 4;
    cbn [filter in_status String.eqb Ascii.eqb Bool.eqb List.length];
    try (split; [ lia | apply Forall_app; split; [ exact Hall | ];
                  constructor; [ cbn; tauto | constructor ] ]).
  exfalso. apply Qle_bool_iff in E2.
  assert (H5 : pct <= 5) by lra. apply Qle_bool_iff in H5. congruence.
Qed.

Lemma accuracy_loop_tallied df : tallied (accuracy_loop df).
Proof.
  unfold accuracy_loop. apply fold_left_invariant.
  - intros acc col. apply accuracy_column_tallied.
  - split; [ reflexivity | constructor ].
Qed.

Lemma accuracy_loop_length (cols : list Series) acc :
  List.length (snd (fold_left (fun a c => accuracy_column c a) cols acc))
  = (List.length (snd acc)
     + List.length
         (filter (fun c => negb (List.length (dropna (cells c)) <? 10)%nat)
            cols))%nat.
Proof.
  revert acc. induction cols as [| c cs IH]; intros acc; cbn [fold_left filter].
  - cbn. lia.
  - rewrite IH. destruct acc as [s inds]. unfold accuracy_column.
    destruct (_ <? 10)%nat; cbn [negb snd List.length]; [ lia | ].
    rewrite length_app. cbn. lia.
Qed.

End AccuracyDetails.

(** X7.  The Accuracy score is 100 less 2 for every column reported with
    status "warning" and 5 for every column reported "fail", floored at 0;
    there is one entry per numeric column with at least 10 values, and its
    status is "pass", "warning" or "fail". *)
Theorem X7_accuracy_score_matches_outlier_analysis {P : Pandas}
  (df : DataFrame) :
  let r := EnterpriseDataAnalyzer.measure_accuracy df in
  let entries := EnterpriseDataAnalyzer.detail r in
  EnterpriseDataAnalyzer.score r
  = Some (inject_Z
            (Z.max 0 (100 - 2 * Z.of_nat (with_status "warning" entries)
                      - 5 * Z.of_nat (with_status "fail" entries))))
  /\ List.length entries
     = List.length
         (filter (fun c => negb (List.length (dropna (cells c)) <? 10)%nat)
            (EnterpriseDataAnalyzer.numeric df))
  /\ Forall (fun i => In (EnterpriseDataAnalyzer.in_status i)
                        ["pass"; "warning"; "fail"]) entries.
Proof.
  cbn zeta. unfold EnterpriseDataAnalyzer.measure_accuracy.
  destruct (accuracy_loop_tallied df) as [Hs Hall].
  pose proof (accuracy_loop_length (EnterpriseDataAnalyzer.numeric df)
                (100%Z, [])) as Hlen.
  fold (EnterpriseDataAnalyzer.accuracy_loop df) in Hlen.
  destruct (EnterpriseDataAnalyzer.accuracy_loop df) as [s inds].
  cbn [fst snd] in *.
  cbn [EnterpriseDataAnalyzer.score EnterpriseDataAnalyzer.detail].
  rewrite <- Hs. repeat split; assumption.
Qed.

Section TimelinessDetails.

Import EnterpriseDataAnalyzer.

Context {P : Pandas}.

Lemma penalty_sum_app (l1 l2 : list date_analysis) :
  penalty_sum (l1 ++ l2) = (penalty_sum l1 + penalty_sum l2)%Z.
Proof.
  unfold penalty_sum. rewrite map_app.
  induction (map _ l1) as [| z zs IH]; cbn; lia.
Qed.

Lemma timeliness_column_aged now n col acc :
  aged n acc -> aged (S n) (timeliness_column now col acc).
Proof.
  destruct acc as [s entries]. intros (Hs & Hlen & Hall).
  cbn [fst snd] in *. unfold timeliness_column.
  destruct (0 <? _)%nat; [ | repeat split; try assumption; cbn; lia ].
  set (days_old := option_map _ _).
  unfold aged. cbn [fst snd]. rewrite penalty_sum_app, length_app.
  assert (Hone : forall e, penalty_sum [e]
                           = staleness_penalty (days_since_latest e)).
  { intros e. unfold penalty_sum. cbn. lia. }
  rewrite Hone. cbn [days_since_latest List.length].
  repeat split.
  - unfold staleness_penalty.
    destruct (known_above days_old 365); [ lia | ].
    destruct (known_above days_old 90); lia.
  - lia.
  - apply Forall_app. split; [ exact Hall | ].
    constructor; [ reflexivity | constructor ].
Qed.

Lemma timeliness_loop_aged now (cols : list Series) n acc :
  aged n acc ->
  aged (n + List.length cols)
    (fold_left (fun a c => timeliness_column now c a) cols acc).
Proof.
  revert n acc. induction cols as [| c cs IH]; intros n acc H; cbn.
  - now rewrite Nat.add_0_r.
  - replace (n + S (List.length cs))%nat with (S n + List.length cs)%nat
      by lia.
    apply IH. now apply timeliness_column_aged.
Qed.

Lemma staleness_penalty_le (d : option Z) :
  (0 <= staleness_penalty d <= 20)%Z.
Proof.
  unfold staleness_penalty.
  destruct (known_above d 365); [ lia | ]. destruct (known_above d 90); lia.
Qed.

Lemma penalty_sum_le (l : list date_analysis) :
  (0 <= penalty_sum l <= 20 * Z.of_nat (List.length l))%Z.
Proof.
  unfold penalty_sum. induction l as [| e l IH]; cbn [map fold_right].
  - cbn. lia.
  - pose proof (staleness_penalty_le (days_since_latest e)).
    cbn [List.length]. lia.
Qed.

(** A column that is not reported stale costs nothing. *)
Lemma fresh_costs_nothing (d : option Z) :
  freshness_of d <> "stale" -> staleness_penalty d = 0%Z.
Proof.
  unfold freshness_of, staleness_penalty, known_below, known_above.
  destruct d as [d |]; [ | intros Hf; now elim Hf ].
  destruct (Z.eqb_spec d 0); cbn [negb andb]; [ intros Hf; now elim Hf | ].
  destruct (Z.ltb_spec d 30), (Z.ltb_spec d 90); intros Hf;
    try (now elim Hf);
    destruct (Z.ltb_spec 365 d), (Z.ltb_spec 90 d); try reflexivity; lia.
Qed.

Lemma firstn_length_le {A : Type} (n : nat) (l : list A) :
  (List.length (firstn n l) <= n)%nat.
Proof. rewrite length_firstn. lia. Qed.

End TimelinessDetails.

(** X8.  When the frame has a date column to analyse, the Timeliness score
    is 100 less 20 for every analysed column whose latest date is more than
    365 days old and 10 for every one more than 90 days old.  At most
    three columns are analysed, so the score is at least 40 and the floor
    at 0 never applies; a column reported "current" or "recent" costs
    nothing. *)
Theorem X8_timeliness_score_matches_analysis {P : Pandas} (now : Z)
  (df : DataFrame) :
  EnterpriseDataAnalyzer.date_cols df <> [] ->
  let r := EnterpriseDataAnalyzer.measure_timeliness now df in
  let entries :=
    EnterpriseDataAnalyzer.analysis (EnterpriseDataAnalyzer.detail r) in
  EnterpriseDataAnalyzer.score r
  = Some (inject_Z (100 - penalty_sum entries))
  /\ (40 <= 100 - penalty_sum entries <= 100)%Z
  /\ (List.length entries <= 3)%nat
  /\ Forall (fun e =>
               EnterpriseDataAnalyzer.freshness e
               = EnterpriseDataAnalyzer.freshness_of
                   (EnterpriseDataAnalyzer.days_since_latest e)
               /\ (EnterpriseDataAnalyzer.freshness e <> "stale" ->
                   staleness_penalty
                     (EnterpriseDataAnalyzer.days_since_latest e) = 0%Z))
       entries.
Proof.
  intros Hcols. cbn zeta. unfold EnterpriseDataAnalyzer.measure_timeliness.
  destruct (EnterpriseDataAnalyzer.date_cols df) as [| c cs] eqn:E;
    [ now elim Hcols | ].
  cbn [List.length Nat.eqb].
  pose proof (timeliness_loop_aged now (firstn 3 (c :: cs)) 0 (100%Z, []))
    as H.
  destruct (fold_left _ _ _) as [s entries].
  destruct H as (Hs & Hlen & Hall).
  { split; [ reflexivity | split; [ cbn; lia | constructor ] ]. }
  cbn [fst snd] in *.
  cbn [EnterpriseDataAnalyzer.score EnterpriseDataAnalyzer.detail
       EnterpriseDataAnalyzer.analysis].
  pose proof (firstn_length_le 3 (c :: cs)) as H3.
  pose proof (penalty_sum_le entries) as Hp.
  assert (Hn : (List.length entries <= 3)%nat) by lia.
  rewrite <- Hs. repeat split; try lia.
  - f_equal. f_equal. lia.
  - eapply Forall_impl; [ | exact Hall ]. intros e He.
    split; [ exact He | ]. rewrite He. apply fresh_costs_nothing.
Qed.

(** The statement at [seen_today], analysed at [noon]. *)
Lemma X8_timeliness_score_witness :
  let r := @EnterpriseDataAnalyzer.measure_timeliness Samples.plain
             Samples.noon Samples.seen_today in
  let entries :=
    EnterpriseDataAnalyzer.analysis (EnterpriseDataAnalyzer.detail r) in
  EnterpriseDataAnalyzer.score r
  = Some (inject_Z (100 - penalty_sum entries))
  /\ (40 <= 100 - penalty_sum entries <= 100)%Z.
Proof.
  destruct (@X8_timeliness_score_matches_analysis Samples.plain Samples.noon
              Samples.seen_today) as (H1 & H2 & _).
  - discriminate.
  - split; [ exact H1 | exact H2 ].
Defined.

(** ** Overall score: range *)

Section OverallRange.

Import EnterpriseDataAnalyzer.

Context {P : Pandas}.

Lemma calculate_overall_score_fields (now : Z) (df : DataFrame) :
  exists s o,
    calculate_overall_score now df = Ok o
    /\ overall_score o = fround s 1
    /\ ml_readiness_score o = score (measure_ml_readiness df)
    /\ (let c := round (guarded (total (map notna_sum (pd.columns df)))
                          (pd.size df) * 100) 2 in
        let u := round (guarded (len df - count_true (duplicated df))
                          (len df) * 100) 2 in
        let v := round (validity_score df) 2 in
        exists k a,
          score (measure_consistency df) = Some k
          /\ score (measure_accuracy df) = Some a
          /\ weighted_sum
               (fst (scores_and_weights (double c) (double u) (double v)
                       (double k) (double a)
                       (option_map double
                          (score (measure_timeliness now df)))))
               (snd (scores_and_weights (double c) (double u) (double v)
                       (double k) (double a)
                       (option_map double
                          (score (measure_timeliness now df))))) = Ok s
          /\ dimension_scores o
             = map (fun '(key, x) => (key, fround x 1))
                 (fst (scores_and_weights (double c) (double u) (double v)
                         (double k) (double a)
                         (option_map double
                            (score (measure_timeliness now df)))))).
Proof.
  destruct (measure_completeness_ok df) as (rc & Hrc & Hc).
  destruct (measure_uniqueness_ok df) as (ru & Hru & Hu & _).
  destruct (measure_validity_ok df) as (rv & Hrv & Hv).
  assert (Hk : exists k, score (measure_consistency df) = Some k).
  { unfold measure_consistency. destruct (consistency_loop df).
    eexists. reflexivity. }
  assert (Ha : exists a, score (measure_accuracy df) = Some a).
  { unfold measure_accuracy. destruct (accuracy_loop df).
    eexists. reflexivity. }
  destruct Hk as [k Hk]. destruct Ha as [a Ha].
  match type of Hc with _ = Some ?x => set (c := x) in * end.
  match type of Hu with _ = Some ?x => set (u := x) in * end.
  match type of Hv with _ = Some ?x => set (v := x) in * end.
  destruct (weighted_sum_ok (double c) (double u) (double v) (double k)
              (double a)
              (option_map double (score (measure_timeliness now df))))
    as [s Hs].
  destruct (scores_and_weights (double c) (double u) (double v) (double k)
              (double a)
              (option_map double (score (measure_timeliness now df))))
    as [scores ws] eqn:Hsw.
  destruct (grade_of s) as [g gd] eqn:Hg.
  exists s. eexists. split.
  - unfold calculate_overall_score. rewrite Hrc, Hru, Hrv. cbn [bind].
    unfold number. rewrite Hc, Hu, Hv, Hk, Ha. cbn [bind].
    rewrite Hsw. cbn [fst snd] in Hs. rewrite Hs. cbn [bind]. rewrite Hg.
    reflexivity.
  - cbn [overall_score ml_readiness_score dimension_scores].
    split; [ reflexivity | ]. split; [ reflexivity | ].
    exists k, a. rewrite Hsw. cbn [fst snd]. repeat split; assumption.
Qed.

(** A percentage stays one as a double and when rounded to one decimal. *)
Lemma double_percentage (q : Q) : 0 <= q <= 100 -> 0 <= double q <= 100.
Proof.
  intros [H0 H100]. split; [ now apply double_nonneg | ].
  apply double_below; [ lra | vm_compute; reflexivity | exact H100 ].
Qed.

Lemma fround_percentage (q : Q) : 0 <= q <= 100 -> 0 <= fround q 1 <= 100.
Proof.
  intros [H0 H100].
  destruct (fround_whole q 0) as [Hlo _]; [ lia | vm_compute; reflexivity | ].
  destruct (fround_whole q 100) as [_ Hhi];
    [ lia | vm_compute; reflexivity | ].
  change (inject_Z 0) with 0 in Hlo. change (inject_Z 100) with 100 in Hhi.
  split; [ now apply Hlo | now apply Hhi ].
Qed.

(** The sum of line 554 grows with the scores. *)
Lemma dot_le (l l' : list (Q * Q)) (acc acc' : Q) :
  Forall2 (fun x y => snd x = snd y /\ 0 <= snd x /\ 0 <= fst x <= fst y)
    l l' ->
  0 <= acc <= acc' ->
  0 <= fold_left (fun acc '(v, w) => fadd acc (fmul v w)) l acc
    <= fold_left (fun acc '(v, w) => fadd acc (fmul v w)) l' acc'.
Proof.
  intros H. revert acc acc'.
  induction H as [| [v w] [v' w'] l l' (Hw & Hw0 & Hv0 & Hv) Hl IH];
    intros acc acc' Hacc; cbn [fold_left]; [ exact Hacc | ].
  cbn [fst snd] in *. subst w'. apply IH.
  assert (Hp0 : 0 <= fmul v w)
    by (apply double_nonneg; nra).
  assert (Hp : fmul v w <= fmul v' w)
    by (apply double_le; nra).
  split.
  - apply double_nonneg. lra.
  - apply double_le; lra.
Qed.

Lemma weights_nonneg :
  Forall (fun w => 0 <= w)
    [ double (25 # 100); double (15 # 100); double (20 # 100);
      double (10 # 100);
      fadd (double (25 # 100)) (double (2 # 100));
      fadd (double (15 # 100)) (double (2 # 100));
      fadd (double (20 # 100)) (double (2 # 100)) ].
Proof. repeat constructor; vm_compute; discriminate. Qed.

Lemma dot_six_percentage (c u v k a t : Q) :
  0 <= c <= 100 -> 0 <= u <= 100 -> 0 <= v <= 100 -> 0 <= k <= 100 ->
  0 <= a <= 100 -> 0 <= t <= 100 ->
  0 <= dot [ (c, double (25 # 100)); (u, double (15 # 100));
             (v, double (15 # 100)); (k, double (15 # 100));
             (a, double (20 # 100)); (t, double (10 # 100)) ] <= 100.
Proof.
  intros Hc Hu Hv Hk Ha Ht.
  pose proof weights_nonneg as Hw.
  repeat match type of Hw with
         | Forall _ (_ :: _) =>
             let H := fresh "W" in
             inversion Hw as [| ? ? H Hw']; subst; clear Hw; rename Hw' into Hw
         end.
  assert (Htop :
            dot [ (100, double (25 # 100)); (100, double (15 # 100));
                  (100, double (15 # 100)); (100, double (15 # 100));
                  (100, double (20 # 100)); (100, double (10 # 100)) ]
            == 100) by (vm_compute; reflexivity).
  rewrite <- Htop. unfold dot. apply dot_le; [ | lra ].
  repeat constructor; cbn [fst snd]; lra.
Qed.

Lemma dot_five_percentage (c u v k a : Q) :
  0 <= c <= 100 -> 0 <= u <= 100 -> 0 <= v <= 100 -> 0 <= k <= 100 ->
  0 <= a <= 100 ->
  0 <= dot [ (c, fadd (double (25 # 100)) (double (2 # 100)));
             (u, fadd (double (15 # 100)) (double (2 # 100)));
             (v, fadd (double (15 # 100)) (double (2 # 100)));
             (k, fadd (double (15 # 100)) (double (2 # 100)));
             (a, fadd (double (20 # 100)) (double (2 # 100))) ] <= 100.
Proof.
  intros Hc Hu Hv Hk Ha.
  pose proof weights_nonneg as Hw.
  repeat match type of Hw with
         | Forall _ (_ :: _) =>
             let H := fresh "W" in
             inversion Hw as [| ? ? H Hw']; subst; clear Hw; rename Hw' into Hw
         end.
  assert (Htop :
            dot [ (100, fadd (double (25 # 100)) (double (2 # 100)));
                  (100, fadd (double (15 # 100)) (double (2 # 100)));
                  (100, fadd (double (15 # 100)) (double (2 # 100)));
                  (100, fadd (double (15 # 100)) (double (2 # 100)));
                  (100, fadd (double (20 # 100)) (double (2 # 100))) ]
            == 100) by (vm_compute; reflexivity).
  rewrite <- Htop. unfold dot. apply dot_le; [ | lra ].
  repeat constructor; cbn [fst snd]; lra.
Qed.

End OverallRange.

(** X9.  Whenever [calculate_overall_score] returns on a well-formed
    frame, the overall score it reports lies in [0, 100], the rounding of
    the doubles included, and so do the rounded dimension scores and the
    ML-readiness score reported beside it. *)
Theorem X9_overall_score_is_a_percentage {P : Pandas} (now : Z)
  (df : DataFrame) (o : EnterpriseDataAnalyzer.overall) :
  well_formed df ->
  EnterpriseDataAnalyzer.calculate_overall_score now df = Ok o ->
  0 <= EnterpriseDataAnalyzer.overall_score o <= 100
  /\ Forall (fun e => 0 <= snd e <= 100)
       (EnterpriseDataAnalyzer.dimension_scores o)
  /\ percentage (EnterpriseDataAnalyzer.ml_readiness_score o).
Proof.
  intros Hwf Hret.
  destruct (calculate_overall_score_fields now df)
    as (s & o' & Ho & Hround & Hml & H).
  rewrite Hret in Ho. injection Ho as <-.
  cbn zeta in H. destruct H as (k & a & Hk & Ha & Hs & Hdim).
  set (c := round (guarded (total (map notna_sum (pd.columns df)))
                     (pd.size df) * 100) 2) in *.
  set (u := round (guarded (len df - count_true (duplicated df))
                     (len df) * 100) 2) in *.
  set (v := round (validity_score df) 2) in *.
  assert (Hc : 0 <= double c <= 100)
    by (apply double_percentage, round_percentage, guarded_percentage,
          non_null_le_size, Hwf).
  assert (Hu : 0 <= double u <= 100)
    by (apply double_percentage, round_percentage, guarded_percentage; lia).
  assert (Hv : 0 <= double v <= 100)
    by apply double_percentage, round_percentage, validity_score_percentage.
  assert (Hkr : 0 <= double k <= 100).
  { apply double_percentage.
    revert Hk. unfold EnterpriseDataAnalyzer.measure_consistency.
    pose proof (consistency_loop_le df) as Hle.
    destruct (EnterpriseDataAnalyzer.consistency_loop df) as [z found].
    cbn [EnterpriseDataAnalyzer.score]. intros [= <-].
    now apply floored_percentage. }
  assert (Har : 0 <= double a <= 100).
  { apply double_percentage.
    revert Ha. unfold EnterpriseDataAnalyzer.measure_accuracy.
    pose proof (accuracy_loop_le df) as Hle.
    destruct (EnterpriseDataAnalyzer.accuracy_loop df) as [z found].
    cbn [EnterpriseDataAnalyzer.score]. intros [= <-].
    now apply floored_percentage. }
  destruct (measure_timeliness_score now df) as (_ & _ & Ht).
  rewrite Hround, Hdim, Hml.
  destruct (EnterpriseDataAnalyzer.score
              (EnterpriseDataAnalyzer.measure_timeliness now df))
    as [t |] eqn:Et; cbn [option_map] in *.
  - destruct Ht as (t' & [= <-] & Htr); [ discriminate | ].
    apply double_percentage in Htr.
    rewrite weighted_sum_six in Hs. injection Hs as <-.
    split; [ now apply fround_percentage, dot_six_percentage | ].
    split; [ | apply measure_ml_readiness_score ].
    cbn. repeat constructor; cbn [snd]; now apply fround_percentage.
  - rewrite weighted_sum_five in Hs. injection Hs as <-.
    split; [ now apply fround_percentage, dot_five_percentage | ].
    split; [ | apply measure_ml_readiness_score ].
    cbn. repeat constructor; cbn [snd]; now apply fround_percentage.
Qed.

(** The statement at the well-formed frame [ten_rows]. *)
Lemma X9_overall_score_witness :
  exists o,
    @EnterpriseDataAnalyzer.calculate_overall_score Samples.plain
      Samples.noon Samples.ten_rows = Ok o
    /\ 0 <= EnterpriseDataAnalyzer.overall_score o <= 100.
Proof.
  destruct (@EnterpriseDataAnalyzer.calculate_overall_score Samples.plain
              Samples.noon Samples.ten_rows) as [o | e] eqn:Ho;
    [ | vm_compute in Ho; discriminate ].
  exists o. split; [ reflexivity | ].
  apply (@X9_overall_score_is_a_percentage Samples.plain Samples.noon
           Samples.ten_rows o).
  - repeat constructor.
  - exact Ho.
Defined.

(** ** Recommender: score bounds, first rank, list length *)

Section Scores.

Import ModelRecommender.

Lemma is_size_exclusive profile :
  (is_size profile small = true
   /\ is_size profile medium = false /\ is_size profile large = false)
  \/ (is_size profile small = false
      /\ is_size profile medium = true /\ is_size profile large = false)
  \/ (is_size profile small = false
      /\ is_size profile medium = false /\ is_size profile large = true).
Proof. unfold is_size. destruct (size_category profile); tauto. Qed.

Ltac known_model profile :=
  destruct (is_size_exclusive profile)
    as [(Hs & Hm & Hl) | [(Hs & Hm & Hl) | (Hs & Hm & Hl)]];
  rewrite Hs, Hm, Hl;
  cbn [String.eqb Ascii.eqb Bool.eqb orb andb];
  rewrite ?andb_false_r, ?andb_true_r;
  split_ifs; repeat split; intros; try discriminate; try lia.

Lemma score_model_bounds profile model_id :
  (45 <= _score_model profile model_id <= 105)%Z
  /\ (among model_id boosting = true ->
      (60 <= _score_model profile model_id)%Z)
  /\ (among model_id boosting = false ->
      (_score_model profile model_id <= 60)%Z).
Proof.
  unfold _score_model, among, boosting. cbn [existsb].
  destruct (String.eqb_spec model_id "xgboost") as [-> | _];
    [ known_model profile | ].
  destruct (String.eqb_spec model_id "lightgbm") as [-> | _];
    [ known_model profile | ].
  destruct (String.eqb_spec model_id "catboost") as [-> | _];
    [ known_model profile | ].
  destruct (String.eqb_spec model_id "logistic_regression") as [-> | _];
    [ known_model profile | ].
  destruct (String.eqb_spec model_id "linear_regression") as [-> | _];
    known_model profile.
Qed.

End Scores.

(** X10.  Whatever the profile, a model scores between 45 and 105; a
    gradient-boosting-family model (xgboost, lightgbm, catboost) scores at
    least 60 and any other model at most 60; random_forest and
    gradient_boosting always score 50 and linear_regression 45. *)
Theorem X10_model_score_bounds (profile : ModelRecommender.data_profile)
  (model_id : string) :
  (45 <= ModelRecommender._score_model profile model_id <= 105)%Z
  /\ (ModelRecommender.among model_id ModelRecommender.boosting = true ->
      (60 <= ModelRecommender._score_model profile model_id)%Z)
  /\ (ModelRecommender.among model_id ModelRecommender.boosting = false ->
      (ModelRecommender._score_model profile model_id <= 60)%Z)
  /\ ModelRecommender._score_model profile "random_forest" = 50%Z
  /\ ModelRecommender._score_model profile "gradient_boosting" = 50%Z
  /\ ModelRecommender._score_model profile "linear_regression" = 45%Z.
Proof.
  destruct (score_model_bounds profile model_id) as (H1 & H2 & H3).
  repeat split; try assumption; try apply H1;
    unfold ModelRecommender._score_model; cbn;
    rewrite ?andb_false_r; reflexivity.
Qed.

Section FirstRank.

Import ModelRecommender.

(** The best-scored offered model is always of the boosting family. *)
Lemma first_ranked_is_boosting profile :
  exists x l,
    sorted_desc
      (map (fun m => (m, _score_model profile m))
         (available_models (task_type profile))) = x :: l
    /\ among (fst x) boosting = true.
Proof.
  destruct profile as [r c n cat d mp hm tc tt nc ir ii mc sz].
  cbn [task_type]. unfold _score_model, is_size, imbalanced.
  cbn [size_category categorical_columns has_missing is_imbalanced].
  destruct (3 <? cat)%nat, (5 <? cat)%nat;
    destruct tt, sz, hm, ii as [[|] |];
    eexists; eexists; (split; [ vm_compute; reflexivity | reflexivity ]).
Qed.

Lemma slice_to_head {A : Type} (a : A) (elts : list A) (n : Z) :
  (1 <= n)%Z ->
  slice_to (a :: elts) n = a :: firstn (Z.to_nat n - 1) elts.
Proof.
  intros Hn. unfold slice_to.
  destruct (Z.ltb_spec n 0) as [Hneg | _]; [ lia | ].
  destruct (Z.to_nat n) as [| k] eqn:E; [ lia | ].
  cbn. now rewrite Nat.sub_0_r.
Qed.

Lemma slice_to_length {A : Type} (elts : list A) (n : Z) :
  Z.of_nat (List.length (slice_to elts n))
  = if (n <? 0)%Z then Z.max 0 (Z.of_nat (List.length elts) + n)
    else Z.min n (Z.of_nat (List.length elts)).
Proof.
  unfold slice_to. destruct (Z.ltb_spec n 0); rewrite length_firstn; lia.
Qed.

End FirstRank.

(** X11.  For every profile and every [top_n] of at least 1 the list of
    recommendations is not empty and its first entry, of rank 1, is
    xgboost, lightgbm or catboost. *)
Theorem X11_first_recommendation_is_a_boosting_model
  (profile : ModelRecommender.data_profile) (top_n : Z) :
  (1 <= top_n)%Z ->
  exists r rest,
    ModelRecommender.get_recommendations profile top_n = Ok (r :: rest)
    /\ ModelRecommender.rank r = 1%nat
    /\ In (ModelRecommender.id r) ["xgboost"; "lightgbm"; "catboost"].
Proof.
  intros Hn. rewrite get_recommendations_unfold.
  destruct (enumerate_from_ok 0 _ (ranked_in_catalogue profile top_n))
    as (recs & Hrecs & Hmap & Hrank).
  destruct (first_ranked_is_boosting profile) as (x & l & Hsorted & Hx).
  rewrite Hsorted in Hmap, Hrank. rewrite slice_to_head in Hmap, Hrank
    by exact Hn.
  destruct recs as [| r rest]; [ discriminate | ].
  cbn [map List.length seq] in Hmap, Hrank.
  injection Hmap as Hr _. injection Hrank as Hrk _.
  exists r, rest. split; [ exact Hrecs | ]. split; [ exact Hrk | ].
  rewrite <- Hr in Hx. cbn [fst] in Hx.
  unfold ModelRecommender.among, ModelRecommender.boosting in Hx.
  apply existsb_exists in Hx. destruct Hx as (m & Hm & Heq).
  apply String.eqb_eq in Heq. now subst m.
Qed.

(** The statement at [small_profile] and [top_n = 3]. *)
Lemma X11_first_recommendation_witness :
  exists r rest,
    ModelRecommender.get_recommendations small_profile 3 = Ok (r :: rest)
    /\ ModelRecommender.rank r = 1%nat
    /\ In (ModelRecommender.id r) ["xgboost"; "lightgbm"; "catboost"].
Proof.
  apply (X11_first_recommendation_is_a_boosting_model small_profile 3). lia.
Defined.

(** X12.  [get_recommendations] returns the first [top_n] of the offered
    models (6 for a classification or regression task, 3 for an unknown
    one): all of them when [top_n] is larger, none when [top_n] is 0, and
    for a negative [top_n] all but the last [-top_n]. *)
Theorem X12_number_of_recommendations
  (profile : ModelRecommender.data_profile) (top_n : Z) :
  let offered :=
    match ModelRecommender.task_type profile with
    | unknown => 3%Z
    | _ => 6%Z
    end in
  exists recs,
    ModelRecommender.get_recommendations profile top_n = Ok recs
    /\ Z.of_nat (List.length recs)
       = if (top_n <? 0)%Z then Z.max 0 (offered + top_n)
         else Z.min top_n offered.
Proof.
  cbn zeta. rewrite get_recommendations_unfold.
  destruct (enumerate_from_ok 0 _ (ranked_in_catalogue profile top_n))
    as (recs & Hrecs & Hmap & _).
  exists recs. split; [ exact Hrecs | ].
  rewrite <- (length_map (fun r => (ModelRecommender.id r,
                                   ModelRecommender.score r)) recs).
  rewrite Hmap, slice_to_length.
  rewrite (Permutation_length (sorted_desc_perm _)), length_map.
  destruct (ModelRecommender.task_type profile); reflexivity.
Qed.

(** ** Targets without values *)

(** X13.  A target column that exists but holds no value is profiled as a
    classification target with 0 classes, an imbalance ratio of 999 and
    [is_imbalanced] true; no majority share is computed. *)
Theorem X13_profile_of_an_all_missing_target (df : DataFrame) (t : string)
  (target : Series) :
  t <> "" ->
  get_column df t = Some target ->
  dropna (cells target) = [] ->
  exists profile ratio,
    ModelRecommender._analyze_data df (Some t) = Ok profile
    /\ ModelRecommender.task_type profile = classification
    /\ ModelRecommender.num_classes profile = Some 0%nat
    /\ ModelRecommender.imbalance_ratio profile = Some ratio
    /\ ratio == 999
    /\ ModelRecommender.is_imbalanced profile = Some true
    /\ ModelRecommender.majority_class_pct profile = None.
Proof.
  intros Hname Hget Hvalues. unfold ModelRecommender._analyze_data.
  assert (Ht : ModelRecommender.truthy (Some t) = Some t).
  { destruct t; [ now elim Hname | reflexivity ]. }
  rewrite Ht, Hget.
  assert (Hn : nunique target = 0%nat) by (unfold nunique; now rewrite Hvalues).
  assert (Hvc : value_counts_normalized target = [])
    by (unfold value_counts_normalized; now rewrite Hvalues).
  rewrite Hn, Hvc. cbn [Nat.leb orb]. rewrite orb_true_r.
  eexists. eexists. split; [ reflexivity | ].
  cbn [ModelRecommender.task_type ModelRecommender.num_classes
       ModelRecommender.imbalance_ratio ModelRecommender.is_imbalanced
       ModelRecommender.majority_class_pct].
  repeat split; reflexivity.
Qed.

(** The statement at a frame whose column [y] holds two missing cells. *)
Lemma X13_profile_of_an_all_missing_target_witness :
  exists profile ratio,
    ModelRecommender._analyze_data
      (mkDataFrame 2 [ mkSeries "y" float64 [None; None] ]) (Some "y")
    = Ok profile
    /\ ModelRecommender.task_type profile = classification
    /\ ModelRecommender.num_classes profile = Some 0%nat
    /\ ModelRecommender.imbalance_ratio profile = Some ratio
    /\ ratio == 999
    /\ ModelRecommender.is_imbalanced profile = Some true
    /\ ModelRecommender.majority_class_pct profile = None.
Proof.
  apply (X13_profile_of_an_all_missing_target
           (mkDataFrame 2 [ mkSeries "y" float64 [None; None] ]) "y"
           (mkSeries "y" float64 [None; None])).
  - discriminate.
  - reflexivity.
  - reflexivity.
Defined.

(** X14.  On a target column without rows the trainer's detector answers
    classification when the column is of type object or category and
    raises ZeroDivisionError otherwise: the ratio of distinct values to
    rows is computed without a guard. *)
Theorem X14_detector_on_a_column_without_rows (df : DataFrame)
  (col : string) (target : Series) :
  get_column df col = Some target ->
  cells target = [] ->
  ModelTrainer._detect_task_type df col
  = if is_categorical (dtype_of target) then Ok classification
    else Raise ZeroDivisionError.
Proof.
  intros Hget Hcells. unfold ModelTrainer._detect_task_type.
  rewrite Hget, Hcells. destruct (dtype_of target); reflexivity.
Qed.

(** The statement at [no_rows], whose column [a] is numeric. *)
Lemma X14_detector_on_a_column_without_rows_witness :
  ModelTrainer._detect_task_type Samples.no_rows "a" = Raise ZeroDivisionError.
Proof.
  apply (X14_detector_on_a_column_without_rows Samples.no_rows "a"
           (mkSeries "a" int64 [])); reflexivity.
Defined.

(** ** Class balance *)

Section ClassBalance.

Import EnterpriseDataAnalyzer.

Context {P : Pandas}.

Lemma value_eqb_refl (v : value) : value_eqb v v = true.
Proof.
  destruct v as [x | b | s | b | t]; cbn.
  - apply Qeq_bool_iff. reflexivity.
  - now destruct b.
  - apply String.eqb_refl.
  - now destruct b.
  - apply Z.eqb_refl.
Qed.

Lemma unique_incl (l : list value) (v : value) : In v (unique l) -> In v l.
Proof.
  revert v. induction l as [| a l IH]; cbn; intros v H; [ exact H | ].
  destruct H as [-> | H]; [ now left | ].
  apply filter_In in H. right. now apply IH.
Qed.

Lemma count_value_pos (l : list value) (v : value) :
  In v l -> (0 < count_value v l)%nat.
Proof.
  unfold count_value. induction l as [| a l IH]; cbn; intros H; [ easy | ].
  destruct H as [-> | H].
  - rewrite value_eqb_refl. cbn. lia.
  - destruct (value_eqb v a); cbn; [ lia | now apply IH ].
Qed.

(** Every share that [value_counts(normalize=True)] reports is positive. *)
Lemma value_counts_positive (s : Series) :
  Forall (fun q => 0 < q) (value_counts_normalized s).
Proof.
  unfold value_counts_normalized. apply Forall_forall. intros q Hq.
  apply in_map_iff in Hq. destruct Hq as (v & <- & Hv).
  apply unique_incl in Hv.
  pose proof (count_value_pos _ _ Hv) as Hc.
  assert (Hl : (0 < List.length (dropna (cells s)))%nat)
    by (destruct (dropna (cells s)); [ easy | cbn; lia ]).
  apply Qnat_pos in Hc, Hl. apply Qlt_shift_div_l; [ exact Hl | lra ].
Qed.

Lemma Qmin_cases (a b : Q) : Qmin a b = a \/ Qmin a b = b.
Proof. unfold Qmin. destruct (Qle_bool a b); tauto. Qed.

Lemma Qmin_le (a b : Q) : Qmin a b <= a /\ Qmin a b <= b.
Proof.
  unfold Qmin. destruct (Qle_bool a b) eqn:E.
  - apply Qle_bool_iff in E. split; lra.
  - split; [ | lra ]. destruct (Qlt_le_dec b a) as [H | H]; [ lra | ].
    apply Qle_bool_iff in H. congruence.
Qed.

Lemma Qmax_ge (a b : Q) : a <= Qmax a b /\ b <= Qmax a b.
Proof.
  unfold Qmax. destruct (Qle_bool a b) eqn:E.
  - apply Qle_bool_iff in E. split; lra.
  - split; [ lra | ]. destruct (Qlt_le_dec b a) as [H | H]; [ lra | ].
    apply Qle_bool_iff in H. congruence.
Qed.

Lemma fold_min_positive (l : list Q) (x : Q) :
  0 < x -> Forall (fun q => 0 < q) l ->
  0 < fold_left Qmin l x /\ fold_left Qmin l x <= x.
Proof.
  intros Hx H. revert x Hx. induction H as [| q l Hq _ IH]; intros x Hx; cbn.
  - split; [ exact Hx | lra ].
  - destruct (Qmin_cases x q) as [E | E]; pose proof (Qmin_le x q) as [H1 H2].
    + destruct (IH (Qmin x q)) as [I1 I2]; [ rewrite E; exact Hx | ].
      split; [ exact I1 | lra ].
    + destruct (IH (Qmin x q)) as [I1 I2]; [ rewrite E; exact Hq | ].
      split; [ exact I1 | lra ].
Qed.

Lemma fold_max_ge (l : list Q) (x : Q) : x <= fold_left Qmax l x.
Proof.
  revert x. induction l as [| q l IH]; intros x; cbn; [ lra | ].
  pose proof (Qmax_ge x q) as [H1 _]. specialize (IH (Qmax x q)). lra.
Qed.

(** The smallest share is positive and not above the largest. *)
Lemma shares_min_max (l : list Q) :
  l <> [] -> Forall (fun q => 0 < q) l ->
  exists mx mn,
    series_max l = Some mx /\ series_min l = Some mn
    /\ 0 < mn /\ mn <= mx.
Proof.
  destruct l as [| x l]; [ easy | ]. intros _ H.
  inversion H as [| ? ? Hx Hl]; subst.
  destruct (fold_min_positive l x Hx Hl) as [H1 H2].
  pose proof (fold_max_ge l x) as H3.
  exists (fold_left Qmax l x), (fold_left Qmin l x). cbn.
  repeat split; try assumption. lra.
Qed.

Lemma round_at_least_one (q : Q) (n : nat) : 1 <= q -> 1 <= round q n.
Proof.
  intros Hq. unfold round. pose proof (pow10_pos n) as Hp.
  destruct (round_half_even_bounds (q * pow10 n) (10 ^ Z.of_nat n)
              (Qfloor (q * pow10 n) + 1)) as [Hlo _].
  - fold (pow10 n). nra.
  - apply Qlt_le_weak, Qlt_floor.
  - rewrite Zle_Qle in Hlo. fold (pow10 n) in Hlo.
    apply Qle_shift_div_l; [ exact Hp | lra ].
Qed.

End ClassBalance.

(** X15.  On a frame without a column of dtype category, every entry of
    [class_balance_analysis] has between 2 and 20 classes and a finite
    imbalance ratio of at least 1: for a text column the infinite ratio
    of the [else] branch does not occur, because every counted class has
    a positive share.  (A category column may declare categories that no
    cell uses; their share is 0.) *)
Theorem X15_class_balance_ratio_is_finite {P : Pandas} (df : DataFrame) :
  Forall (fun c => dtype_of c <> category) (pd.columns df) ->
  Forall (fun b =>
            (2 <= EnterpriseDataAnalyzer.num_classes b <= 20)%nat
            /\ exists ratio,
                 EnterpriseDataAnalyzer.imbalance_ratio b = Some ratio
                 /\ 1 <= ratio)
    (EnterpriseDataAnalyzer.class_balance_analysis
       (EnterpriseDataAnalyzer.detail
          (EnterpriseDataAnalyzer.measure_ml_readiness df))).
Proof.
  intros _. unfold EnterpriseDataAnalyzer.measure_ml_readiness.
  cbn [EnterpriseDataAnalyzer.detail
       EnterpriseDataAnalyzer.class_balance_analysis].
  unfold EnterpriseDataAnalyzer.class_balance_of.
  induction (EnterpriseDataAnalyzer.categorical df) as [| col cols IH];
    cbn [flat_map]; [ constructor | ].
  apply Forall_app. split; [ | exact IH ].
  destruct (Nat.leb_spec 2 (nunique col)) as [H2 | H2];
    [ | cbn [andb]; constructor ].
  destruct (Nat.leb_spec (nunique col) 20) as [H20 | H20];
    [ | cbn [andb]; constructor ].
  cbn [andb]. constructor; [ | constructor ].
  cbn [EnterpriseDataAnalyzer.num_classes
       EnterpriseDataAnalyzer.imbalance_ratio].
  split; [ lia | ].
  destruct (shares_min_max (value_counts_normalized col))
    as (mx & mn & Hmx & Hmn & Hpos & Hle).
  - unfold value_counts_normalized, nunique in *.
    destruct (unique (dropna (cells col))); [ cbn in H2; lia | discriminate ].
  - apply value_counts_positive.
  - rewrite Hmx, Hmn.
    replace (Qltb 0 mn) with true by (symmetry; now apply Qltb_true).
    cbn [option_map]. eexists. split; [ reflexivity | ].
    apply round_at_least_one. apply Qle_shift_div_l; [ exact Hpos | lra ].
Qed.

(** The statement at [ten_rows], whose text column [city] has three
    classes. *)
Lemma X15_class_balance_ratio_witness :
  List.length
    (EnterpriseDataAnalyzer.class_balance_analysis
       (EnterpriseDataAnalyzer.detail
          (@EnterpriseDataAnalyzer.measure_ml_readiness Samples.plain
             Samples.ten_rows))) = 1%nat
  /\ Forall (fun b =>
               (2 <= EnterpriseDataAnalyzer.num_classes b <= 20)%nat
               /\ exists ratio,
                    EnterpriseDataAnalyzer.imbalance_ratio b = Some ratio
                    /\ 1 <= ratio)
       (EnterpriseDataAnalyzer.class_balance_analysis
          (EnterpriseDataAnalyzer.detail
             (@EnterpriseDataAnalyzer.measure_ml_readiness Samples.plain
                Samples.ten_rows))).
Proof.
  split; [ reflexivity | ].
  apply (@X15_class_balance_ratio_is_finite Samples.plain Samples.ten_rows).
  repeat constructor; discriminate.
Defined.

(** ** The justification text *)

Section Reasons.

Import ModelRecommender.

Ltac explained profile :=
  split;
  [ split;
    [ intros H; exfalso; revert H;
      unfold _generate_recommendation_reason, reasons;
      cbn [String.eqb Ascii.eqb Bool.eqb andb];
      split_ifs; cbn; discriminate
    | intros H; exfalso; apply H; cbn; tauto ]
  | unfold reasons; cbn [String.eqb Ascii.eqb Bool.eqb andb];
    split_ifs; reflexivity ].

Lemma reason_empty_iff profile model_id :
  (_generate_recommendation_reason profile model_id = ""
   <-> ~ In model_id
           ["xgboost"; "lightgbm"; "catboost"; "random_forest";
            "logistic_regression"; "linear_regression"])
  /\ firstn 3 (reasons profile model_id) = reasons profile model_id.
Proof.
  destruct (String.eqb_spec model_id "xgboost") as [-> | N1];
    [ explained profile | ].
  destruct (String.eqb_spec model_id "lightgbm") as [-> | N2];
    [ explained profile | ].
  destruct (String.eqb_spec model_id "catboost") as [-> | N3];
    [ explained profile | ].
  destruct (String.eqb_spec model_id "random_forest") as [-> | N4];
    [ explained profile | ].
  destruct (String.eqb_spec model_id "logistic_regression") as [-> | N5];
    [ explained profile | ].
  destruct (String.eqb_spec model_id "linear_regression") as [-> | N6];
    [ explained profile | ].
  unfold _generate_recommendation_reason, reasons.
  apply String.eqb_neq in N1, N2, N3, N4, N5, N6.
  rewrite N1, N2, N3, N4, N5, N6. split; [ | reflexivity ].
  split; [ | reflexivity ]. intros _ H. apply String.eqb_neq in N1, N2, N3, N4, N5, N6.
  cbn in H. intuition congruence.
Qed.

End Reasons.

(** X16.  The justification text of a recommendation is empty exactly for
    a model id that is none of xgboost, lightgbm, catboost, random_forest,
    logistic_regression and linear_regression.  So gradient_boosting,
    which is offered for classification and for regression, is always
    recommended with an empty justification.  No model collects more than
    three phrases, so the cut to three drops none. *)
Theorem X16_justification_is_empty_for_gradient_boosting
  (profile : ModelRecommender.data_profile) (model_id : string) :
  (ModelRecommender._generate_recommendation_reason profile model_id = ""
   <-> ~ In model_id
           ["xgboost"; "lightgbm"; "catboost"; "random_forest";
            "logistic_regression"; "linear_regression"])
  /\ firstn 3 (ModelRecommender.reasons profile model_id)
     = ModelRecommender.reasons profile model_id
  /\ ModelRecommender._generate_recommendation_reason profile
       "gradient_boosting" = ""
  /\ In "gradient_boosting" (ModelRecommender.available_models classification)
  /\ In "gradient_boosting" (ModelRecommender.available_models regression).
Proof.
  destruct (reason_empty_iff profile model_id) as [H1 H2].
  split; [ exact H1 | ]. split; [ exact H2 | ].
  split; [ reflexivity | ]. split; cbn; tauto.
Qed.

(** ** Column profiles, the full report and uploaded files *)

Section Profiles.

Import EnterpriseDataAnalyzer.

Context {P : Pandas} {D : Describe}.

Lemma column_profile_without_cells df col :
  cells col = [] -> column_profile df col = Raise ZeroDivisionError.
Proof. intros H. unfold column_profile. now rewrite H. Qed.

Lemma column_profile_with_cells df col :
  cells col <> [] ->
  exists p, column_profile df col = Ok p /\ pr_name p = name col.
Proof.
  intros H. unfold column_profile.
  rewrite pydiv_nat by (destruct (cells col); [ easy | cbn; lia ]).
  cbn [bind]. destruct (name_in _ _); eexists; split; reflexivity.
Qed.

Lemma for_each_all {A B : Type} (f : A -> res B) (g : B -> string)
  (h : A -> string) (l : list A) :
  Forall (fun a => exists b, f a = Ok b /\ g b = h a) l ->
  exists bs, for_each f l = Ok bs /\ map g bs = map h l.
Proof.
  induction 1 as [| a l (b & Hb & Hg) _ (bs & Hbs & Hmap)].
  - exists []. now split.
  - exists (b :: bs). cbn. rewrite Hb, Hbs. cbn. now rewrite Hg, Hmap.
Qed.

Lemma get_column_profiles_without_rows (df : DataFrame) :
  well_formed df -> len df = 0%nat -> pd.columns df <> [] ->
  get_column_profiles df = Raise ZeroDivisionError.
Proof.
  unfold well_formed, get_column_profiles, len. intros Hwf Hlen Hcols.
  destruct (pd.columns df) as [| c cs]; [ easy | ].
  inversion Hwf as [| ? ? Hc _]; subst. cbn [for_each].
  rewrite column_profile_without_cells; [ reflexivity | ].
  destruct (cells c); [ reflexivity | cbn in Hc; lia ].
Qed.

Lemma get_column_profiles_with_rows (df : DataFrame) :
  well_formed df -> (0 < len df)%nat ->
  exists profiles,
    get_column_profiles df = Ok profiles
    /\ map pr_name profiles = map name (pd.columns df).
Proof.
  unfold well_formed, get_column_profiles, len. intros Hwf Hlen.
  apply for_each_all. eapply Forall_impl; [ | exact Hwf ].
  intros c Hc. apply column_profile_with_cells. cbn beta in Hc.
  destruct (cells c); [ cbn in Hc; lia | discriminate ].
Qed.

End Profiles.

(** X17.  On a well-formed frame [get_column_profiles] raises
    ZeroDivisionError when the frame has a column but no row (the share of
    distinct values divides by the row count), and otherwise returns one
    profile per column, in column order. *)
Theorem X17_column_profiles_need_a_row {P : Pandas}
  {D : EnterpriseDataAnalyzer.Describe} (df : DataFrame) :
  well_formed df ->
  if (len df =? 0)%nat && negb (List.length (pd.columns df) =? 0)%nat
  then EnterpriseDataAnalyzer.get_column_profiles df = Raise ZeroDivisionError
  else exists profiles,
         EnterpriseDataAnalyzer.get_column_profiles df = Ok profiles
         /\ map EnterpriseDataAnalyzer.pr_name profiles
            = map name (pd.columns df).
Proof.
  intros Hwf. destruct (Nat.eqb_spec (len df) 0) as [Hz | Hnz].
  - destruct (pd.columns df) as [| c cs] eqn:Hcols; cbn [List.length Nat.eqb
      negb andb].
    + exists []. unfold EnterpriseDataAnalyzer.get_column_profiles.
      rewrite Hcols. now split.
    + apply get_column_profiles_without_rows;
        [ exact Hwf | exact Hz | now rewrite Hcols ].
  - cbn [andb]. apply get_column_profiles_with_rows; [ exact Hwf | lia ].
Qed.

(** The statement at [no_rows]: a column and no row. *)
Lemma X17_column_profiles_need_a_row_witness :
  @EnterpriseDataAnalyzer.get_column_profiles Samples.plain plain_describe
    Samples.no_rows = Raise ZeroDivisionError.
Proof.
  apply (@X17_column_profiles_need_a_row Samples.plain plain_describe
           Samples.no_rows).
  repeat constructor.
Defined.

Section UploadedFiles.

Import EnterpriseDataAnalyzer.

Context {P : Pandas} {D : Describe} {R : Readers}.

Lemma generate_full_report_without_rows stamp now1 now2 filename df :
  well_formed df -> len df = 0%nat -> pd.columns df <> [] ->
  generate_full_report stamp now1 now2 filename df = Raise ZeroDivisionError.
Proof.
  intros Hwf Hlen Hcols. unfold generate_full_report.
  destruct (calculate_overall_score_ok now1 df)
    as (rc & ru & rv & c & u & v & k & a & s & o & Hrc & _ & Hru & _
        & Hrv & _ & _ & _ & _ & Ho & _).
  rewrite Ho, Hrc, Hru, Hrv. cbn [bind].
  now rewrite get_column_profiles_without_rows.
Qed.

(** A name that ends in a dot and an extension without dot has that
    extension after its last dot. *)
Lemma endswith_after_last_dot (e s : string) :
  after_last_dot e = None ->
  endswith ("." ++ e) s = true -> after_last_dot s = Some e.
Proof.
  intros He. induction s as [| c s IH]; cbn [endswith after_last_dot].
  - cbn. discriminate.
  - intros H. apply orb_true_iff in H. destruct H as [H | H].
    + apply String.eqb_eq in H. cbn in H. injection H as -> ->.
      now rewrite He.
    + now rewrite (IH H).
Qed.

Lemma after_last_dot_endswith (e s : string) :
  after_last_dot s = Some e -> endswith ("." ++ e) s = true.
Proof.
  induction s as [| c s IH]; cbn [after_last_dot endswith];
    [ discriminate | ].
  destruct (after_last_dot s) as [t |].
  - intros [= ->]. rewrite IH by reflexivity. apply orb_true_r.
  - destruct (Ascii.eqb_spec c "."%char) as [-> | _]; [ | discriminate ].
    intros [= ->]. cbn [append]. now rewrite String.eqb_refl.
Qed.

Lemma reader_extension (filename : string) :
  reader filename <> None ->
  exists e, In e extensions /\ after_last_dot filename = Some e.
Proof.
  unfold reader, extensions.
  destruct (endswith ".csv" filename) eqn:E1.
  { intros _. exists "csv". split; [ cbn; tauto | ].
    now apply (endswith_after_last_dot "csv"). }
  destruct (endswith ".xlsx" filename) eqn:E2.
  { intros _. exists "xlsx". split; [ cbn; tauto | ].
    now apply (endswith_after_last_dot "xlsx"). }
  destruct (endswith ".xls" filename) eqn:E3.
  { intros _. exists "xls". split; [ cbn; tauto | ].
    now apply (endswith_after_last_dot "xls"). }
  destruct (endswith ".json" filename) eqn:E4.
  { intros _. exists "json". split; [ cbn; tauto | ].
    now apply (endswith_after_last_dot "json"). }
  cbn. intros H. now elim H.
Qed.

Lemma extension_allowed (filename e : string) :
  after_last_dot filename = Some e -> In (lower e) extensions ->
  name_in (file_ext filename) allowed_extensions = true.
Proof.
  intros Hlast Hin. unfold file_ext. rewrite Hlast.
  cbn in Hin. destruct Hin as [<- | [<- | [<- | [<- | []]]]]; reflexivity.
Qed.

End UploadedFiles.

(** X18.  A file whose name ends in one of the four extensions and which
    reads as a well-formed frame with columns but no row (a table with a
    header only) is not analysed: [analyze_file] answers the failure
    "division by zero", and the upload route turns it into a 400. *)
Theorem X18_header_only_file_fails {P : Pandas}
  {D : EnterpriseDataAnalyzer.Describe} {R : Readers}
  (source_id stamp : string) (now1 now2 : Z) (filename content : string)
  (read : string -> DataFrame + string) (df : DataFrame) :
  reader filename = Some read ->
  read content = inl df ->
  well_formed df -> len df = 0%nat -> pd.columns df <> [] ->
  analyze_file stamp now1 now2 content filename
  = Failed "division by zero" filename
  /\ upload_file source_id stamp now1 now2 filename content
     = BadRequest "Failed to analyze file: division by zero".
Proof.
  intros Hreader Hread Hwf Hlen Hcols.
  assert (Ha : analyze_file stamp now1 now2 content filename
               = Failed "division by zero" filename).
  { unfold analyze_file. rewrite Hreader, Hread.
    now rewrite generate_full_report_without_rows. }
  split; [ exact Ha | ]. unfold upload_file. rewrite Ha.
  destruct (reader_extension filename) as (e & He & Hlast);
    [ now rewrite Hreader | ].
  rewrite (extension_allowed filename e Hlast); [ reflexivity | ].
  cbn in He. destruct He as [<- | [<- | [<- | [<- | []]]]]; cbn; tauto.
Qed.

(** The statement for a file [t.csv] read as [no_rows]. *)
Lemma X18_header_only_file_fails_witness :
  @analyze_file Samples.plain plain_describe header_only "now" 0 0 "a" "t.csv"
  = Failed "division by zero" "t.csv".
Proof.
  apply (@X18_header_only_file_fails Samples.plain plain_describe header_only
           "id" "now" 0%Z 0%Z "t.csv" "a" (fun _ => inl Samples.no_rows)
           Samples.no_rows).
  - reflexivity.
  - reflexivity.
  - repeat constructor.
  - reflexivity.
  - discriminate.
Defined.

(** X19.  For a file name whose part after the last dot is, in lower
    case, one of csv, xlsx, xls and json, the upload route accepts the
    extension; [analyze_file] picks a reader exactly when that part is
    written in lower case.  Otherwise (as for [DATA.CSV]) the accepted
    upload is refused with "Unsupported file type". *)
Theorem X19_extension_checks_disagree_on_letter_case {P : Pandas}
  {D : EnterpriseDataAnalyzer.Describe} {R : Readers}
  (source_id stamp : string) (now1 now2 : Z) (filename content : string)
  (last : string) :
  after_last_dot filename = Some last ->
  In (lower last) extensions ->
  name_in (file_ext filename) allowed_extensions = true
  /\ (reader filename <> None <-> In last extensions)
  /\ (~ In last extensions ->
      upload_file source_id stamp now1 now2 filename content
      = BadRequest ("Failed to analyze file: Unsupported file type: "
                    ++ filename)).
Proof.
  intros Hlast Hlower.
  assert (Hext : name_in (file_ext filename) allowed_extensions = true)
    by now apply (extension_allowed filename last).
  assert (Hiff : reader filename <> None <-> In last extensions).
  { split.
    - intros H. destruct (reader_extension filename H) as (e & He & Hlast').
      rewrite Hlast in Hlast'. now injection Hlast' as ->.
    - intros Hin. apply after_last_dot_endswith in Hlast.
      unfold reader. cbn in Hin.
      destruct Hin as [<- | [<- | [<- | [<- | []]]]]; cbn [append] in Hlast;
        rewrite Hlast, ?orb_true_r; cbn [orb]; split_ifs; discriminate. }
  split; [ exact Hext | ]. split; [ exact Hiff | ].
  intros Hnot.
  assert (Hreader : reader filename = None).
  { destruct (reader filename) eqn:E; [ | reflexivity ].
    exfalso. apply Hnot, Hiff. discriminate. }
  unfold upload_file, analyze_file. now rewrite Hext, Hreader.
Qed.

(** The statement at [DATA.CSV]. *)
Lemma X19_extension_checks_witness :
  @upload_file Samples.plain plain_describe header_only "id" "now" 0 0
    "DATA.CSV" "a"
  = BadRequest "Failed to analyze file: Unsupported file type: DATA.CSV".
Proof.
  apply (@X19_extension_checks_disagree_on_letter_case Samples.plain
           plain_describe header_only "id" "now" 0%Z 0%Z "DATA.CSV" "a"
           "CSV").
  - reflexivity.
  - cbn. tauto.
  - cbn. intuition discriminate.
Defined.

(** ** Trainer: comparison of models and binary rates *)

Section Comparison.

Import ModelTrainer.

Variable key : outcome -> Q.

Lemma insert_by_perm x l : Permutation (insert_by key x l) (x :: l).
Proof.
  induction l as [| y l IH]; cbn; [ reflexivity | ].
  destruct (Qltb _ _); [ | reflexivity ].
  rewrite IH. apply perm_swap.
Qed.

Lemma sort_by_perm l : Permutation (sort_by key l) l.
Proof.
  induction l as [| x l IH]; cbn; [ reflexivity | ].
  rewrite insert_by_perm. now constructor.
Qed.

Lemma insert_by_sorted x l :
  StronglySorted (best_first key) l ->
  StronglySorted (best_first key) (insert_by key x l).
Proof.
  induction 1 as [| y l Hl IH Hy]; cbn.
  - repeat constructor.
  - destruct (Qltb (key x) (key y)) eqn:E.
    + apply Qltb_true in E. constructor; [ assumption | ].
      apply (Permutation_Forall (Permutation_sym (insert_by_perm x l))).
      constructor; [ unfold best_first; lra | assumption ].
    + apply Qltb_false in E. constructor; [ now constructor | ].
      constructor; [ exact E | ].
      eapply Forall_impl; [ | exact Hy ].
      unfold best_first. intros z Hz. lra.
Qed.

Lemma sort_by_sorted l : StronglySorted (best_first key) (sort_by key l).
Proof.
  induction l as [| x l IH]; cbn; [ constructor | ].
  now apply insert_by_sorted.
Qed.

Lemma insert_by_keyed q x l :
  keyed key q (insert_by key x l) = keyed key q (x :: l).
Proof.
  induction l as [| y l IH]; [ reflexivity | ].
  cbn [insert_by]. destruct (Qltb (key x) (key y)) eqn:E; [ | reflexivity ].
  apply Qltb_true in E. unfold keyed in *. cbn [filter] in *. rewrite IH.
  destruct (Qeq_bool (key y) q) eqn:Ey, (Qeq_bool (key x) q) eqn:Ex;
    try reflexivity.
  apply Qeq_bool_iff in Ey, Ex. lra.
Qed.

Lemma sort_by_stable q l : keyed key q (sort_by key l) = keyed key q l.
Proof.
  induction l as [| x l IH]; [ reflexivity | ].
  cbn [sort_by fold_right]. fold (sort_by key l).
  rewrite insert_by_keyed. unfold keyed in *. cbn [filter]. now rewrite IH.
Qed.

End Comparison.

(** X20.  For a classification or regression task [train_multiple] does
    not raise, whatever the training runs do: it returns one outcome per
    requested model (the first four supported models, xgboost, lightgbm,
    catboost and random_forest, when none is requested), ordered by
    descending primary metric, a failed run counting as 0, and outcomes
    of equal metric keeping the requested order. *)
Theorem X20_train_multiple_returns_every_model_sorted
  (train : string -> list (string * Q) + string) (t : task)
  (model_names : option (list string)) :
  t <> unknown ->
  let requested :=
    match model_names with
    | Some names => names
    | None => ["xgboost"; "lightgbm"; "catboost"; "random_forest"]
    end in
  let key := ModelTrainer.primary_metric t in
  exists results,
    ModelTrainer.train_multiple train t model_names = Ok results
    /\ Permutation results (map (ModelTrainer.attempt train) requested)
    /\ StronglySorted (best_first key) results
    /\ (forall q,
          keyed key q results
          = keyed key q (map (ModelTrainer.attempt train) requested))
    /\ Forall (fun x => match x with
                        | ModelTrainer.Errored _ _ => key x = 0
                        | ModelTrainer.Trained _ _ => True
                        end) results.
Proof.
  intros Ht. cbn zeta. unfold ModelTrainer.train_multiple.
  assert (Hnames :
            (match model_names with
             | Some names => Ok names
             | None =>
                 match ModelTrainer.SUPPORTED_MODELS t with
                 | Some names => Ok (firstn 4 names)
                 | None => Raise KeyError
                 end
             end)
            = Ok (match model_names with
                  | Some names => names
                  | None => ["xgboost"; "lightgbm"; "catboost";
                             "random_forest"]
                  end)).
  { destruct model_names; [ reflexivity | ].
    destruct t; try reflexivity. now elim Ht. }
  rewrite Hnames. cbn [bind]. eexists. split; [ reflexivity | ].
  split; [ apply sort_by_perm | ]. split; [ apply sort_by_sorted | ].
  split; [ intros q; apply sort_by_stable | ].
  apply Forall_forall. intros [name metrics | name error] _; reflexivity.
Qed.

(** The statement for a classification task with the default models, when
    xgboost cannot be trained. *)
Lemma X20_train_multiple_witness :
  exists results,
    ModelTrainer.train_multiple flaky classification None = Ok results
    /\ Permutation results
         (map (ModelTrainer.attempt flaky)
            ["xgboost"; "lightgbm"; "catboost"; "random_forest"])
    /\ StronglySorted
         (best_first (ModelTrainer.primary_metric classification)) results.
Proof.
  destruct (X20_train_multiple_returns_every_model_sorted flaky
              classification None) as (results & H1 & H2 & H3 & _).
  - discriminate.
  - exists results. repeat split; assumption.
Defined.

Lemma round_half_even_near (q : Q) :
  q - (1 # 2) <= inject_Z (round_half_even q) <= q + (1 # 2).
Proof.
  unfold round_half_even.
  pose proof (Qfloor_le q) as Hlo. pose proof (Qlt_floor q) as Hhi.
  rewrite inject_Z_plus in Hhi. change (inject_Z 1) with 1 in Hhi.
  destruct (Qcompare_spec (q - inject_Z (Qfloor q)) (1 # 2)) as [He | Hl | Hg].
  - destruct (Z.even (Qfloor q)).
    + lra.
    + rewrite inject_Z_plus. change (inject_Z 1) with 1. lra.
  - lra.
  - rewrite inject_Z_plus. change (inject_Z 1) with 1. lra.
Qed.

(** Rounding to four decimals moves a number by at most half of
    [0.0001]. *)
Lemma round_4_near (q : Q) :
  q - (1 # 20000) <= round q 4 <= q + (1 # 20000).
Proof.
  unfold round. change (pow10 4) with 10000.
  destruct (round_half_even_near (q * 10000)) as [Hlo Hhi].
  split.
  - apply Qle_shift_div_l; [ reflexivity | lra ].
  - apply Qle_shift_div_r; [ reflexivity | lra ].
Qed.

Lemma round_rate (q : Q) (n : nat) : rate q -> rate (round q n).
Proof.
  intros [H0 H1]. unfold rate, round.
  pose proof (pow10_pos n) as Hp.
  destruct (round_half_even_bounds (q * pow10 n) 0 (10 ^ Z.of_nat n))
    as [Hlo Hhi].
  - change (inject_Z 0) with 0. nra.
  - fold (pow10 n). nra.
  - rewrite Zle_Qle in Hlo, Hhi. fold (pow10 n) in Hhi.
    change (inject_Z 0) with 0 in Hlo.
    split.
    + apply Qle_shift_div_l; [ assumption | lra ].
    + apply Qle_shift_div_r; [ assumption | lra ].
Qed.

(** The guarded ratio [a / (a + b) if (a + b) > 0 else 0] is a rate. *)
Lemma guarded_ratio_rate (a n : nat) :
  (a <= n)%nat ->
  rate (if (0 <? n)%nat then Qnat a / Qnat n else 0).
Proof.
  intros Han. unfold rate.
  destruct (0 <? n)%nat eqn:E; [ | lra ].
  apply Nat.ltb_lt in E.
  pose proof (ratio_percentage a n Han E). lra.
Qed.

(** The two guarded ratios over the same cases add up to the whole. *)
Lemma guarded_ratios_whole (a b : nat) :
  (if (0 <? a + b)%nat then Qnat a / Qnat (a + b) else 0)
  + (if (0 <? b + a)%nat then Qnat b / Qnat (b + a) else 0)
  == whole (a + b).
Proof.
  unfold whole. rewrite (Nat.add_comm b a).
  destruct (0 <? a + b)%nat eqn:E; [ | reflexivity ].
  apply Nat.ltb_lt in E. pose proof (Qnat_pos _ E) as Hp.
  assert (Hsum : Qnat (a + b) == Qnat a + Qnat b).
  { unfold Qnat. rewrite Nat2Z.inj_add, inject_Z_plus. reflexivity. }
  field_simplify_eq; [ | lra ]. rewrite Hsum. ring.
Qed.

(** X21.  The five rates [_calculate_classification_metrics] adds for a
    binary confusion matrix are numbers between 0 and 1 for every matrix,
    an empty denominator included (the rate is then 0 and nothing is
    divided by zero).  After rounding, specificity and false positive
    rate add up to 1 within 0.0001 when there is a negative case (to 0
    when there is none), and so do sensitivity and false negative rate
    over the positive cases. *)
Theorem X21_binary_rates_are_rates_and_complementary (tn fp fn tp : nat) :
  let m := ModelTrainer.binary_metrics tn fp fn tp in
  rate (ModelTrainer.specificity m)
  /\ rate (ModelTrainer.sensitivity m)
  /\ rate (ModelTrainer.npv m)
  /\ rate (ModelTrainer.fpr m)
  /\ rate (ModelTrainer.fnr m)
  /\ Qabs (ModelTrainer.specificity m + ModelTrainer.fpr m - whole (tn + fp))
     <= 1 # 10000
  /\ Qabs (ModelTrainer.sensitivity m + ModelTrainer.fnr m - whole (tp + fn))
     <= 1 # 10000.
Proof.
  cbn zeta. unfold ModelTrainer.binary_metrics.
  cbn [ModelTrainer.specificity ModelTrainer.sensitivity ModelTrainer.npv
       ModelTrainer.fpr ModelTrainer.fnr].
  repeat match goal with
         | |- rate _ /\ _ =>
             split; [ apply round_rate, guarded_ratio_rate; lia | ]
         end.
  split.
  - pose proof (guarded_ratios_whole tn fp) as Hw.
    pose proof (round_4_near
                  (if (0 <? tn + fp)%nat then Qnat tn / Qnat (tn + fp)
                   else 0)) as H1.
    pose proof (round_4_near
                  (if (0 <? fp + tn)%nat then Qnat fp / Qnat (fp + tn)
                   else 0)) as H2.
    apply Qabs_Qle_condition. split; lra.
  - pose proof (guarded_ratios_whole tp fn) as Hw.
    pose proof (round_4_near
                  (if (0 <? tp + fn)%nat then Qnat tp / Qnat (tp + fn)
                   else 0)) as H1.
    pose proof (round_4_near
                  (if (0 <? fn + tp)%nat then Qnat fn / Qnat (fn + tp)
                   else 0)) as H2.
    apply Qabs_Qle_condition. split; lra.
Qed.

(** ** The comparison endpoint *)

Section Endpoint.

Import ModelTrainer Models.

Lemma filter_sorted (key : outcome -> Q) (p : outcome -> bool) l :
  StronglySorted (best_first key) l ->
  StronglySorted (best_first key) (filter p l).
Proof.
  induction 1 as [| x l Hl IH Hx]; cbn; [ constructor | ].
  destruct (p x); [ | exact IH ].
  constructor; [ exact IH | ].
  apply Forall_forall. intros y Hy. apply filter_In in Hy.
  rewrite Forall_forall in Hx. now apply Hx.
Qed.

Lemma max_from_best (key : outcome -> Q) best l :
  Forall (best_first key best) l -> max_from key best l = best.
Proof.
  induction 1 as [| x l Hx Hl IH]; [ reflexivity | ].
  cbn [max_from]. unfold best_first in Hx.
  destruct (Qltb (key best) (key x)) eqn:E; [ | exact IH ].
  apply Qltb_true in E. lra.
Qed.

Lemma max_by_sorted (key : outcome -> Q) l :
  StronglySorted (best_first key) l -> max_by key l = hd_error l.
Proof.
  destruct 1 as [| x l Hl Hx]; [ reflexivity | ].
  cbn. f_equal. now apply max_from_best.
Qed.

Lemma filter_attempts_failed
  (train : string -> list (string * Q) + string) names :
  (forall name, In name names -> exists error, train name = inr error) ->
  filter successful (map (attempt train) names) = [].
Proof.
  intros Hfail. induction names as [| n names IH]; [ reflexivity | ].
  cbn [map filter]. unfold attempt at 1.
  destruct (Hfail n) as [e He]; [ now left | ]. rewrite He.
  apply IH. intros name Hname. apply Hfail. now right.
Qed.

Lemma filter_perm_nil (p : outcome -> bool) l l' :
  Permutation l l' -> filter p l' = [] -> filter p l = [].
Proof.
  intros Hp Hnil.
  pose proof (filter_length_perm p _ _ Hp) as Hlen.
  rewrite Hnil in Hlen. now apply length_zero_iff_nil.
Qed.

(** The names [train_multiple] runs, once the task is known. *)
Lemma requested_names (t : task) (model_names : option (list string)) :
  t <> unknown ->
  match model_names with
  | Some names => Ok names
  | None =>
      match SUPPORTED_MODELS t with
      | Some names => Ok (firstn 4 names)
      | None => Raise KeyError
      end
  end = Ok (requested model_names).
Proof.
  intros Ht. destruct model_names; [ reflexivity | ].
  destruct t; try reflexivity. now elim Ht.
Qed.

Lemma detect_task_type_known df target_column t :
  _detect_task_type df target_column = Ok t -> t <> unknown.
Proof.
  unfold _detect_task_type.
  destruct (get_column df target_column); [ | discriminate ].
  destruct (_ || _); [ intros [= <-]; discriminate | ].
  destruct (pydiv _ _); cbn [bind]; [ | discriminate ].
  destruct (_ && _); intros [= <-]; discriminate.
Qed.

Variable key : outcome -> Q.

(** An item that no item of the list beats goes to the front. *)
Lemma insert_by_front x l :
  Forall (fun z => key z <= key x) l -> insert_by key x l = x :: l.
Proof.
  destruct 1 as [| z l Hz Hl]; [ reflexivity | ].
  cbn [insert_by]. destruct (Qltb (key x) (key z)) eqn:E; [ | reflexivity ].
  apply Qltb_true in E. lra.
Qed.

(** Filtering commutes with the sort. *)
Lemma filter_insert_by (p : outcome -> bool) x l :
  StronglySorted (best_first key) l ->
  filter p (insert_by key x l)
  = if p x then insert_by key x (filter p l) else filter p l.
Proof.
  induction 1 as [| y l Hl IH Hy]; [ cbn; now destruct (p x) | ].
  cbn [insert_by]. destruct (Qltb (key x) (key y)) eqn:E.
  - cbn [filter]. rewrite IH.
    destruct (p x), (p y); try reflexivity.
    cbn [insert_by]. now rewrite E.
  - cbn [filter]. destruct (p x) eqn:Px; [ | reflexivity ].
    destruct (p y) eqn:Py.
    + cbn [insert_by]. now rewrite E.
    + symmetry. apply insert_by_front.
      apply Qltb_false in E.
      apply Forall_forall. intros z Hz. apply filter_In in Hz.
      rewrite Forall_forall in Hy. destruct Hz as [Hz _].
      specialize (Hy z Hz). unfold best_first in Hy. lra.
Qed.

Lemma filter_sort_by (p : outcome -> bool) l :
  filter p (sort_by key l) = sort_by key (filter p l).
Proof.
  induction l as [| x l IH]; [ reflexivity | ].
  cbn [sort_by fold_right]. fold (sort_by key l).
  rewrite filter_insert_by by apply sort_by_sorted.
  rewrite IH. cbn [filter]. now destruct (p x).
Qed.

(** The head of the sorted list is the first of the items with the
    greatest key. *)
Lemma sort_by_head l b rest :
  sort_by key l = b :: rest ->
  exists before after,
    l = (before ++ b :: after)%list
    /\ Forall (fun z => key z < key b) before
    /\ Forall (fun z => key z <= key b) after.
Proof.
  revert b rest. induction l as [| x l IH]; [ discriminate | ].
  intros b rest. cbn [sort_by fold_right]. fold (sort_by key l).
  destruct (sort_by key l) as [| b' rest'] eqn:Hsorted.
  - pose proof (sort_by_perm key l) as Hp. rewrite Hsorted in Hp.
    apply Permutation_nil in Hp. subst l. cbn. intros [= <- <-].
    exists [], []. repeat split; constructor.
  - destruct (IH b' rest' eq_refl) as (before & after & -> & Hb & Ha).
    cbn [insert_by]. destruct (Qltb (key x) (key b')) eqn:E.
    + intros [= <- <-]. apply Qltb_true in E.
      exists (x :: before), after. repeat split.
      * now constructor.
      * exact Ha.
    + intros [= <- <-]. apply Qltb_false in E.
      exists [], (before ++ b' :: after)%list. repeat split; [ constructor | ].
      apply Forall_app. split.
      * eapply Forall_impl; [ | exact Hb ]. cbn. intros z Hz. lra.
      * constructor; [ exact E | ].
        eapply Forall_impl; [ | exact Ha ]. cbn. intros z Hz. lra.
Qed.

Lemma filter_split (p : outcome -> bool) l bT b aT :
  filter p l = (bT ++ b :: aT)%list ->
  exists before after,
    l = (before ++ b :: after)%list
    /\ filter p before = bT /\ filter p after = aT.
Proof.
  revert bT. induction l as [| x l IH]; intros bT.
  - destruct bT; discriminate.
  - cbn [filter]. destruct (p x) eqn:Px.
    + destruct bT as [| y bT]; cbn [app].
      * intros [= <- <-]. exists [], l. now repeat split.
      * intros [= <- H]. destruct (IH bT H) as (before & after & -> & Hb & Ha).
        exists (x :: before), after. cbn [filter app]. rewrite Px, Hb.
        now repeat split.
    + intros H. destruct (IH bT H) as (before & after & -> & Hb & Ha).
      exists (x :: before), after. cbn [filter app]. rewrite Px, Hb.
      now repeat split.
Qed.

Lemma Forall_filter (p : outcome -> bool) (R : outcome -> Prop) l :
  Forall R (filter p l) -> Forall (fun z => p z = true -> R z) l.
Proof.
  induction l as [| x l IH]; [ constructor | ].
  cbn [filter]. destruct (p x) eqn:Px.
  - intros H. inversion H; subst. constructor; [ auto | now apply IH ].
  - intros H. constructor; [ congruence | now apply IH ].
Qed.

(** The first of the selected items of the sorted list is, in the list
    as it was given, the first of the selected items with the greatest
    key. *)
Lemma first_selected (p : outcome -> bool) l b :
  hd_error (filter p (sort_by key l)) = Some b ->
  exists before after,
    l = (before ++ b :: after)%list
    /\ Forall (fun z => p z = true -> key z < key b) before
    /\ Forall (fun z => p z = true -> key z <= key b) after.
Proof.
  rewrite filter_sort_by.
  destruct (sort_by key (filter p l)) as [| b' rest] eqn:Hs; [ discriminate | ].
  cbn [hd_error]. intros [= ->].
  destruct (sort_by_head _ _ _ Hs) as (bT & aT & Hf & Hb & Ha).
  destruct (filter_split p l bT b aT Hf) as (before & after & -> & <- & <-).
  exists before, after. split; [ reflexivity | ].
  split; now apply Forall_filter.
Qed.

End Endpoint.

(** X22.  When the data is there and the target is one of its columns
    but none of the requested models can be trained (the first four
    supported models when none is named), [compare_multiple_models]
    answers with the HTTP 500 error: the failures [train_multiple]
    collected are not returned, because the [max] over the successful
    results, if nothing else, raises. *)
Theorem X22_comparison_without_a_trained_model_is_an_error
  (train : DataFrame -> string -> string -> list (string * Q) + string)
  (charts : list ModelTrainer.outcome -> option (option string))
  (df : DataFrame) (target_column : string)
  (model_names : option (list string)) :
  name_in target_column (map name (columns df)) = true ->
  (forall name,
     In name (requested model_names) ->
     exists error, train df target_column name = inr error) ->
  exists cause,
    Models.compare_multiple_models train charts (Some df) target_column
      model_names
    = Models.ServerError cause.
Proof.
  intros Hin Hfail. unfold Models.compare_multiple_models.
  rewrite Hin. cbn [negb]. unfold Models.compare_models.
  destruct (ModelTrainer._detect_task_type df target_column) as [t | e]
    eqn:Ht; cbn [bind]; [ | now eexists ].
  unfold ModelTrainer.train_multiple.
  rewrite (requested_names t model_names)
    by (eapply detect_task_type_known; exact Ht).
  cbn [bind].
  destruct (charts _); [ | now eexists ].
  rewrite (filter_perm_nil Models.successful _ _
             (sort_by_perm _ _)
             (filter_attempts_failed _ (requested model_names) Hfail)).
  cbn. now eexists.
Qed.

(** The statement for ten rows, the target [city], no model named and a
    trainer with which the four default models fail (and only they). *)
Lemma X22_comparison_without_a_trained_model_witness :
  exists cause,
    Models.compare_multiple_models (fun _ _ => defaults_fail)
      no_chart (Some Samples.ten_rows) "city" None
    = Models.ServerError cause.
Proof.
  apply X22_comparison_without_a_trained_model_is_an_error.
  - reflexivity.
  - intros name [<- | [<- | [<- | [<- | []]]]]; eexists; reflexivity.
Defined.

(** X23.  In a successful answer of [compare_multiple_models] at least
    one model was trained, [models_trained] counts the trained entries of
    [results], and [best_model] is the first trained entry of [results].
    Among the runs of the requested models, taken in the order of the
    request, it is a trained one; every trained run before it has a
    smaller primary metric and no trained run after it has a greater one:
    no trained model beats it, and among equals it is the one requested
    first. *)
Theorem X23_best_model_is_the_first_trained_result
  (train : DataFrame -> string -> string -> list (string * Q) + string)
  (charts : list ModelTrainer.outcome -> option (option string))
  (df : option DataFrame) (target_column : string)
  (model_names : option (list string)) (c : Models.comparison) :
  Models.compare_multiple_models train charts df target_column model_names
  = Models.Success c ->
  let trained := filter Models.successful (Models.results c) in
  let key := ModelTrainer.primary_metric (Models.task_type c) in
  hd_error trained = Some (Models.best_model c)
  /\ Models.models_trained c = List.length trained
  /\ (0 < Models.models_trained c)%nat
  /\ Forall (best_first key (Models.best_model c)) trained
  /\ Models.successful (Models.best_model c) = true
  /\ exists d before after,
       df = Some d
       /\ map (ModelTrainer.attempt (train d target_column))
            (requested model_names)
          = (before ++ Models.best_model c :: after)%list
       /\ Forall (fun x =>
                    Models.successful x = true ->
                    key x < key (Models.best_model c)) before
       /\ Forall (fun x =>
                    Models.successful x = true ->
                    key x <= key (Models.best_model c)) after.
Proof.
  unfold Models.compare_multiple_models.
  destruct df as [df | ]; [ | discriminate ].
  destruct (negb _); [ discriminate | ].
  unfold Models.compare_models.
  destruct (ModelTrainer._detect_task_type df target_column) as [t | e]
    eqn:Ht; cbn [bind]; [ | discriminate ].
  unfold ModelTrainer.train_multiple.
  rewrite (requested_names t model_names)
    by (eapply detect_task_type_known; exact Ht).
  cbn [bind].
  destruct (charts _) as [chart | ]; [ | discriminate ].
  cbn zeta.
  pose proof (filter_sorted (ModelTrainer.primary_metric t)
                Models.successful _
                (sort_by_sorted (ModelTrainer.primary_metric t)
                   (map (ModelTrainer.attempt (train df target_column))
                      (requested model_names)))) as Hsorted.
  pose proof (first_selected (ModelTrainer.primary_metric t)
                Models.successful
                (map (ModelTrainer.attempt (train df target_column))
                   (requested model_names))) as Hfirst.
  destruct (filter Models.successful _) as [| x trained] eqn:Htrained;
    [ discriminate | ].
  rewrite (max_by_sorted _ _ Hsorted). cbn [hd_error].
  intros [= <-]. cbn [Models.results Models.best_model
                      Models.models_trained Models.task_type].
  rewrite Htrained. cbn [hd_error List.length].
  assert (Hx : Models.successful x = true).
  { assert (Hin : In x (x :: trained)) by now left.
    rewrite <- Htrained in Hin. now apply filter_In in Hin. }
  split; [ reflexivity | ]. split; [ reflexivity | ]. split; [ lia | ].
  split.
  { inversion Hsorted as [| ? ? _ Hall]; subst.
    constructor; [ unfold best_first; lra | exact Hall ]. }
  split; [ exact Hx | ].
  destruct (Hfirst x eq_refl) as (before & after & Hl & Hb & Ha).
  exists df, before, after. now repeat split.
Qed.

(** The statement for ten rows, the target [city], no model named and a
    trainer that fails on xgboost only: the three other models reach the
    same accuracy, and lightgbm, requested before them, is the best. *)
Lemma X23_best_model_witness :
  exists c,
    Models.compare_multiple_models (fun _ _ => flaky) no_chart
      (Some Samples.ten_rows) "city" None
    = Models.Success c
    /\ hd_error (filter Models.successful (Models.results c))
       = Some (Models.best_model c)
    /\ Models.models_trained c = 3%nat
    /\ Models.best_model c
       = ModelTrainer.Trained "lightgbm" [("accuracy", 9 # 10)]
    /\ exists before after,
         map (ModelTrainer.attempt flaky) (requested None)
         = (before ++ Models.best_model c :: after)%list
         /\ Forall (fun x =>
                      Models.successful x = true ->
                      ModelTrainer.primary_metric (Models.task_type c) x
                      < ModelTrainer.primary_metric (Models.task_type c)
                          (Models.best_model c)) before.
Proof.
  eexists. split; [ reflexivity | ].
  destruct (X23_best_model_is_the_first_trained_result
              (fun _ _ => flaky) no_chart (Some Samples.ten_rows) "city"
              None _ eq_refl)
    as (H1 & H2 & _ & _ & _ & d & before & after & _ & Hl & Hb & _).
  split; [ exact H1 | ]. split; [ reflexivity | ].
  split; [ reflexivity | ].
  exists before, after. split; [ exact Hl | exact Hb ].
Defined.
